(** * Task orchestration engine: a shallow embedding of [Task]

    The class [Task] (conversation store, ask/say protocol, streaming
    request controller, task loop, pause/resume and abort) is embedded as
    state transformers over an explicit [World]: the mutable fields of
    the task object, the interval timers of the host runtime, and the
    trace of the calls made to external collaborators (presentation sink,
    persistence, backend, timers).

    Conventions.
    - A JavaScript [async] method becomes a computation in the monad [M];
      an exception is the outcome [Throw] and keeps the state reached so
      far (nothing is rolled back); a wait that the given schedule never
      satisfies is the outcome [Pending].
    - Values supplied by the outside world for one call ([Date.now()],
      whether the provider weak reference is still live, whether a
      persistence call throws, whether the diff view is editing) are
      gathered in an [Env] argument. Collaborator calls other than the
      persistence ones return normally; [console.log] is not recorded.
    - A polling wait runs against a schedule: for each sleep between two
      successive polls, the things the rest of the system does meanwhile. The stream loop is
      interleaved in the same way while it waits for the next chunk. The
      other [await]s are not interleaving points.
    - Calls that the source does not await ([updateClineMessage],
      [abortTask] from the stream handler) are run to completion at the
      call site.
    - Numbers that the source may hold as fractions (delays in seconds) are
      rationals; timestamps and token counts are integers. *)

From Stdlib Require Import ZArith QArith Qround Qminmax String Ascii List Bool Lia.
From Stdlib Require Import DecimalString.
From Stdlib Require DecimalPos.
Import ListNotations.
Local Open Scope Z_scope.

Set Implicit Arguments.

(** ** Data model *)

Inductive MessageType := type_ask | type_say.

Inductive ClineAskResponse := yesButtonClicked | noButtonClicked | messageResponse.

Record ContextCondense := {
  summary : string;
  cost : Q;
  newContextTokens : Z;
  prevContextTokens : Z
}.

Module ClineMessage.
Record t := mk {
  ts : Z;
  type : MessageType;
  ask : option string;
  say : option string;
  text : option string;
  images : option (list string);
  partial : option bool;
  progressStatus : option string;
  checkpoint : option string;
  contextCondense : option ContextCondense
}.
End ClineMessage.
Abbreviation ClineMessage := ClineMessage.t.

Inductive Role := user | assistant.

Inductive ContentBlock :=
| TextBlock (text : string)
| ImageBlock (data : string).

Inductive MessageContent :=
| ContentString (s : string)
| ContentBlocks (blocks : list ContentBlock).

Module ApiMessage.
Record t := mk {
  role : Role;
  content : MessageContent;
  ts : option Z
}.
End ApiMessage.
Abbreviation ApiMessage := ApiMessage.t.

Inductive JsError :=
| Error (message : string)
| TypeError (message : string).

Definition Handle := nat.

Record Task := {
  taskId : string;
  instanceId : string;
  abort : bool;
  didFinishAbortingStream : bool;
  abandoned : bool;
  isPaused : bool;
  pauseInterval : option Handle;
  lastApiRequestTime : option Z;
  apiConversationHistory : list ApiMessage;
  clineMessages : list ClineMessage;
  askResponse : option ClineAskResponse;
  askResponseText : option string;
  askResponseImages : option (list string);
  lastMessageTs : option Z;
  consecutiveMistakeCount : Z;
  consecutiveMistakeLimit : Z;
  isWaitingForFirstChunk : bool;
  isStreaming : bool;
  didRejectTool : bool;
  didAlreadyUseTool : bool
}.

Inductive MessageAction := created | updated.

(** Calls that leave the task object, in the order they are made. *)
Inductive Event :=
| postStateToWebview
| postMessageToWebview (partialMessage : ClineMessage)
| emit_message (action : MessageAction) (message : ClineMessage)
| emit (name : string)
| saveTaskMessages (messages : list ClineMessage)
| taskMetadata (messages : list ClineMessage)
| updateTaskHistory
| saveApiMessages (messages : list ApiMessage)
| console_error (prefix : string) (error : JsError)
| provider_log (line : string)
| setChatType (chatType : string)
| setInterval (h : Handle) (ms : Z)
| clearInterval (h : option Handle)
| delay (ms : Z)
| pollWait (ms : Z)
| releaseTerminalsForTask
| closeBrowser
| dispose
| revertChanges
| captureConsecutiveMistakeError
| createMessage
| initClineWithHistoryItem.

Record World := {
  this : Task;
  timers : list Handle;
  nextHandle : Handle;
  resolved : list Handle;
  trace : list Event
}.

Inductive SaveStep := at_saveTaskMessages | at_taskMetadata | at_updateTaskHistory.

Record Env := {
  Date_now : Z;
  provider : bool;
  saveFault : option (SaveStep * JsError);
  apiSaveFault : option JsError;
  isEditing : bool
}.

(** ** Field assignment *)

Definition set_abort (v : bool) (t : Task) : Task :=
  {| taskId := taskId t; instanceId := instanceId t; abort := v;
     didFinishAbortingStream := didFinishAbortingStream t; abandoned := abandoned t;
     isPaused := isPaused t; pauseInterval := pauseInterval t;
     lastApiRequestTime := lastApiRequestTime t;
     apiConversationHistory := apiConversationHistory t; clineMessages := clineMessages t;
     askResponse := askResponse t; askResponseText := askResponseText t;
     askResponseImages := askResponseImages t; lastMessageTs := lastMessageTs t;
     consecutiveMistakeCount := consecutiveMistakeCount t;
     consecutiveMistakeLimit := consecutiveMistakeLimit t;
     isWaitingForFirstChunk := isWaitingForFirstChunk t; isStreaming := isStreaming t;
     didRejectTool := didRejectTool t; didAlreadyUseTool := didAlreadyUseTool t |}.

Definition set_didFinishAbortingStream (v : bool) (t : Task) : Task :=
  {| taskId := taskId t; instanceId := instanceId t; abort := abort t;
     didFinishAbortingStream := v; abandoned := abandoned t;
     isPaused := isPaused t; pauseInterval := pauseInterval t;
     lastApiRequestTime := lastApiRequestTime t;
     apiConversationHistory := apiConversationHistory t; clineMessages := clineMessages t;
     askResponse := askResponse t; askResponseText := askResponseText t;
     askResponseImages := askResponseImages t; lastMessageTs := lastMessageTs t;
     consecutiveMistakeCount := consecutiveMistakeCount t;
     consecutiveMistakeLimit := consecutiveMistakeLimit t;
     isWaitingForFirstChunk := isWaitingForFirstChunk t; isStreaming := isStreaming t;
     didRejectTool := didRejectTool t; didAlreadyUseTool := didAlreadyUseTool t |}.

Definition set_abandoned (v : bool) (t : Task) : Task :=
  {| taskId := taskId t; instanceId := instanceId t; abort := abort t;
     didFinishAbortingStream := didFinishAbortingStream t; abandoned := v;
     isPaused := isPaused t; pauseInterval := pauseInterval t;
     lastApiRequestTime := lastApiRequestTime t;
     apiConversationHistory := apiConversationHistory t; clineMessages := clineMessages t;
     askResponse := askResponse t; askResponseText := askResponseText t;
     askResponseImages := askResponseImages t; lastMessageTs := lastMessageTs t;
     consecutiveMistakeCount := consecutiveMistakeCount t;
     consecutiveMistakeLimit := consecutiveMistakeLimit t;
     isWaitingForFirstChunk := isWaitingForFirstChunk t; isStreaming := isStreaming t;
     didRejectTool := didRejectTool t; didAlreadyUseTool := didAlreadyUseTool t |}.

Definition set_isPaused (v : bool) (t : Task) : Task :=
  {| taskId := taskId t; instanceId := instanceId t; abort := abort t;
     didFinishAbortingStream := didFinishAbortingStream t; abandoned := abandoned t;
     isPaused := v; pauseInterval := pauseInterval t;
     lastApiRequestTime := lastApiRequestTime t;
     apiConversationHistory := apiConversationHistory t; clineMessages := clineMessages t;
     askResponse := askResponse t; askResponseText := askResponseText t;
     askResponseImages := askResponseImages t; lastMessageTs := lastMessageTs t;
     consecutiveMistakeCount := consecutiveMistakeCount t;
     consecutiveMistakeLimit := consecutiveMistakeLimit t;
     isWaitingForFirstChunk := isWaitingForFirstChunk t; isStreaming := isStreaming t;
     didRejectTool := didRejectTool t; didAlreadyUseTool := didAlreadyUseTool t |}.

Definition set_pauseInterval (v : option Handle) (t : Task) : Task :=
  {| taskId := taskId t; instanceId := instanceId t; abort := abort t;
     didFinishAbortingStream := didFinishAbortingStream t; abandoned := abandoned t;
     isPaused := isPaused t; pauseInterval := v;
     lastApiRequestTime := lastApiRequestTime t;
     apiConversationHistory := apiConversationHistory t; clineMessages := clineMessages t;
     askResponse := askResponse t; askResponseText := askResponseText t;
     askResponseImages := askResponseImages t; lastMessageTs := lastMessageTs t;
     consecutiveMistakeCount := consecutiveMistakeCount t;
     consecutiveMistakeLimit := consecutiveMistakeLimit t;
     isWaitingForFirstChunk := isWaitingForFirstChunk t; isStreaming := isStreaming t;
     didRejectTool := didRejectTool t; didAlreadyUseTool := didAlreadyUseTool t |}.

Definition set_lastApiRequestTime (v : option Z) (t : Task) : Task :=
  {| taskId := taskId t; instanceId := instanceId t; abort := abort t;
     didFinishAbortingStream := didFinishAbortingStream t; abandoned := abandoned t;
     isPaused := isPaused t; pauseInterval := pauseInterval t;
     lastApiRequestTime := v;
     apiConversationHistory := apiConversationHistory t; clineMessages := clineMessages t;
     askResponse := askResponse t; askResponseText := askResponseText t;
     askResponseImages := askResponseImages t; lastMessageTs := lastMessageTs t;
     consecutiveMistakeCount := consecutiveMistakeCount t;
     consecutiveMistakeLimit := consecutiveMistakeLimit t;
     isWaitingForFirstChunk := isWaitingForFirstChunk t; isStreaming := isStreaming t;
     didRejectTool := didRejectTool t; didAlreadyUseTool := didAlreadyUseTool t |}.

Definition set_apiConversationHistory (v : list ApiMessage) (t : Task) : Task :=
  {| taskId := taskId t; instanceId := instanceId t; abort := abort t;
     didFinishAbortingStream := didFinishAbortingStream t; abandoned := abandoned t;
     isPaused := isPaused t; pauseInterval := pauseInterval t;
     lastApiRequestTime := lastApiRequestTime t;
     apiConversationHistory := v; clineMessages := clineMessages t;
     askResponse := askResponse t; askResponseText := askResponseText t;
     askResponseImages := askResponseImages t; lastMessageTs := lastMessageTs t;
     consecutiveMistakeCount := consecutiveMistakeCount t;
     consecutiveMistakeLimit := consecutiveMistakeLimit t;
     isWaitingForFirstChunk := isWaitingForFirstChunk t; isStreaming := isStreaming t;
     didRejectTool := didRejectTool t; didAlreadyUseTool := didAlreadyUseTool t |}.

Definition set_clineMessages (v : list ClineMessage) (t : Task) : Task :=
  {| taskId := taskId t; instanceId := instanceId t; abort := abort t;
     didFinishAbortingStream := didFinishAbortingStream t; abandoned := abandoned t;
     isPaused := isPaused t; pauseInterval := pauseInterval t;
     lastApiRequestTime := lastApiRequestTime t;
     apiConversationHistory := apiConversationHistory t; clineMessages := v;
     askResponse := askResponse t; askResponseText := askResponseText t;
     askResponseImages := askResponseImages t; lastMessageTs := lastMessageTs t;
     consecutiveMistakeCount := consecutiveMistakeCount t;
     consecutiveMistakeLimit := consecutiveMistakeLimit t;
     isWaitingForFirstChunk := isWaitingForFirstChunk t; isStreaming := isStreaming t;
     didRejectTool := didRejectTool t; didAlreadyUseTool := didAlreadyUseTool t |}.

(** The three assignments [this.askResponse = r; this.askResponseText = tx;
    this.askResponseImages = im], which the source always makes together. *)
Definition set_askResponse (r : option ClineAskResponse) (tx : option string)
    (im : option (list string)) (t : Task) : Task :=
  {| taskId := taskId t; instanceId := instanceId t; abort := abort t;
     didFinishAbortingStream := didFinishAbortingStream t; abandoned := abandoned t;
     isPaused := isPaused t; pauseInterval := pauseInterval t;
     lastApiRequestTime := lastApiRequestTime t;
     apiConversationHistory := apiConversationHistory t; clineMessages := clineMessages t;
     askResponse := r; askResponseText := tx;
     askResponseImages := im; lastMessageTs := lastMessageTs t;
     consecutiveMistakeCount := consecutiveMistakeCount t;
     consecutiveMistakeLimit := consecutiveMistakeLimit t;
     isWaitingForFirstChunk := isWaitingForFirstChunk t; isStreaming := isStreaming t;
     didRejectTool := didRejectTool t; didAlreadyUseTool := didAlreadyUseTool t |}.

Definition set_lastMessageTs (v : option Z) (t : Task) : Task :=
  {| taskId := taskId t; instanceId := instanceId t; abort := abort t;
     didFinishAbortingStream := didFinishAbortingStream t; abandoned := abandoned t;
     isPaused := isPaused t; pauseInterval := pauseInterval t;
     lastApiRequestTime := lastApiRequestTime t;
     apiConversationHistory := apiConversationHistory t; clineMessages := clineMessages t;
     askResponse := askResponse t; askResponseText := askResponseText t;
     askResponseImages := askResponseImages t; lastMessageTs := v;
     consecutiveMistakeCount := consecutiveMistakeCount t;
     consecutiveMistakeLimit := consecutiveMistakeLimit t;
     isWaitingForFirstChunk := isWaitingForFirstChunk t; isStreaming := isStreaming t;
     didRejectTool := didRejectTool t; didAlreadyUseTool := didAlreadyUseTool t |}.

Definition set_consecutiveMistakeCount (v : Z) (t : Task) : Task :=
  {| taskId := taskId t; instanceId := instanceId t; abort := abort t;
     didFinishAbortingStream := didFinishAbortingStream t; abandoned := abandoned t;
     isPaused := isPaused t; pauseInterval := pauseInterval t;
     lastApiRequestTime := lastApiRequestTime t;
     apiConversationHistory := apiConversationHistory t; clineMessages := clineMessages t;
     askResponse := askResponse t; askResponseText := askResponseText t;
     askResponseImages := askResponseImages t; lastMessageTs := lastMessageTs t;
     consecutiveMistakeCount := v;
     consecutiveMistakeLimit := consecutiveMistakeLimit t;
     isWaitingForFirstChunk := isWaitingForFirstChunk t; isStreaming := isStreaming t;
     didRejectTool := didRejectTool t; didAlreadyUseTool := didAlreadyUseTool t |}.

Definition set_isWaitingForFirstChunk (v : bool) (t : Task) : Task :=
  {| taskId := taskId t; instanceId := instanceId t; abort := abort t;
     didFinishAbortingStream := didFinishAbortingStream t; abandoned := abandoned t;
     isPaused := isPaused t; pauseInterval := pauseInterval t;
     lastApiRequestTime := lastApiRequestTime t;
     apiConversationHistory := apiConversationHistory t; clineMessages := clineMessages t;
     askResponse := askResponse t; askResponseText := askResponseText t;
     askResponseImages := askResponseImages t; lastMessageTs := lastMessageTs t;
     consecutiveMistakeCount := consecutiveMistakeCount t;
     consecutiveMistakeLimit := consecutiveMistakeLimit t;
     isWaitingForFirstChunk := v; isStreaming := isStreaming t;
     didRejectTool := didRejectTool t; didAlreadyUseTool := didAlreadyUseTool t |}.

Definition set_isStreaming (v : bool) (t : Task) : Task :=
  {| taskId := taskId t; instanceId := instanceId t; abort := abort t;
     didFinishAbortingStream := didFinishAbortingStream t; abandoned := abandoned t;
     isPaused := isPaused t; pauseInterval := pauseInterval t;
     lastApiRequestTime := lastApiRequestTime t;
     apiConversationHistory := apiConversationHistory t; clineMessages := clineMessages t;
     askResponse := askResponse t; askResponseText := askResponseText t;
     askResponseImages := askResponseImages t; lastMessageTs := lastMessageTs t;
     consecutiveMistakeCount := consecutiveMistakeCount t;
     consecutiveMistakeLimit := consecutiveMistakeLimit t;
     isWaitingForFirstChunk := isWaitingForFirstChunk t; isStreaming := v;
     didRejectTool := didRejectTool t; didAlreadyUseTool := didAlreadyUseTool t |}.

Definition with_this (f : Task -> Task) (w : World) : World :=
  {| this := f (this w); timers := timers w; nextHandle := nextHandle w;
     resolved := resolved w; trace := trace w |}.

Definition record (ev : Event) (w : World) : World :=
  {| this := this w; timers := timers w; nextHandle := nextHandle w;
     resolved := resolved w; trace := trace w ++ [ev] |}.

(** ** The computation monad *)

Inductive Outcome (A : Type) : Type :=
| Return (a : A)
| Throw (e : JsError)
| Pending.
Arguments Throw {A} e.
Arguments Pending {A}.

Definition M (A : Type) : Type := World -> Outcome A * World.

Definition ret {A} (a : A) : M A := fun w => (Return a, w).

Definition bind {A B} (c : M A) (k : A -> M B) : M B :=
  fun w =>
    match c w with
    | (Return a, w') => k a w'
    | (Throw e, w') => (Throw e, w')
    | (Pending, w') => (Pending, w')
    end.

Definition throw {A} (e : JsError) : M A := fun w => (Throw e, w).

(** [try { body } catch (error) { handler error }] *)
Definition tryCatch {A} (body : M A) (handler : JsError -> M A) : M A :=
  fun w =>
    match body w with
    | (Throw e, w') => handler e w'
    | r => r
    end.

Definition getThis : M Task := fun w => (Return (this w), w).

Definition assign (f : Task -> Task) : M unit := fun w => (Return tt, with_this f w).

Definition call (ev : Event) : M unit := fun w => (Return tt, record ev w).

(** An external call that the environment may make throw. *)
Definition callOrThrow (ev : Event) (fault : option JsError) : M unit :=
  fun w =>
    match fault with
    | Some err => (Throw err, record ev w)
    | None => (Return tt, record ev w)
    end.

Definition when (b : bool) (c : M unit) : M unit := if b then c else ret tt.

Declare Scope task_scope.
Delimit Scope task_scope with task.
Notation "x <- c ;; k" := (bind c (fun x => k))
  (at level 61, c at next level, right associativity) : task_scope.
Notation "c ;; k" := (bind c (fun _ => k))
  (at level 61, right associativity) : task_scope.
Local Open Scope task_scope.

(** ** Conversation store *)

Definition faultAt (e : Env) (step : SaveStep) : option JsError :=
  match saveFault e with
  | Some (at_saveTaskMessages, err) =>
      match step with at_saveTaskMessages => Some err | _ => None end
  | Some (at_taskMetadata, err) =>
      match step with at_taskMetadata => Some err | _ => None end
  | Some (at_updateTaskHistory, err) =>
      match step with at_updateTaskHistory => Some err | _ => None end
  | None => None
  end.

Definition saveApiConversationHistory (e : Env) : M unit :=
  tryCatch
    (t <- getThis ;;
     callOrThrow (saveApiMessages (apiConversationHistory t)) (apiSaveFault e))
    (fun error => call (console_error "Failed to save API conversation history:" error)).

Definition addToApiConversationHistory (e : Env) (role : Role) (content : MessageContent)
    : M unit :=
  let messageWithTs := ApiMessage.mk role content (Some (Date_now e)) in
  assign (fun t => set_apiConversationHistory (apiConversationHistory t ++ [messageWithTs]) t) ;;
  saveApiConversationHistory e.

Definition overwriteApiConversationHistory (e : Env) (newHistory : list ApiMessage) : M unit :=
  assign (set_apiConversationHistory newHistory) ;;
  saveApiConversationHistory e.

Definition saveClineMessages (e : Env) : M unit :=
  tryCatch
    (t <- getThis ;;
     callOrThrow (saveTaskMessages (clineMessages t)) (faultAt e at_saveTaskMessages) ;;
     callOrThrow (taskMetadata (clineMessages t)) (faultAt e at_taskMetadata) ;;
     call (emit "taskTokenUsageUpdated") ;;
     when (provider e) (callOrThrow updateTaskHistory (faultAt e at_updateTaskHistory)))
    (fun error => call (console_error "Failed to save Costrict messages:" error)).

Definition addToClineMessages (e : Env) (message : ClineMessage) : M unit :=
  assign (fun t => set_clineMessages (clineMessages t ++ [message]) t) ;;
  when (provider e) (call postStateToWebview) ;;
  call (emit_message created message) ;;
  saveClineMessages e.

Definition overwriteClineMessages (e : Env) (newMessages : list ClineMessage) : M unit :=
  assign (set_clineMessages newMessages) ;;
  saveClineMessages e.

Definition updateClineMessage (e : Env) (partialMessage : ClineMessage) : M unit :=
  when (provider e) (call (postMessageToWebview partialMessage)) ;;
  call (emit_message updated partialMessage).

(** ** Ask/Say protocol *)

(** [array.at(-1)] *)
Fixpoint at_last {A} (l : list A) : option A :=
  match l with
  | [] => None
  | [x] => Some x
  | _ :: rest => at_last rest
  end.

(** Assignment to fields of the object that [at(-1)] returned: the last
    cell of the array now holds the changed object. *)
Definition replaceLast {A} (x : A) (l : list A) : list A := removelast l ++ [x].

Definition truthy (b : option bool) : bool :=
  match b with Some true => true | _ => false end.

Definition MessageType_eqb (a b : MessageType) : bool :=
  match a, b with
  | type_ask, type_ask | type_say, type_say => true
  | _, _ => false
  end.

Definition tag_is (tag : option string) (type : string) : bool :=
  match tag with Some s => String.eqb s type | None => false end.

(** [lastMessage && lastMessage.partial && lastMessage.type === kind &&
    lastMessage[kind] === type]; when it holds the result carries
    [lastMessage]. *)
Definition isUpdatingPreviousPartial (kind : MessageType) (type : string)
    (lastMessage : option ClineMessage) : option ClineMessage :=
  match lastMessage with
  | Some m =>
      if truthy (ClineMessage.partial m) && MessageType_eqb (ClineMessage.type m) kind
         && tag_is (match kind with
                    | type_ask => ClineMessage.ask m
                    | type_say => ClineMessage.say m
                    end) type
      then Some m else None
  | None => None
  end.

Definition abortedError (method : string) (t : Task) : JsError :=
  Error ("[Costrict#" ++ method ++ "] task " ++ taskId t ++ "." ++ instanceId t ++ " aborted").

Definition say (e : Env) (type : string) (text : option string) (images : option (list string))
    (partial : option bool) (checkpoint : option string) (progressStatus : option string)
    (isNonInteractive : bool) (contextCondense : option ContextCondense) : M unit :=
  t <- getThis ;;
  if abort t then throw (abortedError "say" t)
  else
    match partial with
    | Some p =>
        let lastMessage := at_last (clineMessages t) in
        if p then
          match isUpdatingPreviousPartial type_say type lastMessage with
          | Some m =>
              let m' := ClineMessage.mk (ClineMessage.ts m) (ClineMessage.type m)
                          (ClineMessage.ask m) (ClineMessage.say m) text images (Some p)
                          progressStatus (ClineMessage.checkpoint m)
                          (ClineMessage.contextCondense m) in
              assign (fun t => set_clineMessages (replaceLast m' (clineMessages t)) t) ;;
              updateClineMessage e m'
          | None =>
              let sayTs := Date_now e in
              when (negb isNonInteractive) (assign (set_lastMessageTs (Some sayTs))) ;;
              addToClineMessages e
                (ClineMessage.mk sayTs type_say None (Some type) text images (Some p)
                   None None contextCondense)
          end
        else
          match isUpdatingPreviousPartial type_say type lastMessage with
          | Some m =>
              when (negb isNonInteractive)
                (assign (set_lastMessageTs (Some (ClineMessage.ts m)))) ;;
              let m' := ClineMessage.mk (ClineMessage.ts m) (ClineMessage.type m)
                          (ClineMessage.ask m) (ClineMessage.say m) text images (Some false)
                          progressStatus (ClineMessage.checkpoint m)
                          (ClineMessage.contextCondense m) in
              assign (fun t => set_clineMessages (replaceLast m' (clineMessages t)) t) ;;
              saveClineMessages e ;;
              updateClineMessage e m'
          | None =>
              let sayTs := Date_now e in
              when (negb isNonInteractive) (assign (set_lastMessageTs (Some sayTs))) ;;
              addToClineMessages e
                (ClineMessage.mk sayTs type_say None (Some type) text images None
                   None None contextCondense)
          end
    | None =>
        let sayTs := Date_now e in
        when (negb isNonInteractive) (assign (set_lastMessageTs (Some sayTs))) ;;
        addToClineMessages e
          (ClineMessage.mk sayTs type_say None (Some type) text images None
             None checkpoint contextCondense)
    end.

(** [ask] up to, and excluding, its wait for a response: the result is
    [askTs]. *)
Definition ask_begin (e : Env) (type : string) (text : option string) (partial : option bool)
    (progressStatus : option string) : M Z :=
  t <- getThis ;;
  if abort t then throw (abortedError "ask" t)
  else
    match partial with
    | Some p =>
        let lastMessage := at_last (clineMessages t) in
        if p then
          match isUpdatingPreviousPartial type_ask type lastMessage with
          | Some m =>
              let m' := ClineMessage.mk (ClineMessage.ts m) (ClineMessage.type m)
                          (ClineMessage.ask m) (ClineMessage.say m) text
                          (ClineMessage.images m) (Some p)
                          progressStatus (ClineMessage.checkpoint m)
                          (ClineMessage.contextCondense m) in
              assign (fun t => set_clineMessages (replaceLast m' (clineMessages t)) t) ;;
              updateClineMessage e m' ;;
              throw (Error "Current ask promise was ignored (#1)")
          | None =>
              let askTs := Date_now e in
              assign (set_lastMessageTs (Some askTs)) ;;
              addToClineMessages e
                (ClineMessage.mk askTs type_ask (Some type) None text None (Some p)
                   None None None) ;;
              throw (Error "Current ask promise was ignored (#2)")
          end
        else
          match isUpdatingPreviousPartial type_ask type lastMessage with
          | Some m =>
              assign (set_askResponse None None None) ;;
              let askTs := ClineMessage.ts m in
              assign (set_lastMessageTs (Some askTs)) ;;
              let m' := ClineMessage.mk (ClineMessage.ts m) (ClineMessage.type m)
                          (ClineMessage.ask m) (ClineMessage.say m) text
                          (ClineMessage.images m) (Some false)
                          progressStatus (ClineMessage.checkpoint m)
                          (ClineMessage.contextCondense m) in
              assign (fun t => set_clineMessages (replaceLast m' (clineMessages t)) t) ;;
              saveClineMessages e ;;
              updateClineMessage e m' ;;
              ret askTs
          | None =>
              assign (set_askResponse None None None) ;;
              let askTs := Date_now e in
              assign (set_lastMessageTs (Some askTs)) ;;
              addToClineMessages e
                (ClineMessage.mk askTs type_ask (Some type) None text None None
                   None None None) ;;
              ret askTs
          end
    | None =>
        assign (set_askResponse None None None) ;;
        let askTs := Date_now e in
        assign (set_lastMessageTs (Some askTs)) ;;
        addToClineMessages e
          (ClineMessage.mk askTs type_ask (Some type) None text None None
             None None None) ;;
        ret askTs
    end.

Definition handleWebviewAskResponse (askResponse : ClineAskResponse) (text : option string)
    (images : option (list string)) (chatType : option string) : M unit :=
  assign (set_askResponse (Some askResponse) text images) ;;
  call (setChatType (match chatType with Some c => c | None => "system" end)).

(** ** Pause/resume and abort *)

Definition errorToString (error : JsError) : string :=
  match error with
  | Error m => "Error: " ++ m
  | TypeError m => "TypeError: " ++ m
  end.

(** [clearInterval(x)] in the host runtime: the timer, if any, stops firing. *)
Definition clearIntervalNow (x : option Handle) : M unit :=
  fun w =>
    (Return tt,
     {| this := this w;
        timers := match x with
                  | Some h => List.filter (fun h' => negb (Nat.eqb h' h)) (timers w)
                  | None => timers w
                  end;
        nextHandle := nextHandle w; resolved := resolved w;
        trace := trace w ++ [clearInterval x] |}).

(** [resolve()] of the promise created by the [waitForResume] call that
    registered timer [h]. *)
Definition resolvePromise (h : Handle) : M unit :=
  fun w =>
    (Return tt,
     {| this := this w; timers := timers w; nextHandle := nextHandle w;
        resolved := h :: resolved w; trace := trace w |}).

Definition abortTask (e : Env) (isAbandoned : bool) : M unit :=
  when isAbandoned (assign (set_abandoned true)) ;;
  assign (set_abort true) ;;
  call (emit "taskAborted") ;;
  t <- getThis ;;
  match pauseInterval t with
  | Some h => clearIntervalNow (Some h) ;; assign (set_pauseInterval None)
  | None => ret tt
  end ;;
  call releaseTerminalsForTask ;;
  call closeBrowser ;;
  call closeBrowser ;;
  call dispose ;;
  call dispose ;;
  t <- getThis ;;
  when (isStreaming t && isEditing e) (call revertChanges) ;;
  saveClineMessages e.

(** The function passed to [setInterval] by [waitForResume]; [h] is the
    timer it was registered under. *)
Definition pauseIntervalCallback (h : Handle) : M unit :=
  t <- getThis ;;
  if negb (isPaused t) then
    clearIntervalNow (pauseInterval t) ;;
    assign (set_pauseInterval None) ;;
    resolvePromise h
  else ret tt.

(** The executor of the promise in [waitForResume]: registers the timer. *)
Definition waitForResume_register : M Handle :=
  fun w =>
    let h := nextHandle w in
    (Return h,
     {| this := set_pauseInterval (Some h) (this w);
        timers := h :: timers w; nextHandle := S h; resolved := resolved w;
        trace := trace w ++ [setInterval h 1000] |}).

Definition resumePausedTask (eSay eApi : Env) (lastMessage : string) : M unit :=
  assign (set_isPaused false) ;;
  call (emit "taskUnpaused") ;;
  tryCatch
    (say eSay "subtask_result" (Some lastMessage) None None None None false None ;;
     addToApiConversationHistory eApi user
       (ContentBlocks [TextBlock ("[new_task completed] Result: " ++ lastMessage)]))
    (fun error =>
       when (provider eSay)
         (call (provider_log
            ("Error failed to add reply from subtask into conversation of parent task, error: "
               ++ errorToString error))) ;;
       throw error).

(** ** What the rest of the system may do while a wait is pending *)

Inductive EnvAction :=
| idle
| webviewAskResponse (askResponse : ClineAskResponse) (text : option string)
    (images : option (list string)) (chatType : option string)
| otherAsk (e : Env) (type : string) (text : option string) (partial : option bool)
    (progressStatus : option string)
| otherSay (e : Env) (type : string) (text : option string) (images : option (list string))
    (partial : option bool) (checkpoint : option string) (progressStatus : option string)
    (isNonInteractive : bool) (contextCondense : option ContextCondense)
| abortRequest (e : Env) (isAbandoned : bool)
| resumeRequest (eSay eApi : Env) (lastMessage : string)
| waitRequest
| timerFires (h : Handle).

Definition envStep (a : EnvAction) (w : World) : World :=
  match a with
  | idle => w
  | webviewAskResponse r tx im ct => snd (handleWebviewAskResponse r tx im ct w)
  | otherAsk e ty tx p ps => snd (ask_begin e ty tx p ps w)
  | otherSay e ty tx im p cp ps ni cc => snd (say e ty tx im p cp ps ni cc w)
  | abortRequest e b => snd (abortTask e b w)
  | resumeRequest e1 e2 r => snd (resumePausedTask e1 e2 r w)
  | waitRequest => snd (waitForResume_register w)
  | timerFires h =>
      if existsb (Nat.eqb h) (timers w) then snd (pauseIntervalCallback h w) else w
  end.

Definition runSchedule (sched : list EnvAction) (w : World) : World :=
  fold_left (fun w a => envStep a w) sched w.

(** [pWaitFor(condition, { interval })]: the condition is checked at once
    and then after every interval. The schedule gives, for each interval,
    the actions of the rest of the system that run during that sleep. *)
Fixpoint pWaitFor (condition : Task -> bool) (interval : Z) (sched : list (list EnvAction))
    : M unit :=
  fun w =>
    if condition (this w) then (Return tt, w)
    else
      match sched with
      | [] => (Pending, w)
      | during :: rest =>
          pWaitFor condition interval rest (runSchedule during (record (pollWait interval) w))
      end.

(** [await] of the promise of timer [h]. *)
Fixpoint awaitPromise (h : Handle) (sched : list EnvAction) : M unit :=
  fun w =>
    if existsb (Nat.eqb h) (resolved w) then (Return tt, w)
    else
      match sched with
      | [] => (Pending, w)
      | a :: rest => awaitPromise h rest (envStep a w)
      end.

Definition waitForResume (sched : list EnvAction) : M unit :=
  h <- waitForResume_register ;;
  awaitPromise h sched.

Record AskResult := {
  response : option ClineAskResponse;
  response_text : option string;
  response_images : option (list string)
}.

Definition isSome {A} (o : option A) : bool :=
  match o with Some _ => true | None => false end.

(** [this.lastMessageTs !== askTs] *)
Definition tsDiffers (lastTs : option Z) (askTs : Z) : bool :=
  match lastTs with
  | Some x => negb (x =? askTs)
  | None => true
  end.

Definition ask_await (sched : list (list EnvAction)) (askTs : Z) : M AskResult :=
  pWaitFor (fun t => isSome (askResponse t) || tsDiffers (lastMessageTs t) askTs) 100 sched ;;
  t <- getThis ;;
  if tsDiffers (lastMessageTs t) askTs then
    throw (Error "Current ask promise was ignored")
  else
    let result := {| response := askResponse t; response_text := askResponseText t;
                     response_images := askResponseImages t |} in
    assign (set_askResponse None None None) ;;
    call (emit "taskAskResponded") ;;
    ret result.

Definition ask (e : Env) (sched : list (list EnvAction)) (type : string) (text : option string)
    (partial : option bool) (progressStatus : option string) : M AskResult :=
  askTs <- ask_begin e type text partial progressStatus ;;
  ask_await sched askTs.

(** ** Task loop: the guard at the head of an iteration *)

Definition nl : string := String (ascii_of_nat 10) EmptyString.
Definition dq : string := String (ascii_of_nat 34) EmptyString.

Definition is_messageResponse (r : option ClineAskResponse) : bool :=
  match r with Some messageResponse => true | _ => false end.

Definition is_yesButtonClicked (r : option ClineAskResponse) : bool :=
  match r with Some yesButtonClicked => true | _ => false end.

Definition mistakeLimitText (modelIdIncludesClaude : bool) : string :=
  if modelIdIncludesClaude then
    "This may indicate a failure in his thought process or inability to use a tool properly, which can be mitigated with some user guidance (e.g. "
      ++ dq ++ "Try breaking down the task into smaller steps" ++ dq ++ ")."
  else
    "Costrict uses complex prompts and iterative task execution that may be challenging for less capable models. For best results, it's recommended to use Claude 3.7 Sonnet for its advanced agentic coding capabilities.".

Section Engine.

(** [formatResponse.tooManyMistakes] and [formatResponse.imageBlocks], from
    the prompt templates. *)
Variable tooManyMistakes : option string -> string.
Variable imageBlocks : option (list string) -> list ContentBlock.

(** The head of [recursivelyMakeClineRequests], up to the pause check: the
    abort guard and the consecutive-mistake guard. [userContent.push]
    changes the caller's array; the result is its new value. *)
Definition recursivelyMakeClineRequests_guard (eAsk eSay : Env) (sched : list (list EnvAction))
    (modelIdIncludesClaude : bool) (userContent : list ContentBlock)
    : M (list ContentBlock) :=
  t <- getThis ;;
  if abort t then throw (abortedError "recursivelyMakeRooRequests" t)
  else if consecutiveMistakeCount t >=? consecutiveMistakeLimit t then
    r <- ask eAsk sched "mistake_limit_reached"
           (Some (mistakeLimitText modelIdIncludesClaude)) None None ;;
    userContent' <-
      (if is_messageResponse (response r) then
         let pushed := userContent
                         ++ [TextBlock (tooManyMistakes (response_text r))]
                         ++ imageBlocks (response_images r) in
         say eSay "user_feedback" (response_text r) (response_images r) None None None
           false None ;;
         call captureConsecutiveMistakeError ;;
         ret pushed
       else ret userContent) ;;
    assign (set_consecutiveMistakeCount 0) ;;
    ret userContent'
  else ret userContent.

(** ** Task loop: consuming the stream *)

Inductive ApiStreamChunk :=
| chunk_reasoning (text : string)
| chunk_usage (inputTokens outputTokens : Z) (cacheWriteTokens cacheReadTokens : option Z)
    (totalCost : option Q)
| chunk_text (text : string).

(** One step of the asynchronous iterator: a chunk (possibly [undefined])
    together with the environment of the loop body that handles it, or an
    exception; [meanwhile a] is something the rest of the system does while
    the loop is suspended on the next chunk. *)
Inductive StreamItem :=
| yields (e : Env) (chunk : option ApiStreamChunk)
| meanwhile (a : EnvAction)
| streamThrows (error : JsError).

(** The variables of one activation of [recursivelyMakeClineRequests] that
    the stream loop and [abortStream] share. *)
Record StreamLocals := {
  assistantMessage : string;
  reasoningMessage : string;
  inputTokens : Z;
  outputTokens : Z;
  cacheWriteTokens : Z;
  cacheReadTokens : Z;
  totalCost : option Q
}.

Definition initialLocals : StreamLocals :=
  {| assistantMessage := ""; reasoningMessage := ""; inputTokens := 0; outputTokens := 0;
     cacheWriteTokens := 0; cacheReadTokens := 0; totalCost := None |}.

Definition add_assistantMessage (s : string) (l : StreamLocals) : StreamLocals :=
  {| assistantMessage := assistantMessage l ++ s; reasoningMessage := reasoningMessage l;
     inputTokens := inputTokens l; outputTokens := outputTokens l;
     cacheWriteTokens := cacheWriteTokens l; cacheReadTokens := cacheReadTokens l;
     totalCost := totalCost l |}.

Definition add_reasoningMessage (s : string) (l : StreamLocals) : StreamLocals :=
  {| assistantMessage := assistantMessage l; reasoningMessage := reasoningMessage l ++ s;
     inputTokens := inputTokens l; outputTokens := outputTokens l;
     cacheWriteTokens := cacheWriteTokens l; cacheReadTokens := cacheReadTokens l;
     totalCost := totalCost l |}.

Definition orZero (x : option Z) : Z := match x with Some v => v | None => 0 end.

Definition add_usage (i o : Z) (cw cr : option Z) (tc : option Q) (l : StreamLocals)
    : StreamLocals :=
  {| assistantMessage := assistantMessage l; reasoningMessage := reasoningMessage l;
     inputTokens := inputTokens l + i; outputTokens := outputTokens l + o;
     cacheWriteTokens := cacheWriteTokens l + orZero cw;
     cacheReadTokens := cacheReadTokens l + orZero cr;
     totalCost := tc |}.

Inductive ClineApiReqCancelReason := streaming_failed | user_cancelled.

(** [parseAssistantMessage] followed by [presentAssistantMessage(this)]:
    the tool-call parser and the tool executors, given the text so far. *)
Variable present : string -> World -> World.

(** The JSON text that [updateApiReqMsg] writes: the previous text of the
    request-start message extended with usage, cost, [cancelReason] and
    [streamingFailedMessage]. *)
Variable apiReqInfo :
  option string -> StreamLocals -> option ClineApiReqCancelReason -> option string -> string.

Definition set_text (v : option string) (m : ClineMessage) : ClineMessage :=
  ClineMessage.mk (ClineMessage.ts m) (ClineMessage.type m) (ClineMessage.ask m)
    (ClineMessage.say m) v (ClineMessage.images m) (ClineMessage.partial m)
    (ClineMessage.progressStatus m) (ClineMessage.checkpoint m)
    (ClineMessage.contextCondense m).

Definition set_partial (v : option bool) (m : ClineMessage) : ClineMessage :=
  ClineMessage.mk (ClineMessage.ts m) (ClineMessage.type m) (ClineMessage.ask m)
    (ClineMessage.say m) (ClineMessage.text m) (ClineMessage.images m) v
    (ClineMessage.progressStatus m) (ClineMessage.checkpoint m)
    (ClineMessage.contextCondense m).

(** [array[i] = x] for an index inside the array. *)
Fixpoint setNth {A} (i : nat) (x : A) (l : list A) : list A :=
  match l, i with
  | [], _ => []
  | _ :: rest, O => x :: rest
  | y :: rest, S j => y :: setNth j x rest
  end.

(** [this.clineMessages[lastApiReqIndex].text = JSON.stringify(...)]; reading
    [.text] of a missing cell is a [TypeError]. *)
Definition updateApiReqMsg (lastApiReqIndex : Z) (locals : StreamLocals)
    (cancelReason : option ClineApiReqCancelReason) (streamingFailedMessage : option string)
    : M unit :=
  t <- getThis ;;
  match (if lastApiReqIndex <? 0 then None
         else nth_error (clineMessages t) (Z.to_nat lastApiReqIndex)) with
  | Some m =>
      let m' := set_text (Some (apiReqInfo (ClineMessage.text m) locals cancelReason
                                  streamingFailedMessage)) m in
      assign (fun t => set_clineMessages
                         (setNth (Z.to_nat lastApiReqIndex) m' (clineMessages t)) t)
  | None => throw (TypeError "Cannot read properties of undefined (reading 'text')")
  end.

Definition interruptedMarker (cancelReason : ClineApiReqCancelReason) : string :=
  match cancelReason with
  | streaming_failed => "Response interrupted by API Error"
  | user_cancelled => "Response interrupted by user"
  end.

Definition abortStream (e : Env) (lastApiReqIndex : Z) (locals : StreamLocals)
    (cancelReason : ClineApiReqCancelReason) (streamingFailedMessage : option string)
    : M unit :=
  when (isEditing e) (call revertChanges) ;;
  t <- getThis ;;
  match at_last (clineMessages t) with
  | Some lastMessage =>
      when (truthy (ClineMessage.partial lastMessage))
        (assign (fun t => set_clineMessages
                            (replaceLast (set_partial (Some false) lastMessage)
                               (clineMessages t)) t))
  | None => ret tt
  end ;;
  addToApiConversationHistory e assistant
    (ContentBlocks
       [TextBlock (assistantMessage locals ++ nl ++ nl ++ "["
                     ++ interruptedMarker cancelReason ++ "]")]) ;;
  updateApiReqMsg lastApiReqIndex locals (Some cancelReason) streamingFailedMessage ;;
  saveClineMessages e ;;
  assign (set_didFinishAbortingStream true).

Inductive LoopEnd := exhausted | broke.

Definition errorMessage (error : JsError) : string :=
  match error with Error m | TypeError m => m end.

(** The [for await (const chunk of stream)] loop. *)
Fixpoint streamLoop (lastApiReqIndex : Z) (items : list StreamItem) (locals : StreamLocals)
    (w : World) : Outcome LoopEnd * StreamLocals * World :=
  match items with
  | [] => (Return exhausted, locals, w)
  | streamThrows error :: _ => (Throw error, locals, w)
  | meanwhile a :: rest => streamLoop lastApiReqIndex rest locals (envStep a w)
  | yields e chunk :: rest =>
      let w0 := record (setChatType "system") w in
      match chunk with
      | None => streamLoop lastApiReqIndex rest locals w0
      | Some c =>
          let '(o, locals1, w1) :=
            match c with
            | chunk_reasoning tx =>
                let locals1 := add_reasoningMessage tx locals in
                let '(o, w1) := say e "reasoning" (Some (reasoningMessage locals1)) None
                                  (Some true) None None false None w0 in
                (o, locals1, w1)
            | chunk_usage i o cw cr tc => (Return tt, add_usage i o cw cr tc locals, w0)
            | chunk_text tx =>
                let locals1 := add_assistantMessage tx locals in
                (Return tt, locals1, present (assistantMessage locals1) w0)
            end in
          match o with
          | Throw error => (Throw error, locals1, w1)
          | Pending => (Pending, locals1, w1)
          | Return _ =>
              if abort (this w1) then
                if negb (abandoned (this w1)) then
                  match abortStream e lastApiReqIndex locals1 user_cancelled None w1 with
                  | (Return _, w2) => (Return broke, locals1, w2)
                  | (Throw error, w2) => (Throw error, locals1, w2)
                  | (Pending, w2) => (Pending, locals1, w2)
                  end
                else (Return broke, locals1, w1)
              else if didRejectTool (this w1) then
                (Return broke,
                 add_assistantMessage (nl ++ nl ++ "[Response interrupted by user feedback]")
                   locals1, w1)
              else if didAlreadyUseTool (this w1) then
                (Return broke,
                 add_assistantMessage
                   (nl ++ nl ++ "[Response interrupted by a tool use result. Only one tool may be used at a time and should be placed at the end of the message.]")
                   locals1, w1)
              else streamLoop lastApiReqIndex rest locals1 w1
          end
      end
  end.

(** The [catch (error)] block of the stream loop. [historyFound] tells
    whether [provider.getTaskWithId] returned a history item. *)
Definition streamCatch (eAbort eStream : Env) (historyFound : bool) (lastApiReqIndex : Z)
    (locals : StreamLocals) (error : JsError) : M unit :=
  t <- getThis ;;
  if negb (abandoned t) then
    (fun w => (Return tt, snd (abortTask eAbort false w))) ;;
    abortStream eStream lastApiReqIndex locals streaming_failed (Some (errorMessage error)) ;;
    when (provider eStream && historyFound) (call initClineWithHistoryItem)
  else ret tt.

(** [try { for await ... } catch (error) { ... } finally { this.isStreaming =
    false }], entered with [this.isStreaming = true]. *)
Definition consumeStream (eAbort eStream : Env) (historyFound : bool) (lastApiReqIndex : Z)
    (items : list StreamItem) (w : World) : Outcome unit * StreamLocals * World :=
  let '(o, locals, w1) :=
    streamLoop lastApiReqIndex items initialLocals (with_this (set_isStreaming true) w) in
  let '(o', w2) :=
    match o with
    | Return _ => (Return tt, w1)
    | Throw error => streamCatch eAbort eStream historyFound lastApiReqIndex locals error w1
    | Pending => (Pending, w1)
    end in
  (o', locals, with_this (set_isStreaming false) w2).

(** The rest of an iteration once the stream has been read: finalising the
    presented blocks, storing the assistant message, waiting for the tool
    result and the recursive call. *)
Variable afterStream : StreamLocals -> M bool.

(** [recursivelyMakeClineRequests] from the creation of the stream on: the
    outer [try { ... } catch (error) { return true }]. The result is
    [didEndLoop]: on [true] the caller, [initiateTaskLoop], leaves its loop. *)
Definition recursivelyMakeClineRequests_request (eAbort eStream : Env) (historyFound : bool)
    (lastApiReqIndex : Z) (items : list StreamItem) : M bool :=
  tryCatch
    (fun w =>
       match consumeStream eAbort eStream historyFound lastApiReqIndex items w with
       | (Return _, locals, w1) =>
           (t <- getThis ;;
            if abort t || abandoned t
            then throw (abortedError "recursivelyMakeRooRequests" t)
            else afterStream locals) w1
       | (Throw error, _, w1) => (Throw error, w1)
       | (Pending, _, w1) => (Pending, w1)
       end)
    (fun _ => ret true).

(** ** Streaming request controller *)

Record ProviderState := {
  autoApprovalEnabled : bool;
  alwaysApproveResubmit : bool;
  requestDelaySeconds : option Q;
  rateLimitSeconds : option Q
}.

Record ErrorDetail := {
  at_type : string;
  retryDelay : option string
}.

Record ApiError := {
  status : option Z;
  errorDetails : option (list ErrorDetail);
  message : string
}.

(** [x || d] on an optional number. *)
Definition orDefault (x : option Q) (d : Q) : Q :=
  match x with
  | Some v => if Qeq_bool v 0 then d else v
  | None => d
  end.

(** The [rateLimitDelay] computed at the head of [attemptApiRequest], in
    seconds. *)
Definition computeRateLimitDelay (lastApiRequestTime : option Z) (now : Z)
    (rateLimitSeconds : option Q) : Z :=
  match lastApiRequestTime with
  | Some last =>
      if last =? 0 then 0
      else
        let timeSinceLastRequest := now - last in
        let rateLimit := orDefault rateLimitSeconds 0 in
        Qceiling (Qmax 0 (rateLimit * 1000 - inject_Z timeSinceLastRequest) / 1000)
  | None => 0
  end.

Definition isDigit (c : ascii) : bool :=
  (48 <=? nat_of_ascii c)%nat && (nat_of_ascii c <=? 57)%nat.

Definition digitValue (c : ascii) : Z := Z.of_nat (nat_of_ascii c) - 48.

(** The number that [match[1]] writes, for [s.match(/^(\d+)s$/)], or [None]
    when the match fails. *)
Fixpoint matchSeconds (s : string) (acc : Z) (seenDigit : bool) : option Z :=
  match s with
  | EmptyString => None
  | String c rest =>
      if isDigit c then matchSeconds rest (10 * acc + digitValue c) true
      else if Ascii.eqb c "s" && seenDigit then
             match rest with EmptyString => Some acc | _ => None end
           else None
  end.

Definition RetryInfo : string := "type.googleapis.com/google.rpc.RetryInfo".

(** The provider's retry hint, in seconds: [error.status === 429], the first
    detail of type RetryInfo exists and its [retryDelay] has the form
    [<digits>s]. *)
Definition retryHint (error : ApiError) : option Z :=
  match status error with
  | Some st =>
      if st =? 429 then
        match errorDetails error with
        | Some details =>
            match List.find (fun detail => String.eqb (at_type detail) RetryInfo) details with
            | Some geminiRetryDetails =>
                match retryDelay geminiRetryDetails with
                | Some s => matchSeconds s 0 false
                | None => None
                end
            | None => None
            end
        | None => None
        end
      else None
  | None => None
  end.

(** The double nearest to a natural number [n], ties to even: the value of
    [Number] on digits that write [n], and of a sum of doubles whose exact
    value is [n]. The natural numbers up to 2^53 are doubles themselves;
    above, a double keeps 53 significant bits. A number that rounds to 2^1024
    is [Infinity] in the code and has no counterpart here. *)
Definition toDouble (n : Z) : Z :=
  let e := Z.log2 n - 52 in
  if e <=? 0 then n
  else
    let q := n / 2 ^ e in
    let r := n mod 2 ^ e in
    let half := 2 ^ (e - 1) in
    if (r <? half) || ((r =? half) && Z.even q) then q * 2 ^ e else (q + 1) * 2 ^ e.

(** [finalDelay] of the first-chunk handler; the hint replaces the
    exponential delay by [Number(match[1]) + 1]. *)
Definition computeFinalDelay (requestDelaySeconds : option Q) (retryAttempt : nat)
    (error : ApiError) (rateLimitDelay : Z) : Z :=
  let baseDelay := orDefault requestDelaySeconds 5 in
  let exponentialDelay := Qceiling (baseDelay * inject_Z (2 ^ Z.of_nat retryAttempt)) in
  let exponentialDelay :=
    match retryHint error with
    | Some seconds => toDouble (toDouble seconds + 1)
    | None => exponentialDelay
    end in
  Z.max exponentialDelay rateLimitDelay.

Definition string_of_Z (z : Z) : string := NilZero.string_of_int (Z.to_int z).

(** [for (let i = n; i > 0; i--) { body(i) }] *)
Fixpoint countdown (body : Z -> M unit) (n : nat) : M unit :=
  match n with
  | O => ret tt
  | S k => body (Z.of_nat n) ;; countdown body k
  end.

Inductive FirstChunk :=
| firstChunkFails (error : ApiError)
| firstChunkArrives (items : list StreamItem).

(** What the outside world supplies to one activation of
    [attemptApiRequest]. *)
Record Attempt := {
  state : ProviderState;
  now : Z;
  requestTime : Z;
  rateLimitEnv : Z -> Env;
  firstChunk : FirstChunk;
  retryEnv : Z -> Env;
  retryNowEnv : Env;
  failedAskEnv : Env;
  failedAskSched : list (list EnvAction);
  retriedEnv : Env
}.

(** System prompt, context-window management and the auto-approved-request
    ceiling, between the rate-limit countdown and [createMessage]. *)
Variable prepareRequest : M unit.

(** [getTaskRequestError]: the text shown for the error; it may also
    rewrite [error.status], so the error object is returned too. *)
Variable getTaskRequestError : ApiError -> string * ApiError.

(** The [catch (error)] block around the first chunk; [retry n] is
    [yield* this.attemptApiRequest(n)]. *)
Definition firstChunkCatch (a : Attempt) (retryAttempt : nat) (rateLimitDelay : Z)
    (thrown : ApiError) (retry : nat -> M (list StreamItem)) : M (list StreamItem) :=
  assign (set_isWaitingForFirstChunk false) ;;
  let '(errorMsg, error) := getTaskRequestError thrown in
  if autoApprovalEnabled (state a) && alwaysApproveResubmit (state a) then
    let finalDelay :=
      computeFinalDelay (requestDelaySeconds (state a)) retryAttempt error rateLimitDelay in
    countdown
      (fun i =>
         say (retryEnv a i) "api_req_retry_delayed"
           (Some (errorMsg ++ nl ++ nl ++ "Retry attempt "
                    ++ string_of_Z (Z.of_nat retryAttempt + 1) ++ nl
                    ++ "Retrying in " ++ string_of_Z i ++ " seconds...")%string)
           None (Some true) None None false None ;;
         call (delay 1000))
      (Z.to_nat finalDelay) ;;
    say (retryNowEnv a) "api_req_retry_delayed"
      (Some (errorMsg ++ nl ++ nl ++ "Retry attempt "
               ++ string_of_Z (Z.of_nat retryAttempt + 1) ++ nl ++ "Retrying now...")%string)
      None (Some false) None None false None ;;
    call (setChatType "system") ;;
    retry (S retryAttempt)
  else
    r <- ask (failedAskEnv a) (failedAskSched a) "api_req_failed" (Some errorMsg) None None ;;
    if negb (is_yesButtonClicked (response r)) then throw (Error "API request failed")
    else
      say (retriedEnv a) "api_req_retried" None None None None None false None ;;
      call (setChatType "system") ;;
      retry O.

(** [attemptApiRequest] up to the [try] around the first chunk: the
    rate-limit delay and its countdown, the request time, the preparation of
    the request and [createMessage]. The result is [rateLimitDelay]. *)
Definition beforeFirstChunk (a : Attempt) (retryAttempt : nat) : M Z :=
  t <- getThis ;;
  let rateLimitDelay :=
    computeRateLimitDelay (lastApiRequestTime t) (now a) (rateLimitSeconds (state a)) in
  when ((0 <? rateLimitDelay) && Nat.eqb retryAttempt 0)
    (countdown
       (fun i =>
          say (rateLimitEnv a i) "api_req_retry_delayed"
            (Some ("Rate limiting for " ++ string_of_Z i ++ " seconds...")%string)
            None (Some true) None None false None ;;
          call (delay 1000))
       (Z.to_nat rateLimitDelay)) ;;
  assign (set_lastApiRequestTime (Some (requestTime a))) ;;
  prepareRequest ;;
  call createMessage ;;
  assign (set_isWaitingForFirstChunk true) ;;
  ret rateLimitDelay.

(** [attemptApiRequest(retryAttempt)]: the result is the sequence the
    generator yields. Each activation consumes one [Attempt]. *)
Fixpoint attemptApiRequest (attempts : list Attempt) (retryAttempt : nat)
    : M (list StreamItem) :=
  match attempts with
  | [] => fun w => (Pending, w)
  | a :: later =>
      rateLimitDelay <- beforeFirstChunk a retryAttempt ;;
      match firstChunk a with
      | firstChunkArrives items =>
          assign (set_isWaitingForFirstChunk false) ;;
          ret items
      | firstChunkFails thrown =>
          firstChunkCatch a retryAttempt rateLimitDelay thrown (attemptApiRequest later)
      end
  end.

(** ** Vocabulary of the statements *)

(** The environment [e] with every persistence call succeeding. *)
Definition withoutFaults (e : Env) : Env :=
  {| Date_now := Date_now e; provider := provider e; saveFault := None;
     apiSaveFault := None; isEditing := isEditing e |}.

(** The arguments of one [ask] or [say] call other than its kind, subtype
    and [partial]. *)
Record ProtocolCall := {
  call_env : Env;
  call_text : option string;
  call_images : option (list string);
  call_checkpoint : option string;
  call_progressStatus : option string;
  call_isNonInteractive : bool;
  call_contextCondense : option ContextCondense
}.

(** One call of [ask] (up to its wait) or of [say], whatever its outcome:
    the caller of a partial [ask] discards the exception. *)
Definition invoke (kind : MessageType) (type : string) (partial : option bool)
    (c : ProtocolCall) (w : World) : World :=
  match kind with
  | type_ask =>
      snd (ask_begin (call_env c) type (call_text c) partial (call_progressStatus c) w)
  | type_say =>
      snd (say (call_env c) type (call_text c) (call_images c) partial (call_checkpoint c)
             (call_progressStatus c) (call_isNonInteractive c) (call_contextCondense c) w)
  end.

Definition invokeAll (kind : MessageType) (type : string) (partial : option bool)
    (calls : list ProtocolCall) (w : World) : World :=
  fold_left (fun w c => invoke kind type partial c w) calls w.

(** Does [type] under [kind] name an in-place update of the trailing
    message of the log? *)
Definition updatesInPlace (kind : MessageType) (type : string) (t : Task) : bool :=
  isSome (isUpdatingPreviousPartial kind type (at_last (clineMessages t))).

Definition isPersistence (ev : Event) : bool :=
  match ev with
  | saveTaskMessages _ | taskMetadata _ => true
  | _ => false
  end.

(** Events that neither wait nor reach the model backend. *)
Definition quiet (ev : Event) : Prop :=
  match ev with
  | delay _ | pollWait _ | createMessage => False
  | _ => True
  end.

(** Total time spent in [delay], in milliseconds. *)
Fixpoint delayed (tr : list Event) : Z :=
  match tr with
  | [] => 0
  | delay ms :: rest => ms + delayed rest
  | _ :: rest => delayed rest
  end.

(** The text chunks of a sequence of stream items, concatenated. *)
Fixpoint textOf (items : list StreamItem) : string :=
  match items with
  | [] => ""
  | yields _ (Some (chunk_text tx)) :: rest => tx ++ textOf rest
  | _ :: rest => textOf rest
  end.

(** The identity timestamps of the display log, in log order. *)
Definition timestamps (w : World) : list Z :=
  List.map ClineMessage.ts (clineMessages (this w)).

Definition isWebviewAskResponse (a : EnvAction) : bool :=
  match a with webviewAskResponse _ _ _ _ => true | _ => false end.

(** ** A freshly constructed task *)

(** The field values the class initialisers and the constructor defaults
    give ([consecutiveMistakeLimit = 3]). *)
Definition newTask : Task :=
  {| taskId := "task"; instanceId := "instance"; abort := false;
     didFinishAbortingStream := false; abandoned := false; isPaused := false;
     pauseInterval := None; lastApiRequestTime := None;
     apiConversationHistory := []; clineMessages := [];
     askResponse := None; askResponseText := None; askResponseImages := None;
     lastMessageTs := None; consecutiveMistakeCount := 0; consecutiveMistakeLimit := 3;
     isWaitingForFirstChunk := false; isStreaming := false;
     didRejectTool := false; didAlreadyUseTool := false |}.

Definition newWorld : World :=
  {| this := newTask; timers := []; nextHandle := O; resolved := []; trace := [] |}.

(** An environment in which [Date.now()] is [now], the provider is live
    and nothing fails. *)
Definition calm (now : Z) : Env :=
  {| Date_now := now; provider := true; saveFault := None; apiSaveFault := None;
     isEditing := false |}.

(** An environment in which every save throws. *)
Definition brokenDisk (now : Z) : Env :=
  {| Date_now := now; provider := true;
     saveFault := Some (at_saveTaskMessages, Error "ENOSPC");
     apiSaveFault := Some (Error "ENOSPC"); isEditing := false |}.

Definition plainCall (now : Z) (text : string) : ProtocolCall :=
  {| call_env := calm now; call_text := Some text; call_images := None;
     call_checkpoint := None; call_progressStatus := None;
     call_isNonInteractive := false; call_contextCondense := None |}.

(** The intervals of the polling waits recorded in a trace. *)
Fixpoint pollWaits (tr : list Event) : list Z :=
  match tr with
  | [] => []
  | pollWait ms :: rest => ms :: pollWaits rest
  | _ :: rest => pollWaits rest
  end.

(** The world that the [k]-th poll of a polling wait sees, when the wait
    began in [w]: [k] sleeps of [interval] ms have passed, each with the
    actions that the schedule gives for it. *)
Definition atPoll (interval : Z) (sched : list (list EnvAction)) (k : nat) (w : World)
    : World :=
  fold_left (fun w during => runSchedule during (record (pollWait interval) w))
    (firstn k sched) w.

Definition slotEmpty (t : Task) : Prop :=
  askResponse t = None /\ askResponseText t = None /\ askResponseImages t = None.

(** [w'] is [w] after calls that neither wait nor reach the backend. *)
Definition extends (w w' : World) : Prop :=
  exists evs, trace w' = trace w ++ evs /\ Forall quiet evs.

Definition quietM {A} (c : M A) : Prop := forall w, extends w (snd (c w)).

Definition tagOf (kind : MessageType) (m : ClineMessage) : option string :=
  match kind with
  | type_ask => ClineMessage.ask m
  | type_say => ClineMessage.say m
  end.

(** The log ends with a message of [(kind, type)] that is still being
    streamed, carrying the identity timestamp [ts0]; [older] is the log in
    front of it. *)
Definition openAt (kind : MessageType) (type : string) (ts0 : Z) (older : list ClineMessage)
    (w : World) : Prop :=
  abort (this w) = false
  /\ exists m, clineMessages (this w) = older ++ [m]
       /\ ClineMessage.ts m = ts0
       /\ ClineMessage.partial m = Some true
       /\ ClineMessage.type m = kind
       /\ tagOf kind m = Some type.

(** Flags, counters, the model-facing history and the timers are the same
    in [w'] as in [w]. *)
Definition sameControl (w w' : World) : Prop :=
  abort (this w') = abort (this w)
  /\ abandoned (this w') = abandoned (this w)
  /\ isPaused (this w') = isPaused (this w)
  /\ pauseInterval (this w') = pauseInterval (this w)
  /\ apiConversationHistory (this w') = apiConversationHistory (this w)
  /\ consecutiveMistakeCount (this w') = consecutiveMistakeCount (this w)
  /\ consecutiveMistakeLimit (this w') = consecutiveMistakeLimit (this w)
  /\ timers w' = timers w
  /\ nextHandle w' = nextHandle w
  /\ resolved w' = resolved w.

Definition sameSlot (w w' : World) : Prop :=
  askResponse (this w') = askResponse (this w)
  /\ askResponseText (this w') = askResponseText (this w)
  /\ askResponseImages (this w') = askResponseImages (this w).

(** Timer [h] has been handed out, is not running and its promise is not
    resolved. *)
Definition stopped (h : Handle) (w : World) : Prop :=
  ~ In h (timers w) /\ ~ In h (resolved w) /\ (h < nextHandle w)%nat.

Definition grows (w w' : World) : Prop := exists evs, trace w' = trace w ++ evs.


(** ** Sample collaborators and inputs *)

Definition sampleTooManyMistakes (feedback : option string) : string :=
  "You seem to be having trouble proceeding. "
    ++ match feedback with Some f => f | None => "" end.

Definition sampleImageBlocks (images : option (list string)) : list ContentBlock :=
  match images with
  | Some l => List.map ImageBlock l
  | None => []
  end.

(** A presenter that shows nothing and runs no tool. *)
Definition presentNothing (assistantMessage : string) (w : World) : World := w.

Definition sampleApiReqInfo (previous : option string) (locals : StreamLocals)
    (cancelReason : option ClineApiReqCancelReason) (streamingFailedMessage : option string)
    : string :=
  match previous with Some s => s | None => "{}" end.

Definition endAfterStream (locals : StreamLocals) : M bool := ret false.

Definition prepareNothing : M unit := ret tt.

Definition plainRequestError (error : ApiError) : string * ApiError := (message error, error).

(** A task that has just published its request-start message. *)
Definition requestWorld : World :=
  snd (say (calm 0) "api_req_started" (Some "{}"%string) None None None None false None
         newWorld).

(** A stream that delivers "Hello" and then breaks. *)
Definition helloThenError : list StreamItem :=
  [yields (calm 1) (Some (chunk_text "Hello")); streamThrows (Error "socket hang up")].

(** The same stream, with the task abandoned by its host before the
    connection breaks. *)
Definition helloAbandonedThenError : list StreamItem :=
  [yields (calm 1) (Some (chunk_text "Hello"));
   meanwhile (abortRequest (calm 2) true);
   streamThrows (Error "socket hang up")].

(** A task whose mistake counter has reached the default limit. *)
Definition mistakenWorld : World := with_this (set_consecutiveMistakeCount 3) newWorld.

(** A paused task whose loop has just started to wait for its sub-task. *)
Definition pausedWorld : World :=
  snd (waitForResume_register (with_this (set_isPaused true) newWorld)).

Definition autoRetryState : ProviderState :=
  {| autoApprovalEnabled := true; alwaysApproveResubmit := true;
     requestDelaySeconds := None; rateLimitSeconds := None |}.

Definition overloaded : ApiError :=
  {| status := Some 500; errorDetails := None; message := "overloaded" |}.

(** A 429 whose RetryInfo detail asks for 30 seconds. *)
Definition rateLimited : ApiError :=
  {| status := Some 429;
     errorDetails := Some [{| at_type := RetryInfo; retryDelay := Some "30s"%string |}];
     message := "quota" |}.

Definition failingAttempt (error : ApiError) : Attempt :=
  {| state := autoRetryState; now := 0; requestTime := 0;
     rateLimitEnv := calm; firstChunk := firstChunkFails error;
     retryEnv := calm; retryNowEnv := calm 0;
     failedAskEnv := calm 0; failedAskSched := []; retriedEnv := calm 0 |}.

(** ** Changed lines of a diff *)

(** One part of the result of [diffLines] of the diff library. *)
Record Change := {
  value : string;
  added : option bool;
  removed : option bool;
  count : option Z
}.

Definition newline : ascii := ascii_of_nat 10.

(** [s.split(separator)] for a separator of one character. *)
Fixpoint String_split (separator : ascii) (s : string) : list string :=
  match s with
  | EmptyString => [EmptyString]
  | String c rest =>
      if Ascii.eqb c separator then EmptyString :: String_split separator rest
      else
        match String_split separator rest with
        | first :: others => String c first :: others
        | [] => [String c EmptyString]
        end
  end.

(** [s.endsWith(c)] for a string [c] of one character. *)
Fixpoint String_endsWith (c : ascii) (s : string) : bool :=
  match s with
  | EmptyString => false
  | String a EmptyString => Ascii.eqb a c
  | String _ rest => String_endsWith c rest
  end.

(** The line count of a part that carries no [count]. *)
Definition actualLineCount (value : string) : Z :=
  let lines := String_split newline value in
  if String_endsWith newline value then Z.of_nat (length lines) - 1
  else Z.of_nat (length lines).

(** [getDiffLines(originalContent, newContent)]; [diffLines] is the
    function of the diff library. *)
Definition getDiffLines (diffLines : string -> string -> list Change)
    (originalContent newContent : string) : Z :=
  let diff := diffLines originalContent newContent in
  fold_left
    (fun changedLineCount part =>
       if truthy (added part) || truthy (removed part) then
         match count part with
         | Some n => changedLineCount + n
         | None => changedLineCount + actualLineCount (value part)
         end
       else changedLineCount)
    diff 0.

(** ** Resuming a task from its saved logs *)

(** [findLastIndex(array, predicate)]: the index of the last element that
    satisfies the predicate, [-1] when there is none. *)
Fixpoint findLastIndex {A} (predicate : A -> bool) (array : list A) : Z :=
  match array with
  | [] => -1
  | x :: rest =>
      let i := findLastIndex predicate rest in
      if i =? -1 then (if predicate x then 0 else -1) else i + 1
  end.

(** [array.findIndex(predicate)] *)
Fixpoint findIndex {A} (predicate : A -> bool) (array : list A) : Z :=
  match array with
  | [] => -1
  | x :: rest =>
      if predicate x then 0
      else
        let i := findIndex predicate rest in
        if i =? -1 then -1 else i + 1
  end.

(** [m.ask === "resume_task" || m.ask === "resume_completed_task"] *)
Definition isResumeAsk (m : ClineMessage) : bool :=
  tag_is (ClineMessage.ask m) "resume_task"
  || tag_is (ClineMessage.ask m) "resume_completed_task".

(** [m.type === "say" && m.say === "api_req_started"] *)
Definition isApiReqStarted (m : ClineMessage) : bool :=
  MessageType_eqb (ClineMessage.type m) type_say
  && tag_is (ClineMessage.say m) "api_req_started".

(** The two fields of the request-start record that the resumption reads. *)
Record ClineApiReqInfo := {
  info_cost : option Q;
  info_cancelReason : option ClineApiReqCancelReason
}.

(** [text || "{}"] *)
Definition textOrEmptyObject (text : option string) : string :=
  match text with
  | Some EmptyString | None => "{}"
  | Some s => s
  end.

(** The first step of [resumeTaskFromHistory]: the saved display log
    without its trailing resume asks.
    [findLastIndex(...); if (index !== -1) array.splice(index + 1)] *)
Definition withoutTrailingResumeAsks (saved : list ClineMessage) : list ClineMessage :=
  let lastRelevantMessageIndex := findLastIndex (fun m => negb (isResumeAsk m)) saved in
  if negb (lastRelevantMessageIndex =? -1)
  then firstn (Z.to_nat (lastRelevantMessageIndex + 1)) saved
  else saved.

(** The second step: the last request-start message is taken out when it
    records neither a cost nor a cancellation. [JSON_parse] is
    [JSON.parse] read at the type [ClineApiReqInfo]; it gives the
    exception it throws on a text that is not JSON. *)
Definition withoutUnfinishedApiReq (JSON_parse : string -> JsError + ClineApiReqInfo)
    (messages : list ClineMessage) : JsError + list ClineMessage :=
  let lastApiReqStartedIndex := findLastIndex isApiReqStarted messages in
  if negb (lastApiReqStartedIndex =? -1) then
    match nth_error messages (Z.to_nat lastApiReqStartedIndex) with
    | Some lastApiReqStarted =>
        match JSON_parse (textOrEmptyObject (ClineMessage.text lastApiReqStarted)) with
        | inr info =>
            match info_cost info, info_cancelReason info with
            | None, None =>
                inr (firstn (Z.to_nat lastApiReqStartedIndex) messages
                       ++ skipn (S (Z.to_nat lastApiReqStartedIndex)) messages)
            | _, _ => inr messages
            end
        | inl error => inl error
        end
    | None => inl (TypeError "Cannot read properties of undefined (reading 'text')")
    end
  else inr messages.

(** [modifiedClineMessages], as it is passed to [overwriteClineMessages]. *)
Definition modifiedClineMessages (JSON_parse : string -> JsError + ClineApiReqInfo)
    (saved : list ClineMessage) : JsError + list ClineMessage :=
  withoutUnfinishedApiReq JSON_parse (withoutTrailingResumeAsks saved).

(** [clineMessages.slice().reverse().find(m => !(resume ask))] *)
Definition lastClineMessage (clineMessages : list ClineMessage) : option ClineMessage :=
  List.find (fun m => negb (isResumeAsk m)) (rev clineMessages).

Definition askType (lastClineMessage : option ClineMessage) : string :=
  match lastClineMessage with
  | Some m =>
      if tag_is (ClineMessage.ask m) "completion_result" then "resume_completed_task"
      else "resume_task"
  | None => "resume_task"
  end.

(** The content blocks of a history read back from disk, where the tool
    blocks of earlier versions can occur beside text and images. *)
Inductive ToolResultItem :=
| ResultText (text : string)
| ResultImage (data : string).

Inductive ToolResultContent :=
| ResultString (s : string)
| ResultItems (items : list ToolResultItem).

Inductive ContentBlockParam :=
| plain (block : ContentBlock)
| tool_use (id name : string) (input : list (string * string))
| tool_result (tool_use_id : string) (content : option ToolResultContent).

Inductive SavedContent :=
| SavedString (s : string)
| SavedBlocks (blocks : list ContentBlockParam).

Record SavedMessage := {
  saved_role : Role;
  saved_content : SavedContent;
  saved_ts : option Z
}.

Definition isToolUse (block : ContentBlockParam) : bool :=
  match block with tool_use _ _ _ => true | _ => false end.

Definition isToolResult (block : ContentBlockParam) : bool :=
  match block with tool_result _ _ => true | _ => false end.

(** [Object.entries(input).map(([key, value]) => `<${key}>\n${value}\n</${key}>`).join("\n")] *)
Definition inputAsXml (input : list (string * string)) : string :=
  String.concat nl
    (List.map (fun '(key, value) =>
                 ("<" ++ key ++ ">" ++ nl ++ value ++ nl ++ "</" ++ key ++ ">")%string)
       input).

(** The text of a tool result: its text items joined by a blank line. A
    missing content gives one item whose text is [undefined], which [join]
    writes as the empty string. *)
Definition textContent (content : option ToolResultContent) : string :=
  match content with
  | Some (ResultItems items) =>
      String.concat (nl ++ nl)
        (flat_map (fun item => match item with
                               | ResultText text => [text]
                               | ResultImage _ => []
                               end) items)
  | Some (ResultString s) => s
  | None => ""
  end.

(** The rewriting of tool blocks into text blocks; [findToolName] is the
    function of the markdown export. *)
Definition conversationWithoutToolBlocks
    (findToolName : string -> list SavedMessage -> string)
    (existingApiConversationHistory : list SavedMessage) : list SavedMessage :=
  List.map
    (fun message =>
       match saved_content message with
       | SavedBlocks content =>
           let newContent :=
             List.map
               (fun block =>
                  match block with
                  | tool_use _ name input =>
                      plain (TextBlock ("<" ++ name ++ ">" ++ nl ++ inputAsXml input ++ nl
                                          ++ "</" ++ name ++ ">"))
                  | tool_result tool_use_id content =>
                      let toolName := findToolName tool_use_id existingApiConversationHistory in
                      plain (TextBlock ("[" ++ toolName ++ " Result]" ++ nl ++ nl
                                          ++ textContent content))
                  | plain _ => block
                  end)
               content in
           {| saved_role := saved_role message; saved_content := SavedBlocks newContent;
              saved_ts := saved_ts message |}
       | SavedString _ => message
       end)
    existingApiConversationHistory.

(** [Array.isArray(content) ? content : [{ type: "text", text: content }]] *)
Definition contentBlocks (content : SavedContent) : list ContentBlockParam :=
  match content with
  | SavedBlocks blocks => blocks
  | SavedString s => [plain (TextBlock s)]
  end.

Definition interruptedToolResult (tool_use_id : string) : ContentBlockParam :=
  tool_result tool_use_id
    (Some (ResultString "Task was interrupted before this tool call could be completed.")).

(** The [id]s of the tool-use blocks of a content, in order:
    [content.filter((block) => block.type === "tool_use")] read at its
    [id] field. *)
Definition toolUseIds (content : list ContentBlockParam) : list string :=
  flat_map (fun block => match block with tool_use id _ _ => [id] | _ => [] end) content.

Definition toolResultIds (content : list ContentBlockParam) : list string :=
  flat_map (fun block => match block with tool_result id _ => [id] | _ => [] end) content.

(** [modifiedApiConversationHistory] and [modifiedOldUserContent], computed
    from the last one or two messages of the history. The [role] of a
    message is ["user"] or ["assistant"], so the branch for another role
    does not arise. *)
Definition modifiedHistoryAndContent (existingApiConversationHistory : list SavedMessage)
    : JsError + (list SavedMessage * list ContentBlockParam) :=
  match at_last existingApiConversationHistory with
  | Some lastMessage =>
      match saved_role lastMessage with
      | assistant =>
          let content := contentBlocks (saved_content lastMessage) in
          let hasToolUse := existsb isToolUse content in
          if hasToolUse then
            let toolResponses := List.map interruptedToolResult (toolUseIds content) in
            inr (existingApiConversationHistory, toolResponses)
          else inr (existingApiConversationHistory, [])
      | user =>
          let previousAssistantMessage :=
            match length existingApiConversationHistory with
            | S (S n) => nth_error existingApiConversationHistory n
            | _ => None
            end in
          let existingUserContent := contentBlocks (saved_content lastMessage) in
          match previousAssistantMessage with
          | Some previous =>
              match saved_role previous with
              | assistant =>
                  let assistantContent := contentBlocks (saved_content previous) in
                  let toolUseBlocks := toolUseIds assistantContent in
                  if (0 <? length toolUseBlocks)%nat then
                    let existingToolResults := toolResultIds existingUserContent in
                    let missingToolResponses :=
                      List.map interruptedToolResult
                        (List.filter
                           (fun toolUse =>
                              negb (existsb (fun result => String.eqb result toolUse)
                                      existingToolResults))
                           toolUseBlocks) in
                    inr (removelast existingApiConversationHistory,
                         existingUserContent ++ missingToolResponses)
                  else inr (removelast existingApiConversationHistory, existingUserContent)
              | user => inr (removelast existingApiConversationHistory, existingUserContent)
              end
          | None => inr (removelast existingApiConversationHistory, existingUserContent)
          end
      end
  | None => inl (Error "Unexpected: No existing API conversation history")
  end.

(** The immediately invoked function that words the age of the last
    message. [now0] is [Date.now()] as read by [lastClineMessage?.ts ??
    Date.now()], [now] as read on the next line. *)
Definition agoText (lastClineMessage_ts : option Z) (now0 now : Z) : string :=
  let timestamp := match lastClineMessage_ts with Some ts => ts | None => now0 end in
  let diff := now - timestamp in
  let minutes := diff / 60000 in
  let hours := minutes / 60 in
  let days := hours / 24 in
  if 0 <? days then
    string_of_Z days ++ " day" ++ (if 1 <? days then "s" else "") ++ " ago"
  else if 0 <? hours then
    string_of_Z hours ++ " hour" ++ (if 1 <? hours then "s" else "") ++ " ago"
  else if 0 <? minutes then
    string_of_Z minutes ++ " minute" ++ (if 1 <? minutes then "s" else "") ++ " ago"
  else "just now".

(** [lastClineMessage?.ts && Date.now() - lastClineMessage.ts < 30_000],
    as a condition. *)
Definition wasRecent (lastClineMessage_ts : option Z) (now : Z) : bool :=
  match lastClineMessage_ts with
  | Some ts => negb (ts =? 0) && (now - ts <? 30000)
  | None => false
  end.

Definition TASK_RESUMPTION : string := "[TASK RESUMPTION]".

(** [x.type === "text" && x.text.startsWith("[TASK RESUMPTION]")] *)
Definition isTaskResumption (x : ContentBlockParam) : bool :=
  match x with
  | plain (TextBlock text) => String.prefix TASK_RESUMPTION text
  | _ => false
  end.

Definition taskResumptionText (agoText : string) (wasRecent : bool)
    (responseText : option string) : string :=
  (TASK_RESUMPTION ++ " This task was interrupted " ++ agoText
     ++ ". It may or may not be complete, so please reassess the task context. Be aware that the project state may have changed since then. If the task has not been completed, retry the last step before interruption and proceed with completing the task."
     ++ nl ++ nl
     ++ "Note: If you previously attempted a tool use that the user did not provide a result for, you should assume the tool use was not successful and assess whether you should retry. If the last tool was a browser_action, the browser has been closed and you must launch a new browser if needed."
     ++ (if wasRecent then
           nl ++ nl
             ++ "IMPORTANT: If the last tool use was a write_to_file that was interrupted, the file was reverted back to its original state before the interrupted edit, and you do NOT need to re-read the file as you already have its up-to-date contents."
         else ""))
  ++ match responseText with
     | Some EmptyString | None => ""
     | Some text =>
         nl ++ nl ++ "New instructions for task continuation:" ++ nl ++ "<user_message>" ++ nl
           ++ text ++ nl ++ "</user_message>"
     end.

(** [newUserContent], as it is passed to [initiateTaskLoop]: the old user
    content cut at its first resumption note, the new note, and the images
    of the operator's answer. *)
Definition newUserContent (modifiedOldUserContent : list ContentBlockParam)
    (agoText : string) (wasRecent : bool) (responseText : option string)
    (responseImages : option (list string)) : list ContentBlockParam :=
  let lastTaskResumptionIndex := findIndex isTaskResumption modifiedOldUserContent in
  let kept :=
    if negb (lastTaskResumptionIndex =? -1)
    then firstn (Z.to_nat lastTaskResumptionIndex) modifiedOldUserContent
    else modifiedOldUserContent in
  let pushed := kept ++ [plain (TextBlock (taskResumptionText agoText wasRecent responseText))] in
  match responseImages with
  | Some (_ :: _) => pushed ++ List.map plain (imageBlocks responseImages)
  | _ => pushed
  end.

(** ** Tool usage counters *)

Record ToolUsageEntry := {
  attempts : Z;
  failures : Z
}.

(** The object [toolUsage]: its keys in insertion order. *)
Definition ToolUsage := list (string * ToolUsageEntry).

(** [toolUsage[toolName]] *)
Fixpoint usageOf (toolName : string) (toolUsage : ToolUsage) : option ToolUsageEntry :=
  match toolUsage with
  | [] => None
  | (key, entry) :: rest => if String.eqb key toolName then Some entry else usageOf toolName rest
  end.

(** [if (!toolUsage[toolName]) toolUsage[toolName] = { attempts: 0, failures: 0 }] *)
Definition ensureEntry (toolName : string) (toolUsage : ToolUsage) : ToolUsage :=
  match usageOf toolName toolUsage with
  | Some _ => toolUsage
  | None => toolUsage ++ [(toolName, {| attempts := 0; failures := 0 |})]
  end.

(** An update of the entry object stored under [toolName]. *)
Definition updateEntry (toolName : string) (f : ToolUsageEntry -> ToolUsageEntry)
    (toolUsage : ToolUsage) : ToolUsage :=
  List.map (fun '(key, entry) => if String.eqb key toolName then (key, f entry) else (key, entry))
    toolUsage.

Definition recordToolUsage (toolName : string) (toolUsage : ToolUsage) : ToolUsage :=
  updateEntry toolName
    (fun entry => {| attempts := attempts entry + 1; failures := failures entry |})
    (ensureEntry toolName toolUsage).

Inductive ToolEvent :=
| captureError (name : string)
| emit_taskToolFailed (taskId tool error : string).

(** [recordToolError(toolName, error)]: the new counters and the calls
    made. *)
Definition recordToolError (taskId : string) (toolName : string) (error : option string)
    (toolUsage : ToolUsage) : ToolUsage * list ToolEvent :=
  (updateEntry toolName
     (fun entry => {| attempts := attempts entry; failures := failures entry + 1 |})
     (ensureEntry toolName toolUsage),
   captureError ("ToolUsageError_" ++ toolName)
     :: match error with
        | Some EmptyString | None => []
        | Some message => [emit_taskToolFailed taskId toolName message]
        end).

Inductive ToolCall :=
| usageCall (toolName : string)
| errorCall (toolName : string) (error : option string).

Definition toolCallName (c : ToolCall) : string :=
  match c with usageCall n | errorCall n _ => n end.

Definition runToolCall (taskId : string) (c : ToolCall) (toolUsage : ToolUsage) : ToolUsage :=
  match c with
  | usageCall toolName => recordToolUsage toolName toolUsage
  | errorCall toolName error => fst (recordToolError taskId toolName error toolUsage)
  end.

(** ** Condensing the context *)

(** The result of [summarizeConversation]. *)
Record SummarizeResponse := {
  sr_messages : list ApiMessage;
  sr_summary : string;
  sr_cost : Q;
  sr_newContextTokens : option Z
}.

(** [getTokenUsage().contextTokens]; [contextTokensOf] is the metrics
    derivation ([getApiMetrics] after [combineMessages]). *)
Definition getTokenUsage_contextTokens (contextTokensOf : list ClineMessage -> Z) (t : Task)
    : Z :=
  contextTokensOf (tl (clineMessages t)).

(** [condenseContext]: [getSystemPrompt] and [summarizeConversation] are
    given by what they return or throw. *)
Definition condenseContext (getSystemPrompt : JsError + string)
    (summarizeConversation : list ApiMessage -> string -> JsError + SummarizeResponse)
    (contextTokensOf : list ClineMessage -> Z) (eHistory eSay : Env) : M unit :=
  match getSystemPrompt with
  | inl error => throw error
  | inr systemPrompt =>
      t <- getThis ;;
      match summarizeConversation (apiConversationHistory t) systemPrompt with
      | inl error => throw error
      | inr r =>
          match sr_summary r with
          | EmptyString => ret tt
          | _ =>
              overwriteApiConversationHistory eHistory (sr_messages r) ;;
              t <- getThis ;;
              let contextTokens := getTokenUsage_contextTokens contextTokensOf t in
              let contextCondense :=
                {| summary := sr_summary r; cost := sr_cost r;
                   newContextTokens := orZero (sr_newContextTokens r);
                   prevContextTokens := contextTokens |} in
              say eSay "condense_context" None None (Some false) None None true
                (Some contextCondense)
          end
      end
  end.

(** ** The digest of a token, in hexadecimal *)

Definition hexDigit (n : Z) : ascii :=
  match n with
  | 0 => "0" | 1 => "1" | 2 => "2" | 3 => "3" | 4 => "4" | 5 => "5" | 6 => "6" | 7 => "7"
  | 8 => "8" | 9 => "9" | 10 => "a" | 11 => "b" | 12 => "c" | 13 => "d" | 14 => "e"
  | _ => "f"
  end%char.

(** [b.toString(16).padStart(2, "0")] for a byte [b]. *)
Definition byteToHex (b : Z) : string :=
  String (hexDigit (b / 16)) (String (hexDigit (b mod 16)) EmptyString).

(** [hashToken(token)]; [digest] is SHA-256 over the bytes of the token. *)
Definition hashToken (digest : string -> list Z) (token : string) : string :=
  String.concat "" (List.map byteToHex (digest token)).

(** ** Vocabulary of the further statements *)

(** The number of occurrences of a character in a string. *)
Fixpoint occurrences (c : ascii) (s : string) : Z :=
  match s with
  | EmptyString => 0
  | String a rest => (if Ascii.eqb a c then 1 else 0) + occurrences c rest
  end.

(** What one part of a diff adds to the changed-line count: nothing when
    it is neither added nor removed; else its [count], and without one
    the number of its newline characters, plus one for a last line that no
    newline ends. *)
Definition changedLines (part : Change) : Z :=
  if truthy (added part) || truthy (removed part) then
    match count part with
    | Some n => n
    | None =>
        occurrences newline (value part)
        + (if String_endsWith newline (value part) then 0 else 1)
    end
  else 0.

Definition sumZ (l : list Z) : Z := fold_right Z.add 0 l.

(** [n] units ago, in words. *)
Definition ago (n : Z) (unit : string) : string :=
  string_of_Z n ++ " " ++ unit ++ (if 1 <? n then "s" else "") ++ " ago".

(** The calls of a sequence that count an attempt, and those that count a
    failure, of one tool. *)
Definition attemptsOf (toolName : string) (calls : list ToolCall) : Z :=
  Z.of_nat (length (List.filter (fun c => match c with
                                          | usageCall n => String.eqb n toolName
                                          | errorCall _ _ => false
                                          end) calls)).

Definition failuresOf (toolName : string) (calls : list ToolCall) : Z :=
  Z.of_nat (length (List.filter (fun c => match c with
                                          | errorCall n _ => String.eqb n toolName
                                          | usageCall _ => false
                                          end) calls)).

(** The entry of a tool, with the initial counters when it has none. *)
Definition orZeroEntry (found : option ToolUsageEntry) : ToolUsageEntry :=
  match found with Some entry => entry | None => {| attempts := 0; failures := 0 |} end.

(** ** Vocabulary of the statements about the stream *)

Definition chunk_inputTokens (c : ApiStreamChunk) : Z :=
  match c with chunk_usage i _ _ _ _ => i | _ => 0 end.

Definition chunk_outputTokens (c : ApiStreamChunk) : Z :=
  match c with chunk_usage _ o _ _ _ => o | _ => 0 end.

Definition chunk_cacheWriteTokens (c : ApiStreamChunk) : Z :=
  match c with chunk_usage _ _ cw _ _ => orZero cw | _ => 0 end.

Definition chunk_cacheReadTokens (c : ApiStreamChunk) : Z :=
  match c with chunk_usage _ _ _ cr _ => orZero cr | _ => 0 end.

(** The sum of one field over the chunks of a sequence of stream items. *)
Fixpoint usageSum (field : ApiStreamChunk -> Z) (items : list StreamItem) : Z :=
  match items with
  | [] => 0
  | yields _ (Some c) :: rest => field c + usageSum field rest
  | _ :: rest => usageSum field rest
  end.

(** The cost that the last usage chunk of the sequence reports, [before]
    when it has none. *)
Fixpoint lastCost (items : list StreamItem) (before : option Q) : option Q :=
  match items with
  | [] => before
  | yields _ (Some (chunk_usage _ _ _ _ tc)) :: rest => lastCost rest tc
  | _ :: rest => lastCost rest before
  end.

(** A stream that delivers reasoning chunks only, each with the
    environment of the loop body that handles it. *)
Definition reasoningStream (chunks : list (Env * string)) : list StreamItem :=
  List.map (fun '(e, tx) => yields e (Some (chunk_reasoning tx))) chunks.

Definition reasoningText (chunks : list (Env * string)) : string :=
  String.concat "" (List.map snd chunks).

(** The value of a hexadecimal digit, and the bytes that a text of
    two-digit hexadecimal numbers stands for. *)
Definition hexValue (c : ascii) : Z :=
  let n := Z.of_nat (nat_of_ascii c) in
  if n <? 58 then n - 48 else n - 87.

Fixpoint bytesOfHex (s : string) : list Z :=
  match s with
  | String high (String low rest) => (16 * hexValue high + hexValue low) :: bytesOfHex rest
  | _ => []
  end.

Definition isHexDigit (c : ascii) : bool :=
  let n := nat_of_ascii c in
  ((48 <=? n) && (n <=? 57) || (97 <=? n) && (n <=? 102))%nat.

(** Calls on the provider of the task. *)
Definition isProviderCall (ev : Event) : bool :=
  match ev with
  | postStateToWebview | postMessageToWebview _ | updateTaskHistory | provider_log _
  | initClineWithHistoryItem => true
  | _ => false
  end.

(** The call [c] made while the provider is live. *)
Definition withProvider (c : ProtocolCall) : ProtocolCall :=
  {| call_env := {| Date_now := Date_now (call_env c); provider := true;
                    saveFault := saveFault (call_env c);
                    apiSaveFault := apiSaveFault (call_env c);
                    isEditing := isEditing (call_env c) |};
     call_text := call_text c; call_images := call_images c;
     call_checkpoint := call_checkpoint c; call_progressStatus := call_progressStatus c;
     call_isNonInteractive := call_isNonInteractive c;
     call_contextCondense := call_contextCondense c |}.

(** ** Further sample inputs *)

(** An environment whose provider is gone. *)
Definition orphaned (now : Z) : Env :=
  {| Date_now := now; provider := false; saveFault := None; apiSaveFault := None;
     isEditing := false |}.


(** An attempt made 1 second after the last request, under a rate limit
    of 3 seconds. *)
Definition rateLimitedAttempt : Attempt :=
  {| state := {| autoApprovalEnabled := true; alwaysApproveResubmit := true;
                 requestDelaySeconds := None; rateLimitSeconds := Some (inject_Z 3) |};
     now := 2000; requestTime := 4000;
     rateLimitEnv := calm; firstChunk := firstChunkArrives [];
     retryEnv := calm; retryNowEnv := calm 0;
     failedAskEnv := calm 0; failedAskSched := []; retriedEnv := calm 0 |}.

Definition twoUsageChunks : list StreamItem :=
  [yields (calm 1) (Some (chunk_usage 10 5 (Some 2) None (Some (1 # 2))));
   yields (calm 2) (Some (chunk_usage 3 4 None (Some 7) None))].

(** A task that was aborted after it had published its request-start
    message. *)
Definition abortedRequestWorld : World := with_this (set_abort true) requestWorld.

(** ** Task loop: publishing the user turn *)

(** The reminder that is put in front of the user turn when a language
    preference is set. *)
Definition languageReminder (languageName : string) : string :=
  String.concat nl
    [
     ""%string;
     ("Please also follow these instructions in all of your responses if relevant to "
        ++ "my query. No need to acknowledge these instructions directly in your response.")%string;
     ""%string;
     ("Always respond in " ++ languageName)%string;
     "You must use a tool in your response! "%string;
     "# Reminder: Instructions for Tool Use"%string;
     ""%string;
     ("Tool uses are formatted using XML-style tags. The tool name is enclosed in "
        ++ "opening and closing tags, and each parameter is similarly enclosed within its "
        ++ "own set of tags. Here's the structure:")%string;
     ""%string;
     "<tool_name>"%string;
     "<parameter1_name>value1</parameter1_name>"%string;
     "<parameter2_name>value2</parameter2_name>"%string;
     "..."%string;
     "</tool_name>"%string;
     ""%string;
     "For example:"%string;
     ""%string;
     "<attempt_completion>"%string;
     "<result>"%string;
     "I have completed the task..."%string;
     "</result>"%string;
     "</attempt_completion>"%string;
     ""%string;
     ("Always adhere to this format for all tool uses to ensure proper parsing and "
        ++ "execution.")%string;
     ""%string;
     "# Next Steps"%string;
     ""%string;
     "If you have completed the user's task, use the attempt_completion tool. "%string;
     ("If you require additional information from the user, use the "
        ++ "ask_followup_question tool. ")%string;
     ("Otherwise, if you have not completed the task and do not need additional "
        ++ "information, then proceed with the next step of the task.")%string;
     ("When creating multiple folders using the command, please use mkidr - p path1; "
        ++ "mkdir -p path2.")%string;
     "(This is an automated message, so do not respond to it conversationally.)"%string ].

(** [blocks.map((block) => formatContentBlockToMarkdown(block)).join("\n\n")] *)
Definition requestMarkdown (formatContentBlockToMarkdown : ContentBlock -> string)
    (blocks : list ContentBlock) : string :=
  String.concat (nl ++ nl) (List.map formatContentBlockToMarkdown blocks).

(** What the outside world supplies to the part of an iteration that
    publishes the user turn: the results of [processUserContentMentions]
    and [getEnvironmentDetails], the language of the provider state,
    whether the provider was live when the iteration started, and the
    environments of the calls made. *)
Record TurnInputs := {
  parsedUserContent : list ContentBlock;
  environmentDetails : string;
  language : option string;
  providerAtEntry : bool;
  startedEnv : Env;
  languageEnv : Env;
  userEnv : Env;
  turnSaveEnv : Env
}.

(** [recursivelyMakeClineRequests] from the placeholder request-start
    message to the point where the streaming state is reset. The result is
    [lastApiReqIndex] and [finalUserContent]. [JSON_stringify_request s] is
    [JSON.stringify({ request: s })]; [languageNameOf] is the lookup in
    [LANGUAGES]; [captureConversationMessage] is the telemetry call. *)
Definition recursivelyMakeClineRequests_userTurn
    (formatContentBlockToMarkdown : ContentBlock -> string)
    (JSON_stringify_request : string -> string)
    (languageNameOf : string -> string)
    (captureConversationMessage : Role -> M unit)
    (i : TurnInputs) (userContent : list ContentBlock) : M (Z * list ContentBlock) :=
  say (startedEnv i) "api_req_started"
    (Some (JSON_stringify_request
             (requestMarkdown formatContentBlockToMarkdown userContent
                ++ nl ++ nl ++ "Loading...")%string))
    None None None None false None ;;
  let finalUserContent := parsedUserContent i ++ [TextBlock (environmentDetails i)] in
  match language i with
  | Some (String _ _ as l) =>
      addToApiConversationHistory (languageEnv i) user
        (ContentString (languageReminder (languageNameOf l)))
  | _ => ret tt
  end ;;
  addToApiConversationHistory (userEnv i) user (ContentBlocks finalUserContent) ;;
  captureConversationMessage user ;;
  t <- getThis ;;
  let lastApiReqIndex :=
    findLastIndex (fun m => tag_is (ClineMessage.say m) "api_req_started")
      (clineMessages t) in
  match (if lastApiReqIndex <? 0 then None
         else nth_error (clineMessages t) (Z.to_nat lastApiReqIndex)) with
  | Some m =>
      let m' := set_text (Some (JSON_stringify_request
                                  (requestMarkdown formatContentBlockToMarkdown
                                     finalUserContent))) m in
      assign (fun t => set_clineMessages
                         (setNth (Z.to_nat lastApiReqIndex) m' (clineMessages t)) t)
  | None => throw (TypeError "Cannot set properties of undefined (setting 'text')")
  end ;;
  saveClineMessages (turnSaveEnv i) ;;
  when (providerAtEntry i) (call postStateToWebview) ;;
  ret (lastApiReqIndex, finalUserContent).

(** A collaborator call that returns and leaves the task object alone. *)
Definition harmless (c : M unit) : Prop :=
  forall w, fst (c w) = Return tt /\ this (snd (c w)) = this w.

(** A turn on the task "fix the bug", with no language preference. *)
Definition sampleTurn : TurnInputs :=
  {| parsedUserContent := [TextBlock "<task>fix the bug</task>"];
     environmentDetails := "<environment_details></environment_details>";
     language := None; providerAtEntry := true;
     startedEnv := calm 100; languageEnv := calm 101; userEnv := calm 102;
     turnSaveEnv := calm 103 |}.

Definition sampleMarkdown (block : ContentBlock) : string :=
  match block with
  | TextBlock text => text
  | ImageBlock _ => "[image]"
  end.

Definition sampleRequestJson (request : string) : string := "{request:" ++ request ++ "}".

(** * Properties *)

Unset Implicit Arguments.
Set Default Proof Using "Type".

(** ** Lists *)

Lemma at_last_app {A} (l : list A) (x : A) : at_last (l ++ [x]) = Some x.
Proof.
  induction l as [|y l IH]; [reflexivity|].
  simpl. destruct (l ++ [x]) eqn:E; [destruct l; discriminate|exact IH].
Qed.

Lemma at_last_split {A} (l : list A) (x : A) :
  at_last l = Some x -> l = removelast l ++ [x].
Proof.
  induction l as [|y l IH]; [discriminate|].
  destruct l as [|z l]; simpl in *.
  - now intros [= ->].
  - intros H. f_equal. now apply IH.
Qed.

Lemma replaceLast_app {A} (l : list A) (x y : A) : replaceLast y (l ++ [x]) = l ++ [y].
Proof. unfold replaceLast. now rewrite removelast_last. Qed.

Lemma at_last_replaceLast {A} (l : list A) (x : A) : at_last (replaceLast x l) = Some x.
Proof. apply at_last_app. Qed.

(** ** Running computations *)

Ltac run :=
  unfold addToApiConversationHistory, overwriteApiConversationHistory,
    saveApiConversationHistory, addToClineMessages, overwriteClineMessages,
    saveClineMessages, updateClineMessage, handleWebviewAskResponse, faultAt,
    clearIntervalNow, resolvePromise,
    bind, ret, throw, tryCatch, getThis, assign, call, callOrThrow, when,
    with_this, record in *; simpl in *.

(** Forget the collaborators of the section: tactics that work on the whole
    context must not pick them up. *)
Ltac sealed :=
  clear tooManyMistakes imageBlocks present apiReqInfo afterStream prepareRequest
    getTaskRequestError.

Ltac split_env e :=
  let n := fresh "now" in
  let p := fresh "prov" in
  let err := fresh "err" in
  let af := fresh "apiFault" in
  let ed := fresh "editing" in
  destruct e as [n [|] [[[| |] err]|] [af|] [|]].

Ltac split_save e :=
  let n := fresh "now" in
  let p := fresh "prov" in
  let err := fresh "err" in
  let af := fresh "apiFault" in
  let ed := fresh "editing" in
  destruct e as [n [|] [[[| |] err]|] af ed].

(** ** Traces only grow *)

Lemma extends_refl w : extends w w.
Proof. exists []. now rewrite app_nil_r. Qed.

Lemma extends_trans w1 w2 w3 : extends w1 w2 -> extends w2 w3 -> extends w1 w3.
Proof.
  intros (e1 & H1 & Q1) (e2 & H2 & Q2). exists (e1 ++ e2). split.
  - now rewrite H2, H1, app_assoc.
  - now apply Forall_app.
Qed.

Lemma extends_record ev w : quiet ev -> extends w (record ev w).
Proof. intros Q. exists [ev]. split; [reflexivity|now constructor]. Qed.

Lemma extends_with_this f w : extends w (with_this f w).
Proof. exists []. simpl. now rewrite app_nil_r. Qed.

Lemma quietM_ret {A} (a : A) : quietM (ret a).
Proof. intros w. apply extends_refl. Qed.

Lemma quietM_throw {A} e : quietM (@throw A e).
Proof. intros w. apply extends_refl. Qed.

Lemma quietM_getThis : quietM getThis.
Proof. intros w. apply extends_refl. Qed.

Lemma quietM_assign f : quietM (assign f).
Proof. intros w. apply extends_with_this. Qed.

Lemma quietM_call ev : quiet ev -> quietM (call ev).
Proof. intros Q w. now apply extends_record. Qed.

Lemma quietM_callOrThrow ev fault : quiet ev -> quietM (callOrThrow ev fault).
Proof. intros Q w. unfold callOrThrow. destruct fault; now apply extends_record. Qed.

Lemma quietM_bind {A B} (c : M A) (k : A -> M B) :
  quietM c -> (forall a, quietM (k a)) -> quietM (bind c k).
Proof.
  intros Hc Hk w. unfold bind. specialize (Hc w).
  destruct (c w) as [[a| |] w']; simpl in *; auto.
  eapply extends_trans; [exact Hc|apply Hk].
Qed.

Lemma quietM_tryCatch {A} (c : M A) (h : JsError -> M A) :
  quietM c -> (forall e, quietM (h e)) -> quietM (tryCatch c h).
Proof.
  intros Hc Hh w. unfold tryCatch. specialize (Hc w).
  destruct (c w) as [[a| |] w']; simpl in *; auto.
  eapply extends_trans; [exact Hc|apply Hh].
Qed.

Lemma quietM_when b (c : M unit) : quietM c -> quietM (when b c).
Proof. intros H. destruct b; [exact H|apply quietM_ret]. Qed.

Lemma quietM_clearIntervalNow x : quietM (clearIntervalNow x).
Proof. intros w. exists [clearInterval x]. split; [reflexivity|now constructor]. Qed.

Lemma quietM_resolvePromise h : quietM (resolvePromise h).
Proof. intros w. exists []. simpl. now rewrite app_nil_r. Qed.

Lemma quietM_waitForResume_register : quietM waitForResume_register.
Proof. intros w. exists [setInterval (nextHandle w) 1000]. split; [reflexivity|now constructor]. Qed.

Create HintDb quiet.
#[local] Hint Resolve quietM_ret quietM_throw quietM_getThis quietM_assign quietM_call
  quietM_callOrThrow quietM_when quietM_clearIntervalNow quietM_resolvePromise
  quietM_waitForResume_register : quiet.
#[local] Hint Extern 1 (quiet _) => exact I : quiet.

Ltac quiet_step :=
  match goal with
  | |- quietM (bind _ _) => apply quietM_bind; [|intros ?]
  | |- quietM (tryCatch _ _) => apply quietM_tryCatch; [|intros ?]
  | |- quietM (if ?b then _ else _) => destruct b
  | |- quietM (match ?x with _ => _ end) => destruct x
  | |- quietM _ => solve [auto with quiet]
  end.

Ltac quiet_all := repeat quiet_step.

Lemma quietM_saveApiConversationHistory e : quietM (saveApiConversationHistory e).
Proof. unfold saveApiConversationHistory. quiet_all. Qed.

Lemma quietM_addToApiConversationHistory e r c : quietM (addToApiConversationHistory e r c).
Proof. unfold addToApiConversationHistory. quiet_all. apply quietM_saveApiConversationHistory. Qed.

Lemma quietM_saveClineMessages e : quietM (saveClineMessages e).
Proof. unfold saveClineMessages. quiet_all. Qed.

Lemma quietM_addToClineMessages e m : quietM (addToClineMessages e m).
Proof. unfold addToClineMessages. quiet_all. apply quietM_saveClineMessages. Qed.

Lemma quietM_updateClineMessage e m : quietM (updateClineMessage e m).
Proof. unfold updateClineMessage. quiet_all. Qed.

#[local] Hint Resolve quietM_saveApiConversationHistory quietM_addToApiConversationHistory
  quietM_saveClineMessages quietM_addToClineMessages quietM_updateClineMessage : quiet.

Lemma quietM_say e ty tx im p cp ps ni cc : quietM (say e ty tx im p cp ps ni cc).
Proof. unfold say. quiet_all. Qed.

Lemma quietM_ask_begin e ty tx p ps : quietM (ask_begin e ty tx p ps).
Proof. unfold ask_begin. quiet_all. Qed.

Lemma quietM_abortTask e b : quietM (abortTask e b).
Proof. unfold abortTask. quiet_all. Qed.

Lemma quietM_handleWebviewAskResponse r tx im ct : quietM (handleWebviewAskResponse r tx im ct).
Proof. unfold handleWebviewAskResponse. quiet_all. Qed.

Lemma quietM_pauseIntervalCallback h : quietM (pauseIntervalCallback h).
Proof. unfold pauseIntervalCallback. quiet_all. Qed.

#[local] Hint Resolve quietM_say quietM_ask_begin quietM_abortTask
  quietM_handleWebviewAskResponse quietM_pauseIntervalCallback : quiet.

Lemma quietM_resumePausedTask e1 e2 r : quietM (resumePausedTask e1 e2 r).
Proof. unfold resumePausedTask. quiet_all. Qed.

Lemma extends_envStep a w : extends w (envStep a w).
Proof.
  destruct a; simpl; try apply extends_refl.
  - apply quietM_handleWebviewAskResponse.
  - apply quietM_ask_begin.
  - apply quietM_say.
  - apply quietM_abortTask.
  - apply quietM_resumePausedTask.
  - apply quietM_waitForResume_register.
  - destruct (existsb _ _); [apply quietM_pauseIntervalCallback|apply extends_refl].
Qed.

Lemma extends_runSchedule sched w : extends w (runSchedule sched w).
Proof.
  revert w. induction sched as [|a sched IH]; intros w; [apply extends_refl|].
  change (runSchedule (a :: sched) w) with (runSchedule sched (envStep a w)).
  eapply extends_trans; [apply extends_envStep|apply IH].
Qed.

(** ** Conversation store: persistence is best effort *)

Lemma saveApiConversationHistory_returns e w :
  fst (saveApiConversationHistory e w) = Return tt
  /\ this (snd (saveApiConversationHistory e w)) = this w.
Proof. split_env e; run; auto. Qed.

Lemma saveClineMessages_returns e w :
  fst (saveClineMessages e w) = Return tt
  /\ this (snd (saveClineMessages e w)) = this w.
Proof. split_save e; run; auto. Qed.

Lemma say_ignores_faults e ty tx im p cp ps ni cc w :
  fst (say e ty tx im p cp ps ni cc w) = fst (say (withoutFaults e) ty tx im p cp ps ni cc w)
  /\ this (snd (say e ty tx im p cp ps ni cc w))
     = this (snd (say (withoutFaults e) ty tx im p cp ps ni cc w)).
Proof.
  unfold say. run. destruct (abort (this w)); [auto|].
  destruct p as [[|]|]; simpl;
    try destruct (isUpdatingPreviousPartial _ _ _); destruct ni; simpl;
    split_save e; run; auto.
Qed.

Lemma ask_begin_ignores_faults e ty tx p ps w :
  fst (ask_begin e ty tx p ps w) = fst (ask_begin (withoutFaults e) ty tx p ps w)
  /\ this (snd (ask_begin e ty tx p ps w))
     = this (snd (ask_begin (withoutFaults e) ty tx p ps w)).
Proof.
  unfold ask_begin. run. destruct (abort (this w)); [auto|].
  destruct p as [[|]|]; simpl;
    try destruct (isUpdatingPreviousPartial _ _ _); simpl;
    split_save e; run; auto.
Qed.

(** C5. A failing save of either log is caught and logged with
    [console.error], never raised: both save operations return normally
    and leave the task object as it was; the append that preceded the
    save is kept ([addToApiConversationHistory], [addToClineMessages]);
    and [say] and [ask] (up to its wait) end with the same outcome and the
    same task state as when every save succeeds. *)
Theorem persistence_failure_is_logged_and_swallowed :
  (forall e w,
      fst (saveApiConversationHistory e w) = Return tt
      /\ this (snd (saveApiConversationHistory e w)) = this w
      /\ forall err, apiSaveFault e = Some err ->
           trace (snd (saveApiConversationHistory e w))
           = trace w ++ [saveApiMessages (apiConversationHistory (this w));
                         console_error "Failed to save API conversation history:" err])
  /\ (forall e w,
      fst (saveClineMessages e w) = Return tt
      /\ this (snd (saveClineMessages e w)) = this w
      /\ forall step err, saveFault e = Some (step, err) ->
           step <> at_updateTaskHistory \/ provider e = true ->
           exists evs,
             trace (snd (saveClineMessages e w))
             = trace w ++ saveTaskMessages (clineMessages (this w)) :: evs
                 ++ [console_error "Failed to save Costrict messages:" err])
  /\ (forall e role content w,
      let w' := snd (addToApiConversationHistory e role content w) in
      fst (addToApiConversationHistory e role content w) = Return tt
      /\ apiConversationHistory (this w')
         = apiConversationHistory (this w)
             ++ [ApiMessage.mk role content (Some (Date_now e))]
      /\ this w' = this (snd (addToApiConversationHistory (withoutFaults e) role content w)))
  /\ (forall e message w,
      let w' := snd (addToClineMessages e message w) in
      fst (addToClineMessages e message w) = Return tt
      /\ clineMessages (this w') = clineMessages (this w) ++ [message]
      /\ this w' = this (snd (addToClineMessages (withoutFaults e) message w)))
  /\ (forall e ty tx im p cp ps ni cc w,
      fst (say e ty tx im p cp ps ni cc w)
      = fst (say (withoutFaults e) ty tx im p cp ps ni cc w)
      /\ this (snd (say e ty tx im p cp ps ni cc w))
         = this (snd (say (withoutFaults e) ty tx im p cp ps ni cc w)))
  /\ (forall e ty tx p ps w,
      fst (ask_begin e ty tx p ps w) = fst (ask_begin (withoutFaults e) ty tx p ps w)
      /\ this (snd (ask_begin e ty tx p ps w))
         = this (snd (ask_begin (withoutFaults e) ty tx p ps w))).
Proof.
  repeat apply conj.
  - intros e w. destruct (saveApiConversationHistory_returns e w) as [H1 H2].
    repeat split; auto. intros err He. destruct e; simpl in He; subst.
    run. now rewrite <- app_assoc.
  - intros e w. destruct (saveClineMessages_returns e w) as [H1 H2].
    repeat split; auto. intros step err He Hp.
    destruct e as [n p sf af ed]; simpl in *; subst.
    destruct step; run.
    + exists []. now rewrite <- app_assoc.
    + exists [taskMetadata (clineMessages (this w))]. now rewrite <- !app_assoc.
    + destruct Hp as [Hp|Hp]; [congruence|subst p]. simpl.
      exists [taskMetadata (clineMessages (this w)); emit "taskTokenUsageUpdated";
              updateTaskHistory].
      now rewrite <- !app_assoc.
  - intros e role content w. split_env e; run; auto.
  - intros e message w. split_save e; run; auto.
  - apply say_ignores_faults.
  - apply ask_begin_ignores_faults.
Qed.

(** ** Ask/Say protocol: partial messages are coalesced *)

Arguments isUpdatingPreviousPartial : simpl never.

Lemma MessageType_eqb_refl k : MessageType_eqb k k = true.
Proof. now destruct k. Qed.

Lemma isUpdatingPreviousPartial_open kind type m :
  ClineMessage.partial m = Some true -> ClineMessage.type m = kind ->
  tagOf kind m = Some type ->
  isUpdatingPreviousPartial kind type (Some m) = Some m.
Proof.
  intros Hp Ht Hg. unfold isUpdatingPreviousPartial, tagOf in *.
  rewrite Hp, Ht, MessageType_eqb_refl. simpl.
  destruct kind; rewrite Hg; simpl; now rewrite String.eqb_refl.
Qed.

Lemma isUpdatingPreviousPartial_sound kind type last m :
  isUpdatingPreviousPartial kind type last = Some m ->
  last = Some m /\ ClineMessage.partial m = Some true /\ ClineMessage.type m = kind
  /\ tagOf kind m = Some type.
Proof.
  unfold isUpdatingPreviousPartial, tagOf. destruct last as [m0|]; [|discriminate].
  destruct (ClineMessage.partial m0) as [[|]|] eqn:Hp; simpl; try discriminate.
  destruct (MessageType_eqb (ClineMessage.type m0) kind) eqn:Hk; simpl; [|discriminate].
  assert (ClineMessage.type m0 = kind) as Hty
    by (destruct (ClineMessage.type m0), kind; simpl in Hk; congruence).
  destruct kind.
  - destruct (ClineMessage.ask m0) as [s|] eqn:Hs; simpl; [|discriminate].
    destruct (String.eqb_spec s type); [|discriminate].
    intros [= <-]. subst. auto.
  - destruct (ClineMessage.say m0) as [s|] eqn:Hs; simpl; [|discriminate].
    destruct (String.eqb_spec s type); [|discriminate].
    intros [= <-]. subst. auto.
Qed.

Lemma invoke_opens kind type c w :
  abort (this w) = false ->
  isUpdatingPreviousPartial kind type (at_last (clineMessages (this w))) = None ->
  openAt kind type (Date_now (call_env c)) (clineMessages (this w))
    (invoke kind type (Some true) c w).
Proof.
  intros Ha Hu. destruct c as [e tx im cp ps ni cc].
  unfold openAt, invoke, say, ask_begin; simpl.
  destruct kind; run; rewrite Ha, Hu; simpl; try destruct ni; simpl;
    split_save e; run; (split; [assumption|]); eexists; repeat split.
Qed.

Lemma invoke_updates kind type ts0 older c w :
  openAt kind type ts0 older w ->
  openAt kind type ts0 older (invoke kind type (Some true) c w).
Proof.
  intros (Ha & m & Hm & Hts & Hp & Hty & Htag). destruct c as [e tx im cp ps ni cc].
  pose proof (isUpdatingPreviousPartial_open kind type m Hp Hty Htag) as Hu.
  unfold openAt, invoke, say, ask_begin; simpl.
  destruct kind; run; rewrite Ha, Hm, at_last_app, Hu; simpl;
    split_save e; run; (split; [assumption|]); rewrite Hm, replaceLast_app;
    eexists; repeat split; simpl; assumption.
Qed.

Lemma invokeAll_updates kind type ts0 older calls w :
  openAt kind type ts0 older w ->
  openAt kind type ts0 older (invokeAll kind type (Some true) calls w).
Proof.
  revert w. induction calls as [|c calls IH]; intros w H; [exact H|].
  simpl. apply IH. now apply invoke_updates.
Qed.

Lemma invoke_finalizes kind type ts0 older c w :
  openAt kind type ts0 older w ->
  exists m, clineMessages (this (invoke kind type (Some false) c w)) = older ++ [m]
    /\ ClineMessage.ts m = ts0
    /\ ClineMessage.partial m = Some false
    /\ ClineMessage.text m = call_text c
    /\ ClineMessage.type m = kind
    /\ tagOf kind m = Some type.
Proof.
  intros (Ha & m & Hm & Hts & Hp & Hty & Htag). destruct c as [e tx im cp ps ni cc].
  pose proof (isUpdatingPreviousPartial_open kind type m Hp Hty Htag) as Hu.
  unfold invoke, say, ask_begin; simpl.
  destruct kind; run; rewrite Ha, Hm, at_last_app, Hu; simpl; try destruct ni; simpl;
    split_save e; run; rewrite Hm, replaceLast_app;
    eexists; repeat split; simpl; assumption.
Qed.

(** The state after the first partial call: the logical message is open,
    either because the call created it or because it was open already. *)
Lemma invoke_first kind type c w :
  abort (this w) = false ->
  let base := clineMessages (this w) in
  let opened := isUpdatingPreviousPartial kind type (at_last base) in
  openAt kind type
    (match opened with Some m0 => ClineMessage.ts m0 | None => Date_now (call_env c) end)
    (match opened with Some _ => removelast base | None => base end)
    (invoke kind type (Some true) c w).
Proof.
  intros Ha base opened. subst opened.
  destruct (isUpdatingPreviousPartial kind type (at_last base)) as [m0|] eqn:Hu.
  - apply isUpdatingPreviousPartial_sound in Hu as (Hl & Hp & Hty & Htag).
    apply invoke_updates. split; [assumption|]. exists m0.
    repeat split; auto. now apply at_last_split.
  - now apply invoke_opens.
Qed.

(** ** Identity timestamps are never rewritten *)

Lemma map_ts_replaceLast l m0 m' :
  at_last l = Some m0 -> ClineMessage.ts m' = ClineMessage.ts m0 ->
  List.map ClineMessage.ts (replaceLast m' l) = List.map ClineMessage.ts l.
Proof.
  intros Hl Hts. rewrite (at_last_split l m0 Hl) at 2. unfold replaceLast.
  rewrite !map_app. simpl. now rewrite Hts.
Qed.

Ltac keeps_ts Hl :=
  first [ exists []; rewrite app_nil_r; first [reflexivity|
            unfold timestamps; simpl; apply map_ts_replaceLast with (1 := Hl); reflexivity]
        | eexists; unfold timestamps; simpl; rewrite map_app; reflexivity ].

Lemma say_keeps_timestamps e ty tx im p cp ps ni cc w :
  exists later, timestamps (snd (say e ty tx im p cp ps ni cc w)) = timestamps w ++ later.
Proof.
  unfold say. run. destruct (abort (this w)); [exists []; now rewrite app_nil_r|].
  destruct p as [[|]|]; simpl;
    try (destruct (isUpdatingPreviousPartial type_say ty (at_last (clineMessages (this w))))
           as [m0|] eqn:Hu;
         [apply isUpdatingPreviousPartial_sound in Hu as (Hl & _)|]);
    destruct ni; simpl; split_save e; run; keeps_ts Hl.
Qed.

Lemma ask_begin_keeps_timestamps e ty tx p ps w :
  exists later, timestamps (snd (ask_begin e ty tx p ps w)) = timestamps w ++ later.
Proof.
  unfold ask_begin. run. destruct (abort (this w)); [exists []; now rewrite app_nil_r|].
  destruct p as [[|]|]; simpl;
    try (destruct (isUpdatingPreviousPartial type_ask ty (at_last (clineMessages (this w))))
           as [m0|] eqn:Hu;
         [apply isUpdatingPreviousPartial_sound in Hu as (Hl & _)|]);
    simpl; split_save e; run; keeps_ts Hl.
Qed.


(** ** Ask/Say protocol: what a mutation of the log publishes *)

(** C8, as amended. Every [ask] or [say] call on a task that is not
    aborted changes the log and notifies the presentation sink: a
    [message] event (created or updated) carrying the changed entry is
    emitted. A call that appends an entry or completes a partial one also
    calls [saveTaskMessages] on the new log, and then [taskMetadata] on it
    unless the save itself threw. A [partial = true] call that updates the
    trailing partial entry in place neither saves nor derives metrics. *)
Theorem every_mutation_notifies_and_all_but_partial_updates_persist
    kind type partial c w :
  abort (this w) = false ->
  let w' := invoke kind type partial c w in
  exists evs,
    trace w' = trace w ++ evs
    /\ (exists action m,
          at_last (clineMessages (this w')) = Some m /\ In (emit_message action m) evs)
    /\ (if truthy partial && updatesInPlace kind type (this w)
        then Forall (fun ev => isPersistence ev = false) evs
        else In (saveTaskMessages (clineMessages (this w'))) evs
             /\ (faultAt (call_env c) at_saveTaskMessages = None ->
                 In (taskMetadata (clineMessages (this w'))) evs)).
Proof.
  sealed.
  intros Ha. destruct c as [e tx im cp ps ni cc]. unfold updatesInPlace, invoke, say, ask_begin.
  simpl.
  destruct (isUpdatingPreviousPartial kind type (at_last (clineMessages (this w))))
    as [m0|] eqn:Hu.
  - pose proof Hu as Hs. apply isUpdatingPreviousPartial_sound in Hs as (Hl & _).
    destruct kind; run; rewrite Ha;
      destruct partial as [[|]|]; simpl; rewrite ?Hu; simpl; try destruct ni; simpl;
      split_save e; run; rewrite <- ?app_assoc; simpl;
      (eexists; split; [reflexivity|]);
      (split; [do 2 eexists; rewrite ?at_last_replaceLast, ?at_last_app;
               split; [reflexivity|simpl; tauto]|]);
      try (split; [simpl; tauto|]); try (intros; simpl; tauto); try discriminate;
      repeat constructor.
  - destruct kind; run; rewrite Ha;
      destruct partial as [[|]|]; simpl; rewrite ?Hu; simpl; try destruct ni; simpl;
      split_save e; run; rewrite <- ?app_assoc; simpl;
      (eexists; split; [reflexivity|]);
      (split; [do 2 eexists; rewrite ?at_last_replaceLast, ?at_last_app;
               split; [reflexivity|simpl; tauto]|]);
      try (split; [simpl; tauto|]); try (intros; simpl; tauto); try discriminate.
Qed.

(** C8, counterexample. A second [say("text", ..., partial = true)] rewrites
    the trailing partial entry, and all it does besides is notify: no
    [saveTaskMessages] and no [taskMetadata] call is made. *)
Lemma partial_update_neither_saves_nor_derives_metrics :
  let w := invoke type_say "text" (Some true) (plainCall 1000 "He") newWorld in
  let w' := invoke type_say "text" (Some true) (plainCall 1001 "Hello") w in
  clineMessages (this w') <> clineMessages (this w)
  /\ exists m,
       clineMessages (this w') = [m]
       /\ trace w' = trace w ++ [postMessageToWebview m; emit_message updated m]
       /\ ~ In (saveTaskMessages (clineMessages (this w'))) (trace w')
       /\ ~ In (taskMetadata (clineMessages (this w'))) (trace w').
Proof.
  cbv zeta. split; [vm_compute; discriminate|].
  eexists. split; [vm_compute; reflexivity|].
  split; [vm_compute; reflexivity|].
  split; vm_compute; intros H; repeat (destruct H as [H|H]; [discriminate H|]); exact H.
Qed.

(** ** Ask/Say protocol: waiting for the response *)

Lemma pollWaits_app tr1 tr2 : pollWaits (tr1 ++ tr2) = pollWaits tr1 ++ pollWaits tr2.
Proof.
  induction tr1 as [|ev tr1 IH]; [reflexivity|].
  destruct ev; simpl; rewrite IH; reflexivity.
Qed.

Lemma pollWaits_quiet evs : Forall quiet evs -> pollWaits evs = [].
Proof.
  induction 1 as [|ev evs Q _ IH]; [reflexivity|].
  destruct ev; simpl in *; auto; contradiction.
Qed.

Lemma pollWaits_extends w w' : extends w w' -> pollWaits (trace w') = pollWaits (trace w).
Proof.
  intros (evs & -> & Q). now rewrite pollWaits_app, (pollWaits_quiet evs Q), app_nil_r.
Qed.

Lemma tsDiffers_false lastTs askTs : tsDiffers lastTs askTs = false <-> lastTs = Some askTs.
Proof.
  unfold tsDiffers. destruct lastTs as [x|]; [|split; discriminate].
  destruct (Z.eqb_spec x askTs); simpl; split; congruence.
Qed.

Lemma tsDiffers_true lastTs askTs : tsDiffers lastTs askTs = true <-> lastTs <> Some askTs.
Proof.
  rewrite <- tsDiffers_false. destruct (tsDiffers lastTs askTs); split; congruence.
Qed.

(** A polling wait ends exactly when its condition holds; it never raises;
    between two polls it sleeps for its interval and for nothing else. *)
Lemma pWaitFor_spec condition interval sched w :
  let r := pWaitFor condition interval sched w in
  match fst r with
  | Return _ => condition (this (snd r)) = true
  | Throw _ => False
  | Pending => condition (this (snd r)) = false
  end
  /\ exists k, (k <= length sched)%nat
       /\ pollWaits (trace (snd r)) = pollWaits (trace w) ++ repeat interval k
       /\ (fst r = Pending -> k = length sched).
Proof.
  revert w. induction sched as [|a sched IH]; intros w; simpl.
  - destruct (condition (this w)) eqn:Hc; simpl; (split; [assumption|]);
      exists O; simpl; rewrite app_nil_r; auto.
  - destruct (condition (this w)) eqn:Hc; simpl.
    + split; [assumption|]. exists O. simpl. rewrite app_nil_r.
      repeat split; [lia|discriminate].
    + destruct (IH (runSchedule a (record (pollWait interval) w))) as (H1 & k & Hk & Hp & Hpend).
      split; [exact H1|]. exists (S k). repeat split; [lia| |intros H; f_equal; auto].
      rewrite Hp, (pollWaits_extends _ _ (extends_runSchedule a _)). simpl.
      rewrite pollWaits_app, <- app_assoc. reflexivity.
Qed.

Lemma ask_await_outcome sched askTs w :
  match ask_await sched askTs w with
  | (Return r, w') =>
      response r <> None /\ lastMessageTs (this w') = Some askTs /\ slotEmpty (this w')
  | (Throw err, w') =>
      err = Error "Current ask promise was ignored" /\ lastMessageTs (this w') <> Some askTs
  | (Pending, w') =>
      askResponse (this w') = None /\ lastMessageTs (this w') = Some askTs
  end.
Proof.
  unfold ask_await, bind.
  destruct (pWaitFor_spec
              (fun t => isSome (askResponse t) || tsDiffers (lastMessageTs t) askTs)
              100 sched w) as [H _].
  cbv zeta in H.
  destruct (pWaitFor _ 100 sched w) as [[[]| |] w']; simpl in H; try contradiction.
  - unfold getThis. simpl.
    destruct (tsDiffers (lastMessageTs (this w')) askTs) eqn:Ht; simpl.
    + split; [reflexivity|]. now apply tsDiffers_true.
    + rewrite orb_false_r in H. apply tsDiffers_false in Ht.
      repeat split; auto. destruct (askResponse (this w')); [discriminate|discriminate H].
  - apply orb_false_iff in H as [H1 H2]. apply tsDiffers_false in H2.
    split; [|assumption]. now destruct (askResponse (this w')).
Qed.

Lemma ask_partial_raises e sched type text progressStatus w :
  exists err, fst (ask e sched type text (Some true) progressStatus w) = Throw err
    /\ (abort (this w) = false ->
        err = if updatesInPlace type_ask type (this w)
              then Error "Current ask promise was ignored (#1)"
              else Error "Current ask promise was ignored (#2)").
Proof.
  unfold ask, ask_begin, updatesInPlace. run.
  destruct (abort (this w)); simpl; [eexists; split; [reflexivity|discriminate]|].
  destruct (isUpdatingPreviousPartial type_ask type (at_last (clineMessages (this w))));
    simpl; split_save e; run; eexists; split; reflexivity.
Qed.

Lemma ask_begin_atomic e type text w :
  abort (this w) = false ->
  let r := ask_begin e type text None None w in
  fst r = Return (Date_now e)
  /\ clineMessages (this (snd r))
     = clineMessages (this w)
         ++ [ClineMessage.mk (Date_now e) type_ask (Some type) None text None None
               None None None]
  /\ lastMessageTs (this (snd r)) = Some (Date_now e)
  /\ slotEmpty (this (snd r)).
Proof.
  intros Ha. unfold ask_begin, slotEmpty. run. rewrite Ha. simpl.
  split_save e; run; repeat split.
Qed.

Lemma ask_begin_atomic_abort e type text w :
  abort (this w) = false -> abort (this (snd (ask_begin e type text None None w))) = false.
Proof.
  intros Ha. unfold ask_begin. run. rewrite Ha. simpl. split_save e; run; exact Ha.
Qed.

Lemma atPoll_S interval during rest k w :
  atPoll interval (during :: rest) (S k) w
  = atPoll interval rest k (runSchedule during (record (pollWait interval) w)).
Proof. reflexivity. Qed.

Lemma atPoll_app interval n before after w :
  length before = n ->
  forall k, atPoll interval (before ++ after) (n + k) w
            = atPoll interval after k (atPoll interval before n w).
Proof.
  intros <- k. unfold atPoll. rewrite firstn_app_2, fold_left_app.
  now rewrite firstn_all.
Qed.

(** While nothing happens during the sleeps, the task object stays as it
    is. *)
Lemma atPoll_quiet interval n w :
  this (atPoll interval (repeat [] n) n w) = this w
  /\ pollWaits (trace (atPoll interval (repeat [] n) n w))
     = pollWaits (trace w) ++ repeat interval n.
Proof.
  revert w. induction n as [|n IH]; intros w.
  - unfold atPoll. simpl. now rewrite app_nil_r.
  - cbn [repeat]. rewrite atPoll_S. cbn [runSchedule fold_left].
    destruct (IH (record (pollWait interval) w)) as [I1 I2]. split; [now rewrite I1|].
    rewrite I2. unfold record. cbn [trace]. rewrite pollWaits_app. cbn [pollWaits].
    rewrite <- app_assoc. reflexivity.
Qed.

Lemma atPoll_quiet_prefix interval n rest j w :
  (j <= n)%nat -> this (atPoll interval (repeat [] n ++ rest) j w) = this w.
Proof.
  revert n w. induction j as [|j IH]; intros n w Hj; [reflexivity|].
  destruct n as [|n]; [lia|]. cbn [repeat app]. rewrite atPoll_S.
  cbn [runSchedule fold_left]. rewrite IH by lia. reflexivity.
Qed.

Lemma pollWaits_atPoll interval sched k w :
  (k <= length sched)%nat ->
  pollWaits (trace (atPoll interval sched k w)) = pollWaits (trace w) ++ repeat interval k.
Proof.
  revert sched w. induction k as [|k IH]; intros sched w Hk.
  - unfold atPoll. simpl. now rewrite app_nil_r.
  - destruct sched as [|during rest]; [simpl in Hk; lia|]. rewrite atPoll_S.
    rewrite IH by (simpl in Hk; lia).
    rewrite (pollWaits_extends _ _ (extends_runSchedule during _)).
    unfold record. cbn [trace]. rewrite pollWaits_app. cbn [pollWaits repeat].
    rewrite <- app_assoc. reflexivity.
Qed.

(** A polling wait ends at the first poll that finds its condition true,
    in the world of that poll; and while no poll finds it true, the wait goes
    on. *)
Lemma pWaitFor_ends condition interval sched k w :
  (k <= length sched)%nat ->
  (forall j, (j < k)%nat -> condition (this (atPoll interval sched j w)) = false) ->
  condition (this (atPoll interval sched k w)) = true ->
  pWaitFor condition interval sched w = (Return tt, atPoll interval sched k w).
Proof.
  revert sched w. induction k as [|k IH]; intros sched w Hk Hbefore Hat.
  - change (atPoll interval sched 0 w) with w in *.
    destruct sched; simpl; now rewrite Hat.
  - destruct sched as [|during rest]; [simpl in Hk; lia|].
    pose proof (Hbefore O ltac:(lia)) as H0. change (atPoll interval _ 0 w) with w in H0.
    cbn [pWaitFor]. rewrite H0. rewrite atPoll_S in *. apply IH.
    + simpl in Hk. lia.
    + intros j Hj. specialize (Hbefore (S j) ltac:(lia)). now rewrite atPoll_S in Hbefore.
    + exact Hat.
Qed.

Lemma pWaitFor_goes_on condition interval sched w :
  (forall k, (k <= length sched)%nat ->
             condition (this (atPoll interval sched k w)) = false) ->
  pWaitFor condition interval sched w = (Pending, atPoll interval sched (length sched) w).
Proof.
  revert w. induction sched as [|during rest IH]; intros w H.
  - pose proof (H O (le_n _)) as H0. change (atPoll interval [] 0 w) with w in H0.
    simpl. now rewrite H0.
  - pose proof (H O ltac:(simpl; lia)) as H0. change (atPoll interval _ 0 w) with w in H0.
    cbn [pWaitFor length]. rewrite H0, atPoll_S. apply IH.
    intros k Hk. specialize (H (S k) ltac:(simpl; lia)). now rewrite atPoll_S in H.
Qed.

Lemma ends_false t askTs :
  isSome (askResponse t) || tsDiffers (lastMessageTs t) askTs = false
  <-> askResponse t = None /\ lastMessageTs t = Some askTs.
Proof.
  rewrite orb_false_iff, tsDiffers_false.
  destruct (askResponse t); simpl; split; intros [H1 H2]; split; congruence.
Qed.

(** The wait of an [ask] ends at the first poll that finds a response
    stored or [lastMessageTs] changed. *)
Lemma ask_await_ends sched askTs k w :
  (k <= length sched)%nat ->
  (forall j, (j < k)%nat ->
     askResponse (this (atPoll 100 sched j w)) = None
     /\ lastMessageTs (this (atPoll 100 sched j w)) = Some askTs) ->
  askResponse (this (atPoll 100 sched k w)) <> None
  \/ lastMessageTs (this (atPoll 100 sched k w)) <> Some askTs ->
  let seen := atPoll 100 sched k w in
  ask_await sched askTs w
  = if tsDiffers (lastMessageTs (this seen)) askTs
    then (Throw (Error "Current ask promise was ignored"), seen)
    else (Return {| response := askResponse (this seen);
                    response_text := askResponseText (this seen);
                    response_images := askResponseImages (this seen) |},
          record (emit "taskAskResponded")
            (with_this (set_askResponse None None None) seen)).
Proof.
  intros Hk Hbefore Hat seen. unfold ask_await. unfold bind at 1.
  rewrite (pWaitFor_ends _ 100 sched k w Hk).
  - fold seen. unfold bind, getThis. cbv beta iota.
    destruct (tsDiffers (lastMessageTs (this seen)) askTs); reflexivity.
  - intros j Hj. now apply ends_false, Hbefore.
  - fold seen. destruct (isSome (askResponse (this seen))
                         || tsDiffers (lastMessageTs (this seen)) askTs) eqn:E;
      [reflexivity|].
    apply ends_false in E. destruct E as [E1 E2]. destruct Hat; contradiction.
Qed.

(** C4. An atomic [ask] ([partial] undefined) on a task that is not
    aborted appends its message, stamps it with [askTs = Date.now()] and
    then polls every 100 ms, while the rest of the system acts during the
    sleeps. The wait ends at the first poll that finds a response stored or
    [lastMessageTs] different from [askTs], after one sleep of 100 ms for
    each poll before it: if [lastMessageTs] differs, the ask raises
    "Current ask promise was ignored", response or not, and leaves the
    world as that poll found it; otherwise it returns the response, text
    and images stored at that poll and empties the slot. As long as no poll
    finds either, the ask is pending. So a response that arrives during a
    sleep, after sleeps in which nothing happened, is returned at the next
    poll; and a later complete [say] or new [ask] with another timestamp
    makes the ask raise at the next poll. An [ask] with [partial = true],
    whether it creates the trailing partial message or rewrites it in
    place, always raises and never returns a response. *)
Theorem atomic_ask_polls_until_answered_or_superseded e sched type text w :
  abort (this w) = false ->
  let askTs := Date_now e in
  let begun := ask_begin e type text None None w in
  let r := ask e sched type text None None w in
  let seenAt k := atPoll 100 sched k (snd begun) in
  (fst begun = Return askTs
   /\ clineMessages (this (snd begun))
      = clineMessages (this w)
          ++ [ClineMessage.mk askTs type_ask (Some type) None text None None None None None]
   /\ lastMessageTs (this (snd begun)) = Some askTs)
  /\ match fst r with
     | Return answer =>
         response answer <> None /\ lastMessageTs (this (snd r)) = Some askTs
     | Throw err =>
         err = Error "Current ask promise was ignored"
         /\ lastMessageTs (this (snd r)) <> Some askTs
     | Pending =>
         askResponse (this (snd r)) = None /\ lastMessageTs (this (snd r)) = Some askTs
     end
  /\ (exists k, (k <= length sched)%nat
        /\ pollWaits (trace (snd r)) = pollWaits (trace w) ++ repeat 100 k
        /\ (fst r = Pending -> k = length sched))
  /\ (forall e' sched' type' text' progressStatus w',
        exists err, fst (ask e' sched' type' text' (Some true) progressStatus w') = Throw err)
  /\ (forall k,
        (k <= length sched)%nat ->
        (forall j, (j < k)%nat ->
           askResponse (this (seenAt j)) = None
           /\ lastMessageTs (this (seenAt j)) = Some askTs) ->
        askResponse (this (seenAt k)) <> None
        \/ lastMessageTs (this (seenAt k)) <> Some askTs ->
        pollWaits (trace (seenAt k)) = pollWaits (trace w) ++ repeat 100 k
        /\ (lastMessageTs (this (seenAt k)) <> Some askTs ->
            r = (Throw (Error "Current ask promise was ignored"), seenAt k))
        /\ (lastMessageTs (this (seenAt k)) = Some askTs ->
            r = (Return {| response := askResponse (this (seenAt k));
                           response_text := askResponseText (this (seenAt k));
                           response_images := askResponseImages (this (seenAt k)) |},
                 record (emit "taskAskResponded")
                   (with_this (set_askResponse None None None) (seenAt k)))))
  /\ ((forall k, (k <= length sched)%nat ->
         askResponse (this (seenAt k)) = None
         /\ lastMessageTs (this (seenAt k)) = Some askTs) ->
      r = (Pending, seenAt (length sched)))
  /\ (forall n answer answerText answerImages chatType rest,
        sched
        = repeat [] n
            ++ [webviewAskResponse answer answerText answerImages chatType] :: rest ->
        fst r = Return {| response := Some answer; response_text := answerText;
                          response_images := answerImages |}
        /\ pollWaits (trace (snd r)) = pollWaits (trace w) ++ repeat 100 (S n))
  /\ (forall n e' later rest,
        Date_now e' <> askTs ->
        (exists ty tx im cp ps cc, later = otherSay e' ty tx im None cp ps false cc)
        \/ (exists ty tx ps, later = otherAsk e' ty tx None ps) ->
        sched = repeat [] n ++ [later] :: rest ->
        fst r = Throw (Error "Current ask promise was ignored")
        /\ pollWaits (trace (snd r)) = pollWaits (trace w) ++ repeat 100 (S n)).
Proof.
  sealed.
  intros Ha askTs begun r seenAt.
  destruct (ask_begin_atomic e type text w Ha) as (Hb1 & Hb2 & Hb3 & Hb4).
  pose proof (ask_begin_atomic_abort e type text w Ha) as Hb5.
  fold begun askTs in Hb1, Hb2, Hb3, Hb4, Hb5.
  assert (r = ask_await sched askTs (snd begun)) as Hr.
  { subst r. unfold ask, bind. fold begun. destruct begun as [o w1]. simpl in *.
    now subst o. }
  assert (pollWaits (trace (snd begun)) = pollWaits (trace w)) as Hq
    by (apply pollWaits_extends; apply quietM_ask_begin).
  assert (forall k,
            (k <= length sched)%nat ->
            (forall j, (j < k)%nat ->
               askResponse (this (seenAt j)) = None
               /\ lastMessageTs (this (seenAt j)) = Some askTs) ->
            askResponse (this (seenAt k)) <> None
            \/ lastMessageTs (this (seenAt k)) <> Some askTs ->
            pollWaits (trace (seenAt k)) = pollWaits (trace w) ++ repeat 100 k
            /\ (lastMessageTs (this (seenAt k)) <> Some askTs ->
                r = (Throw (Error "Current ask promise was ignored"), seenAt k))
            /\ (lastMessageTs (this (seenAt k)) = Some askTs ->
                r = (Return {| response := askResponse (this (seenAt k));
                               response_text := askResponseText (this (seenAt k));
                               response_images := askResponseImages (this (seenAt k)) |},
                     record (emit "taskAskResponded")
                       (with_this (set_askResponse None None None) (seenAt k)))))
    as Hends.
  { intros k Hk Hbefore Hat.
    split; [subst seenAt; cbv beta; now rewrite pollWaits_atPoll, Hq|].
    pose proof (ask_await_ends sched askTs k (snd begun) Hk Hbefore Hat) as E.
    cbv zeta in E. fold (seenAt k) in E. rewrite <- Hr in E.
    split; intros Ht.
    - apply tsDiffers_true in Ht. now rewrite Ht in E.
    - apply tsDiffers_false in Ht. now rewrite Ht in E. }
  split; [auto|]. split; [|split; [|split; [|split; [exact Hends|split; [|split]]]]].
  - rewrite Hr. pose proof (ask_await_outcome sched askTs (snd begun)) as H.
    destruct (ask_await sched askTs (snd begun)) as [[answer|err|] w']; simpl; tauto.
  - rewrite Hr. unfold ask_await, bind.
    destruct (pWaitFor_spec
                (fun t => isSome (askResponse t) || tsDiffers (lastMessageTs t) askTs)
                100 sched (snd begun)) as (_ & k & Hk & Hp & Hpend).
    cbv zeta in Hp, Hpend.
    exists k. split; [exact Hk|].
    destruct (pWaitFor _ 100 sched (snd begun)) as [[[]| |] w']; simpl in *.
    + unfold getThis. simpl.
      destruct (tsDiffers (lastMessageTs (this w')) askTs); run;
        rewrite ?pollWaits_app; simpl; rewrite ?app_nil_r;
        (split; [now rewrite Hp, Hq|discriminate]).
    + split; [now rewrite Hp, Hq|discriminate].
    + split; [now rewrite Hp, Hq|auto].
  - intros e' sched' type' text' ps w'.
    destruct (ask_partial_raises e' sched' type' text' ps w') as (err & H & _).
    now exists err.
  - intros Hnever. rewrite Hr. unfold ask_await. unfold bind at 1.
    rewrite pWaitFor_goes_on; [reflexivity|].
    intros k Hk. now apply ends_false, Hnever.
  - intros n answer answerText answerImages chatType rest Hs.
    assert (S n <= length sched)%nat as Hk
      by (rewrite Hs, length_app, repeat_length; simpl; lia).
    assert (forall j, (j <= n)%nat -> this (seenAt j) = this (snd begun)) as Hquiet
      by (intros j Hj; subst seenAt; cbv beta; rewrite Hs;
          now apply atPoll_quiet_prefix).
    assert (this (seenAt (S n))
            = set_askResponse (Some answer) answerText answerImages (this (snd begun)))
      as Hseen.
    { subst seenAt. cbv beta. rewrite Hs.
      replace (S n) with (length (repeat (@nil EnvAction) n) + 1)%nat
        by (rewrite repeat_length; lia).
      rewrite atPoll_app by reflexivity. rewrite repeat_length.
      rewrite atPoll_S. change (atPoll 100 rest 0 ?x) with x.
      cbn [runSchedule fold_left envStep]. unfold handleWebviewAskResponse. run.
      now rewrite (proj1 (atPoll_quiet 100 n (snd begun))). }
    destruct (Hends (S n) Hk) as (P1 & _ & P3).
    + intros j Hj. rewrite Hquiet by lia. split; [apply Hb4|exact Hb3].
    + left. rewrite Hseen. destruct (snd begun) as [t ? ? ? ?]. destruct t. discriminate.
    + assert (lastMessageTs (this (seenAt (S n))) = Some askTs) as Hl.
      { rewrite Hseen. rewrite <- Hb3. destruct (snd begun) as [t ? ? ? ?].
        destruct t. reflexivity. }
      rewrite (P3 Hl). cbn [fst snd]. split.
      * rewrite Hseen. destruct (snd begun) as [t ? ? ? ?]. destruct t. reflexivity.
      * unfold record, with_this. cbn [trace]. rewrite pollWaits_app. cbn [pollWaits].
        now rewrite app_nil_r.
  - intros n e' later rest Hne Hlater Hs.
    assert (S n <= length sched)%nat as Hk
      by (rewrite Hs, length_app, repeat_length; simpl; lia).
    assert (forall j, (j <= n)%nat -> this (seenAt j) = this (snd begun)) as Hquiet
      by (intros j Hj; subst seenAt; cbv beta; rewrite Hs;
          now apply atPoll_quiet_prefix).
    assert (lastMessageTs (this (seenAt (S n))) = Some (Date_now e')) as Hseen.
    { subst seenAt. cbv beta. rewrite Hs.
      replace (S n) with (length (repeat (@nil EnvAction) n) + 1)%nat
        by (rewrite repeat_length; lia).
      rewrite atPoll_app by reflexivity. rewrite repeat_length.
      rewrite atPoll_S. change (atPoll 100 rest 0 ?x) with x.
      cbn [runSchedule fold_left].
      pose proof (proj1 (atPoll_quiet 100 n (snd begun))) as Hq'.
      set (quietly := atPoll 100 (repeat [] n) n (snd begun)) in *.
      assert (abort (this (record (pollWait 100) quietly)) = false) as Ha'
        by (unfold record; cbn [this]; now rewrite Hq').
      destruct Hlater as [(ty & tx & im & cp & ps & cc & ->)|(ty & tx & ps & ->)];
        cbn [envStep].
      - unfold say. unfold bind at 1, getThis. cbv beta iota. rewrite Ha'.
        cbn [negb when]. split_save e'; run; reflexivity.
      - now destruct (ask_begin_atomic e' ty tx _ Ha') as (_ & _ & H & _). }
    destruct (Hends (S n) Hk) as (P1 & P2 & _).
    + intros j Hj. rewrite Hquiet by lia. split; [apply Hb4|exact Hb3].
    + right. rewrite Hseen. congruence.
    + rewrite P2 by (rewrite Hseen; congruence). cbn [fst snd]. split; [reflexivity|].
      exact P1.
Qed.

(** ** What the protocol operations leave alone *)

Lemma say_frame e ty tx im p cp ps ni cc w :
  sameControl w (snd (say e ty tx im p cp ps ni cc w))
  /\ sameSlot w (snd (say e ty tx im p cp ps ni cc w)).
Proof.
  unfold say, sameControl, sameSlot. run.
  destruct (abort (this w)) eqn:Ha; [simpl; rewrite Ha; repeat split|].
  destruct p as [[|]|]; simpl;
    try destruct (isUpdatingPreviousPartial _ _ _); destruct ni; simpl;
    split_save e; run; rewrite ?Ha; repeat split.
Qed.

Lemma ask_begin_frame e ty tx p ps w :
  sameControl w (snd (ask_begin e ty tx p ps w))
  /\ (sameSlot w (snd (ask_begin e ty tx p ps w))
      \/ slotEmpty (this (snd (ask_begin e ty tx p ps w)))).
Proof.
  unfold ask_begin, sameControl, sameSlot, slotEmpty. run.
  destruct (abort (this w)) eqn:Ha; [simpl; rewrite Ha; split; [|left]; repeat split|].
  destruct p as [[|]|]; simpl;
    try destruct (isUpdatingPreviousPartial _ _ _); simpl;
    split_save e; run; rewrite ?Ha;
    (split; [repeat split|first [left; repeat split; reflexivity
                                |right; repeat split; reflexivity]]).
Qed.

Lemma saveClineMessages_frame e w :
  let w' := snd (saveClineMessages e w) in
  fst (saveClineMessages e w) = Return tt
  /\ this w' = this w /\ timers w' = timers w /\ nextHandle w' = nextHandle w
  /\ resolved w' = resolved w.
Proof. split_save e; run; repeat split. Qed.

Lemma addToApiConversationHistory_frame e r c w :
  let w' := snd (addToApiConversationHistory e r c w) in
  fst (addToApiConversationHistory e r c w) = Return tt
  /\ this w'
     = set_apiConversationHistory
         (apiConversationHistory (this w) ++ [ApiMessage.mk r c (Some (Date_now e))])
         (this w)
  /\ timers w' = timers w /\ nextHandle w' = nextHandle w /\ resolved w' = resolved w.
Proof. destruct e as [n p sf [af|] ed]; run; repeat split. Qed.

Ltac run_but_saves :=
  unfold bind, ret, throw, tryCatch, getThis, assign, call, callOrThrow, when,
    clearIntervalNow, resolvePromise, with_this, record in *; simpl in *.

Lemma abortTask_frame e b w :
  let w' := snd (abortTask e b w) in
  fst (abortTask e b w) = Return tt
  /\ abort (this w') = true
  /\ abandoned (this w') = (b || abandoned (this w))
  /\ pauseInterval (this w') = None
  /\ timers w' = match pauseInterval (this w) with
                 | Some h => List.filter (fun h' => negb (Nat.eqb h' h)) (timers w)
                 | None => timers w
                 end
  /\ nextHandle w' = nextHandle w
  /\ resolved w' = resolved w
  /\ isPaused (this w') = isPaused (this w)
  /\ apiConversationHistory (this w') = apiConversationHistory (this w)
  /\ clineMessages (this w') = clineMessages (this w)
  /\ sameSlot w w'.
Proof.
  unfold abortTask, sameSlot. run_but_saves.
  destruct b; simpl; destruct (pauseInterval (this w)) eqn:Hp; simpl;
    destruct (isStreaming (this w) && isEditing e); simpl;
    match goal with
    | |- context [saveClineMessages e ?W] =>
        destruct (saveClineMessages_frame e W) as (F1 & F2 & F3 & F4 & F5);
        destruct (saveClineMessages e W) as [o w']
    end;
    simpl in *; subst o; rewrite F2, F3, F4, F5; simpl; rewrite ?Hp; repeat split.
Qed.

Lemma resumePausedTask_frame e1 e2 r w :
  let w' := snd (resumePausedTask e1 e2 r w) in
  abort (this w') = abort (this w)
  /\ isPaused (this w') = false
  /\ pauseInterval (this w') = pauseInterval (this w)
  /\ timers w' = timers w /\ nextHandle w' = nextHandle w /\ resolved w' = resolved w
  /\ sameSlot w w'.
Proof.
  unfold resumePausedTask. run_but_saves.
  set (w0 := {| this := set_isPaused false (this w); timers := timers w;
                nextHandle := nextHandle w; resolved := resolved w;
                trace := trace w ++ [emit "taskUnpaused"] |}).
  destruct (say_frame e1 "subtask_result" (Some r) None None None None false None w0)
    as [(A1 & A2 & A3 & A4 & A5 & A6 & A7 & A8 & A9 & A10) (S1 & S2 & S3)].
  destruct (say e1 "subtask_result" (Some r) None None None None false None w0)
    as [[[]|err|] w1]; simpl in *.
  - match goal with
    | |- context [addToApiConversationHistory e2 user ?C w1] =>
        destruct (addToApiConversationHistory_frame e2 user C w1)
          as (B1 & B2 & B3 & B4 & B5);
        destruct (addToApiConversationHistory e2 user C w1) as [o w2]
    end.
    simpl in *. subst o. simpl. unfold sameSlot. rewrite B2, B3, B4, B5. simpl.
    rewrite A1, A3, A4, A8, A9, A10, S1, S2, S3. repeat split.
  - unfold sameSlot. destruct (provider e1); simpl;
      rewrite A1, A3, A4, A8, A9, A10, S1, S2, S3; repeat split.
  - unfold sameSlot. rewrite A1, A3, A4, A8, A9, A10, S1, S2, S3. repeat split.
Qed.

(** ** Identity timestamps under any schedule *)

Lemma resumePausedTask_keeps_timestamps e1 e2 r w :
  exists later, timestamps (snd (resumePausedTask e1 e2 r w)) = timestamps w ++ later.
Proof.
  unfold resumePausedTask. run_but_saves.
  set (w0 := {| this := set_isPaused false (this w); timers := timers w;
                nextHandle := nextHandle w; resolved := resolved w;
                trace := trace w ++ [emit "taskUnpaused"] |}).
  destruct (say_keeps_timestamps e1 "subtask_result" (Some r) None None None None false
              None w0) as (later & Hs).
  change (timestamps w0) with (timestamps w) in Hs.
  destruct (say e1 "subtask_result" (Some r) None None None None false None w0)
    as [[[]|err|] w1]; simpl in *.
  - match goal with
    | |- context [addToApiConversationHistory e2 user ?C w1] =>
        destruct (addToApiConversationHistory_frame e2 user C w1) as (B1 & B2 & _);
        destruct (addToApiConversationHistory e2 user C w1) as [o w2]
    end.
    simpl in *. subst o. simpl. exists later. rewrite <- Hs. unfold timestamps.
    now rewrite B2.
  - exists later. now destruct (provider e1).
  - now exists later.
Qed.

Lemma envStep_keeps_timestamps a w :
  exists later, timestamps (envStep a w) = timestamps w ++ later.
Proof.
  destruct a; simpl.
  - exists []. now rewrite app_nil_r.
  - exists []. now rewrite app_nil_r.
  - apply ask_begin_keeps_timestamps.
  - apply say_keeps_timestamps.
  - exists []. rewrite app_nil_r. unfold timestamps.
    destruct (abortTask_frame e isAbandoned w)
      as (_ & _ & _ & _ & _ & _ & _ & _ & _ & F & _). now rewrite F.
  - apply resumePausedTask_keeps_timestamps.
  - exists []. now rewrite app_nil_r.
  - exists []. rewrite app_nil_r.
    destruct (existsb _ _); [|reflexivity].
    unfold pauseIntervalCallback. run. now destruct (isPaused (this w)).
Qed.

Lemma runSchedule_keeps_timestamps sched w :
  exists later, timestamps (runSchedule sched w) = timestamps w ++ later.
Proof.
  revert w. induction sched as [|a sched IH]; intros w.
  - exists []. now rewrite app_nil_r.
  - simpl. destruct (envStep_keeps_timestamps a w) as (l1 & H1).
    destruct (IH (envStep a w)) as (l2 & H2).
    exists (l1 ++ l2). now rewrite H2, H1, app_assoc.
Qed.

(** C1. Take a task that is not aborted and a run of [ask] or [say] calls
    of one [(kind, type)]: one or more calls with [partial = true], then a
    call with [partial = false]. After every non-empty prefix of the
    partial calls, and after the completing call, the log is the log that
    preceded the logical message ([older]) followed by exactly one entry for
    it. The entry's [ts] is the one assigned when the message was first
    created: the [Date.now()] of the first call, or the [ts] of the trailing
    partial message when the run continues one. The completing call leaves
    that [ts] in place, clears [partial] and stores its own text. Whatever
    the task does afterwards (further asks and says, responses, abort,
    pause and resume), the identity timestamps already in the log stay as
    they are and in place: later entries only come after them. *)
Theorem partial_then_complete_yields_one_entry kind type first more final w :
  abort (this w) = false ->
  let base := clineMessages (this w) in
  let opened := isUpdatingPreviousPartial kind type (at_last base) in
  let older := match opened with Some _ => removelast base | None => base end in
  let ts0 := match opened with
             | Some m0 => ClineMessage.ts m0
             | None => Date_now (call_env first)
             end in
  let completed := invoke kind type (Some false) final
                     (invokeAll kind type (Some true) (first :: more) w) in
  (forall before after, first :: more = before ++ after -> before <> [] ->
     exists m,
       clineMessages (this (invokeAll kind type (Some true) before w)) = older ++ [m]
       /\ ClineMessage.ts m = ts0
       /\ ClineMessage.partial m = Some true)
  /\ (exists m,
        clineMessages (this completed) = older ++ [m]
        /\ ClineMessage.ts m = ts0
        /\ ClineMessage.partial m = Some false
        /\ ClineMessage.text m = call_text final
        /\ ClineMessage.type m = kind
        /\ tagOf kind m = Some type)
  /\ forall sched,
       exists later,
         timestamps (runSchedule sched completed)
         = List.map ClineMessage.ts older ++ ts0 :: later.
Proof.
  intros Ha base opened older ts0 completed.
  pose proof (invoke_first kind type first w Ha) as H1. cbv zeta in H1.
  fold base opened older ts0 in H1.
  assert (exists m,
             clineMessages (this completed) = older ++ [m]
             /\ ClineMessage.ts m = ts0
             /\ ClineMessage.partial m = Some false
             /\ ClineMessage.text m = call_text final
             /\ ClineMessage.type m = kind
             /\ tagOf kind m = Some type) as Hfinal.
  { subst completed. simpl. apply invoke_finalizes. now apply invokeAll_updates. }
  split; [|split; [exact Hfinal|]].
  - intros before after Hsplit Hne.
    destruct before as [|c before]; [congruence|].
    injection Hsplit as <- _. simpl.
    destruct (invokeAll_updates _ _ _ _ before _ H1) as (_ & m & Hm & Hts & Hp & _).
    now exists m.
  - intros sched. destruct Hfinal as (m & Hm & Hts & _).
    destruct (runSchedule_keeps_timestamps sched completed) as (later & Hl).
    exists later. rewrite Hl. unfold timestamps. rewrite Hm, map_app. simpl.
    now rewrite Hts, <- app_assoc.
Qed.

(** ** An aborted task *)

(** [say] and [ask] on an aborted task raise at once and change nothing. *)
Remark aborted_task_rejects_say e ty tx im p cp ps ni cc w :
  abort (this w) = true ->
  say e ty tx im p cp ps ni cc w = (Throw (abortedError "say" (this w)), w).
Proof. intros Ha. unfold say, bind, getThis. simpl. now rewrite Ha. Qed.

Remark aborted_task_rejects_ask e sched ty tx p ps w :
  abort (this w) = true ->
  ask e sched ty tx p ps w = (Throw (abortedError "ask" (this w)), w).
Proof. intros Ha. unfold ask, ask_begin, bind, getThis. simpl. now rewrite Ha. Qed.

(** Resuming an aborted parent clears [isPaused], logs the failure and
    raises; neither log gains a message. *)
Remark resume_of_aborted_parent_raises eSay eApi R w :
  abort (this w) = true ->
  let r := resumePausedTask eSay eApi R w in
  (exists err, fst r = Throw err)
  /\ isPaused (this (snd r)) = false
  /\ clineMessages (this (snd r)) = clineMessages (this w)
  /\ apiConversationHistory (this (snd r)) = apiConversationHistory (this w).
Proof.
  intros Ha. cbv zeta. unfold resumePausedTask, say. run. rewrite Ha. simpl.
  destruct (provider eSay); simpl; repeat split; eexists; reflexivity.
Qed.

(** ** Ask/Say protocol: the response slot *)

Lemma ask_begin_returns_cleared e ty tx p ps w askTs w1 :
  ask_begin e ty tx p ps w = (Return askTs, w1) ->
  p <> Some true /\ slotEmpty (this w1).
Proof.
  unfold ask_begin, slotEmpty. run. destruct (abort (this w)); [discriminate|].
  destruct p as [[|]|]; simpl;
    try destruct (isUpdatingPreviousPartial _ _ _); simpl;
    split_save e; run; intros [= <- <-]; simpl; repeat split; discriminate.
Qed.

Lemma ask_partial_keeps_slot e sched ty tx ps w :
  sameSlot w (snd (ask e sched ty tx (Some true) ps w)).
Proof.
  unfold ask, ask_begin, sameSlot. run. destruct (abort (this w)); [repeat split|].
  destruct (isUpdatingPreviousPartial _ _ _); simpl; split_save e; run; repeat split.
Qed.

Lemma pauseIntervalCallback_slot h w : sameSlot w (snd (pauseIntervalCallback h w)).
Proof.
  unfold pauseIntervalCallback, sameSlot. run.
  destruct (isPaused (this w)); simpl; repeat split.
Qed.

Lemma envStep_keeps_slot_empty a w :
  isWebviewAskResponse a = false ->
  askResponse (this w) = None -> askResponse (this (envStep a w)) = None.
Proof.
  intros Ha Hs. destruct a; simpl in *; try discriminate; auto.
  - destruct (ask_begin_frame e type text partial progressStatus w)
      as [_ [(S1 & _)|(S1 & _)]]; congruence.
  - destruct (say_frame e type text images partial checkpoint progressStatus
                isNonInteractive contextCondense w) as [_ (S1 & _)]. congruence.
  - destruct (abortTask_frame e isAbandoned w)
      as (_ & _ & _ & _ & _ & _ & _ & _ & _ & _ & S1 & _). congruence.
  - destruct (resumePausedTask_frame eSay eApi lastMessage w)
      as (_ & _ & _ & _ & _ & _ & S1 & _). congruence.
  - destruct (existsb _ _); [|assumption].
    destruct (pauseIntervalCallback_slot h w) as (S1 & _). congruence.
Qed.

Lemma runSchedule_keeps_slot_empty sched w :
  forallb (fun a => negb (isWebviewAskResponse a)) sched = true ->
  askResponse (this w) = None ->
  askResponse (this (runSchedule sched w)) = None.
Proof.
  revert w. induction sched as [|a sched IH]; intros w Hall Hs; [exact Hs|].
  simpl in Hall. apply andb_true_iff in Hall as [Ha Hall].
  change (runSchedule (a :: sched) w) with (runSchedule sched (envStep a w)).
  apply IH; [assumption|]. apply envStep_keeps_slot_empty; [|exact Hs].
  now destruct (isWebviewAskResponse a).
Qed.

Lemma pWaitFor_keeps_slot_empty condition interval sched w :
  forallb (forallb (fun a => negb (isWebviewAskResponse a))) sched = true ->
  askResponse (this w) = None ->
  askResponse (this (snd (pWaitFor condition interval sched w))) = None.
Proof.
  revert w. induction sched as [|a sched IH]; intros w Hall Hs; simpl.
  - now destruct (condition (this w)).
  - simpl in Hall. apply andb_true_iff in Hall as [Ha Hall].
    destruct (condition (this w)); [assumption|].
    apply IH; [assumption|]. now apply runSchedule_keeps_slot_empty.
Qed.

(** C9, as amended. An [ask] that returns a response has emptied the slot
    (response, text and images) by the time it returns. Every [ask] that
    goes on to wait (an atomic one, a new complete one, or one completing
    a partial message) has emptied the slot before it waits. An [ask] with
    [partial = true] leaves the slot as it found it, and raises without
    reading it. Hence whatever the slot held when [ask] was called is never
    returned: unless [handleWebviewAskResponse] stores a response while the
    [ask] waits, the [ask] does not return. *)
Theorem a_stored_response_answers_at_most_one_ask :
  (forall e sched ty tx p ps w answer w',
      ask e sched ty tx p ps w = (Return answer, w') ->
      slotEmpty (this w') /\ response answer <> None /\ p <> Some true)
  /\ (forall e ty tx p ps w askTs w1,
      ask_begin e ty tx p ps w = (Return askTs, w1) ->
      p <> Some true /\ slotEmpty (this w1))
  /\ (forall e sched ty tx ps w,
      sameSlot w (snd (ask e sched ty tx (Some true) ps w))
      /\ exists err, fst (ask e sched ty tx (Some true) ps w) = Throw err)
  /\ (forall e sched ty tx p ps w,
      forallb (forallb (fun a => negb (isWebviewAskResponse a))) sched = true ->
      forall answer, fst (ask e sched ty tx p ps w) <> Return answer).
Proof.
  sealed.
  repeat apply conj.
  - intros e sched ty tx p ps w answer w' H. unfold ask, bind in H.
    destruct (ask_begin e ty tx p ps w) as [[askTs|err|] w1] eqn:Hb; try discriminate.
    apply ask_begin_returns_cleared in Hb as [Hp _].
    pose proof (ask_await_outcome sched askTs w1) as Ho. rewrite H in Ho. tauto.
  - apply ask_begin_returns_cleared.
  - intros e sched ty tx ps w. split; [apply ask_partial_keeps_slot|].
    destruct (ask_partial_raises e sched ty tx ps w) as (err & H & _). now exists err.
  - intros e sched ty tx p ps w Hall answer H. unfold ask, bind in H.
    destruct (ask_begin e ty tx p ps w) as [[askTs|err|] w1] eqn:Hb; try discriminate.
    apply ask_begin_returns_cleared in Hb as [_ (Hs & _)].
    unfold ask_await, bind in H.
    pose proof (pWaitFor_keeps_slot_empty
                  (fun t => isSome (askResponse t) || tsDiffers (lastMessageTs t) askTs)
                  100 sched w1 Hall Hs) as Hk.
    destruct (pWaitFor_spec
                (fun t => isSome (askResponse t) || tsDiffers (lastMessageTs t) askTs)
                100 sched w1) as [Hc _].
    cbv zeta in Hc.
    destruct (pWaitFor _ 100 sched w1) as [[[]| |] w2]; simpl in *; try discriminate.
    rewrite Hk in Hc. simpl in Hc. unfold getThis in H. simpl in H.
    rewrite Hc in H. discriminate.
Qed.

(** C9, counterexample. A response is in the slot; a new [ask] with
    [partial = true] is created: its message is appended, and the slot still
    holds the response. *)
Lemma new_partial_ask_does_not_clear_the_slot :
  let w := snd (handleWebviewAskResponse yesButtonClicked None None None newWorld) in
  let r := ask (calm 1000) [] "tool" (Some "edit"%string) (Some true) None w in
  length (clineMessages (this w)) = 0%nat
  /\ length (clineMessages (this (snd r))) = 1%nat
  /\ askResponse (this (snd r)) = Some yesButtonClicked
  /\ fst r = Throw (Error "Current ask promise was ignored (#2)").
Proof. vm_compute. repeat split. Qed.

(** ** Pause/resume: abort while the wait is pending *)

Lemma In_filter_ne (h x : Handle) (l : list Handle) :
  In x (List.filter (fun h' => negb (Nat.eqb h' h)) l) -> In x l /\ x <> h.
Proof.
  intros H. apply filter_In in H as [H1 H2]. split; [assumption|].
  intros ->. now rewrite Nat.eqb_refl in H2.
Qed.

Lemma pauseIntervalCallback_runtime h' w :
  let w' := snd (pauseIntervalCallback h' w) in
  (forall x, In x (timers w') -> In x (timers w))
  /\ (forall x, In x (resolved w') -> x = h' \/ In x (resolved w))
  /\ nextHandle w' = nextHandle w.
Proof.
  unfold pauseIntervalCallback. run.
  destruct (isPaused (this w)); simpl; [auto|].
  repeat split; [|intros x [<-|H]; auto].
  destruct (pauseInterval (this w)); [|auto].
  intros x H. now apply In_filter_ne in H.
Qed.

Lemma envStep_stopped a h w : stopped h w -> stopped h (envStep a w).
Proof.
  intros (Ht & Hr & Hn). unfold stopped. destruct a; simpl.
  - auto.
  - run. auto.
  - destruct (ask_begin_frame e type text partial progressStatus w)
      as [(_ & _ & _ & _ & _ & _ & _ & F1 & F2 & F3) _]. now rewrite F1, F2, F3.
  - destruct (say_frame e type text images partial checkpoint progressStatus
                isNonInteractive contextCondense w)
      as [(_ & _ & _ & _ & _ & _ & _ & F1 & F2 & F3) _]. now rewrite F1, F2, F3.
  - destruct (abortTask_frame e isAbandoned w)
      as (_ & _ & _ & _ & F1 & F2 & F3 & _). rewrite F1, F2, F3.
    repeat split; auto. destruct (pauseInterval (this w)); [|assumption].
    intros H. now apply In_filter_ne in H.
  - destruct (resumePausedTask_frame eSay eApi lastMessage w)
      as (_ & _ & _ & F1 & F2 & F3 & _). now rewrite F1, F2, F3.
  - simpl. repeat split; [|assumption|lia]. intros [H|H]; [lia|auto].
  - destruct (existsb (Nat.eqb h0) (timers w)) eqn:He; [|auto].
    apply existsb_exists in He as (x & Hx & Hxe). apply Nat.eqb_eq in Hxe. subst x.
    destruct (pauseIntervalCallback_runtime h0 w) as (F1 & F2 & F3).
    cbv zeta in F1, F2, F3. rewrite F3. repeat split; [auto| |assumption].
    intros H. apply F2 in H as [->|H]; auto.
Qed.

Lemma runSchedule_stopped sched h w : stopped h w -> stopped h (runSchedule sched w).
Proof.
  revert w. induction sched as [|a sched IH]; intros w H; [exact H|].
  simpl. apply IH. now apply envStep_stopped.
Qed.

Lemma awaitPromise_stopped sched h w :
  stopped h w -> fst (awaitPromise h sched w) = Pending.
Proof.
  revert w. induction sched as [|a sched IH]; intros w H; simpl;
    (destruct (existsb (Nat.eqb h) (resolved w)) eqn:He;
     [apply existsb_exists in He as (x & Hx & Hxe); apply Nat.eqb_eq in Hxe; subst x;
      destruct H as (_ & Hr & _); contradiction|]).
  - reflexivity.
  - apply IH. now apply envStep_stopped.
Qed.

(** A wait that is aborted right after it started stays pending, whatever
    follows. *)
Corollary waitForResume_then_abort_stays_pending e isAbandoned post w :
  ~ In (nextHandle w) (resolved w) ->
  fst (waitForResume (abortRequest e isAbandoned :: post) w) = Pending.
Proof.
  intros Hr. unfold waitForResume, bind. simpl.
  destruct (existsb (Nat.eqb (nextHandle w)) (resolved w)) eqn:He.
  - apply existsb_exists in He as (x & Hx & Hxe). apply Nat.eqb_eq in Hxe. now subst x.
  - apply awaitPromise_stopped.
    match goal with |- stopped _ (snd (abortTask e isAbandoned ?W)) => set (w1 := W) end.
    destruct (abortTask_frame e isAbandoned w1) as (_ & _ & _ & _ & F1 & F2 & F3 & _).
    unfold stopped. rewrite F1, F2, F3. subst w1. cbn [this pauseInterval set_pauseInterval
      timers resolved nextHandle].
    repeat split; [|assumption|lia].
    intros H. apply In_filter_ne in H. now destruct H.
Qed.

(** C10. [abortTask] runs while a [waitForResume] is pending on timer [h]:
    [pauseInterval] holds [h] and the promise is not resolved. Then the
    timer is cleared and [pauseInterval] is undefined, no other timer is
    started, and whatever happens afterwards (ticks, further aborts, new
    waits) the promise of [h] is never resolved: awaiting it stays pending
    under every schedule, also one in which [resumePausedTask] clears
    [isPaused]. *)
Theorem abort_during_pause_stops_the_timer_and_the_wait_never_resolves h e isAbandoned w :
  pauseInterval (this w) = Some h ->
  (h < nextHandle w)%nat ->
  ~ In h (resolved w) ->
  let w' := snd (abortTask e isAbandoned w) in
  pauseInterval (this w') = None
  /\ ~ In h (timers w')
  /\ (forall h', In h' (timers w') -> In h' (timers w))
  /\ In (clearInterval (Some h)) (trace w')
  /\ (forall sched,
        ~ In h (resolved (runSchedule sched w'))
        /\ fst (awaitPromise h sched w') = Pending)
  /\ (forall before eSay eApi result after,
        isPaused (this (runSchedule (before ++ [resumeRequest eSay eApi result]) w'))
        = false
        /\ fst (awaitPromise h (before ++ resumeRequest eSay eApi result :: after) w')
           = Pending).
Proof.
  intros Hp Hn Hr w'.
  destruct (abortTask_frame e isAbandoned w)
    as (_ & _ & _ & F0 & F1 & F2 & F3 & _). fold w' in F0, F1, F2, F3.
  rewrite Hp in F1.
  assert (stopped h w') as Hs.
  { unfold stopped. rewrite F1, F2, F3. repeat split; auto.
    intros H. now apply In_filter_ne in H. }
  split; [assumption|]. split; [apply Hs|]. split.
  { intros h' H. rewrite F1 in H. now apply In_filter_ne in H. }
  split.
  { subst w'. unfold abortTask.
    destruct isAbandoned; run_but_saves; rewrite Hp; simpl;
      destruct (isStreaming (this w) && isEditing e); simpl;
      match goal with
      | |- context [saveClineMessages e ?W] =>
          destruct (quietM_saveClineMessages e W) as (evs & -> & _)
      end; simpl; rewrite !in_app_iff; simpl; tauto. }
  split.
  - intros sched. split; [apply runSchedule_stopped, Hs|now apply awaitPromise_stopped].
  - intros before eSay eApi result after. split.
    + unfold runSchedule. rewrite fold_left_app. simpl.
      apply (resumePausedTask_frame eSay eApi result).
    + now apply awaitPromise_stopped.
Qed.

(** ** Pause/resume: resuming with the child's result *)

Lemma In_existsb_eqb (h : Handle) (l : list Handle) :
  In h l -> existsb (Nat.eqb h) l = true.
Proof. intros H. apply existsb_exists. exists h. split; [assumption|apply Nat.eqb_refl]. Qed.

(** Once [isPaused] is cleared, the next tick of the pause timer resolves
    the wait. *)
Lemma next_tick_resolves h w :
  isPaused (this w) = false -> In h (timers w) ->
  fst (awaitPromise h [timerFires h] w) = Return tt.
Proof.
  intros Hp Ht. simpl.
  destruct (existsb (Nat.eqb h) (resolved w)); [reflexivity|].
  rewrite (In_existsb_eqb h (timers w) Ht).
  unfold pauseIntervalCallback. run. rewrite Hp. simpl.
  now rewrite Nat.eqb_refl.
Qed.

Lemma extends_In ev w w' : extends w w' -> In ev (trace w) -> In ev (trace w').
Proof. intros (evs & -> & _) H. apply in_app_iff. now left. Qed.

Lemma say_atomic e ty tx im cp ni cc w :
  abort (this w) = false ->
  let r := say e ty tx im None cp None ni cc w in
  fst r = Return tt
  /\ clineMessages (this (snd r))
     = clineMessages (this w)
         ++ [ClineMessage.mk (Date_now e) type_say None (Some ty) tx im None None cp cc].
Proof.
  intros Ha. unfold say. run. rewrite Ha. simpl.
  destruct ni; simpl; split_save e; run; split; reflexivity.
Qed.

(** C6. Resuming a paused parent that is not aborted with the child's
    result [R] returns normally, clears [isPaused], emits [taskUnpaused],
    appends the display message [say "subtask_result" R] and appends to the
    model-facing history the user message whose single text block is
    "[new_task completed] Result: R". The parent's loop can then go on: a
    wait pending on the pause timer is resolved by the timer's next tick. *)
Theorem resume_appends_the_child_result eSay eApi R w :
  abort (this w) = false ->
  let r := resumePausedTask eSay eApi R w in
  fst r = Return tt
  /\ isPaused (this (snd r)) = false
  /\ In (emit "taskUnpaused") (trace (snd r))
  /\ clineMessages (this (snd r))
     = clineMessages (this w)
         ++ [ClineMessage.mk (Date_now eSay) type_say None (Some "subtask_result"%string)
               (Some R) None None None None None]
  /\ apiConversationHistory (this (snd r))
     = apiConversationHistory (this w)
         ++ [ApiMessage.mk user
               (ContentBlocks [TextBlock ("[new_task completed] Result: " ++ R)])
               (Some (Date_now eApi))]
  /\ forall h, pauseInterval (this w) = Some h -> In h (timers w) ->
       fst (awaitPromise h [timerFires h] (snd r)) = Return tt.
Proof.
  intros Ha r.
  destruct (resumePausedTask_frame eSay eApi R w) as (_ & F2 & _ & F4 & _).
  fold r in F2, F4.
  assert (fst r = Return tt
          /\ In (emit "taskUnpaused") (trace (snd r))
          /\ clineMessages (this (snd r))
             = clineMessages (this w)
                 ++ [ClineMessage.mk (Date_now eSay) type_say None
                       (Some "subtask_result"%string) (Some R) None None None None None]
          /\ apiConversationHistory (this (snd r))
             = apiConversationHistory (this w)
                 ++ [ApiMessage.mk user
                       (ContentBlocks [TextBlock ("[new_task completed] Result: " ++ R)])
                       (Some (Date_now eApi))]) as (H1 & H2 & H3 & H4).
  { subst r. unfold resumePausedTask. run_but_saves.
    set (w0 := {| this := set_isPaused false (this w); timers := timers w;
                  nextHandle := nextHandle w; resolved := resolved w;
                  trace := trace w ++ [emit "taskUnpaused"] |}).
    assert (In (emit "taskUnpaused") (trace w0)) as Hin
      by (apply in_app_iff; right; now left).
    destruct (say_atomic eSay "subtask_result" (Some R) None None false None w0 Ha)
      as (S1 & S2).
    destruct (say_frame eSay "subtask_result" (Some R) None None None None false None w0)
      as [(_ & _ & _ & _ & S3 & _) _].
    pose proof (quietM_say eSay "subtask_result" (Some R) None None None None false None w0)
      as Q1.
    destruct (say eSay "subtask_result" (Some R) None None None None false None w0)
      as [o w1]. simpl in S1, S2, S3, Q1. subst o.
    match goal with
    | |- context [addToApiConversationHistory eApi user ?C w1] =>
        destruct (addToApiConversationHistory_frame eApi user C w1) as (B1 & B2 & _);
        pose proof (quietM_addToApiConversationHistory eApi user C w1) as Q2;
        destruct (addToApiConversationHistory eApi user C w1) as [o w2]
    end.
    simpl in *. subst o. simpl. rewrite B2. simpl. rewrite S2, S3.
    repeat split. apply (extends_In _ w1 w2 Q2), (extends_In _ w0 w1 Q1), Hin. }
  repeat split; auto.
  intros h _ Ht. apply next_tick_resolves; [assumption|now rewrite F4].
Qed.

(** ** Task loop: the consecutive-mistake guard *)

Lemma grows_refl w : grows w w.
Proof. exists []. now rewrite app_nil_r. Qed.

Lemma grows_trans w1 w2 w3 : grows w1 w2 -> grows w2 w3 -> grows w1 w3.
Proof. intros (e1 & H1) (e2 & H2). exists (e1 ++ e2). now rewrite H2, H1, app_assoc. Qed.

Lemma extends_grows w w' : extends w w' -> grows w w'.
Proof. intros (evs & H & _). now exists evs. Qed.

Lemma grows_In ev w w' : grows w w' -> In ev (trace w) -> In ev (trace w').
Proof. intros (evs & ->) H. apply in_app_iff. now left. Qed.

Lemma pWaitFor_grows condition interval sched w :
  grows w (snd (pWaitFor condition interval sched w)).
Proof.
  revert w. induction sched as [|a sched IH]; intros w; simpl.
  - destruct (condition (this w)); apply grows_refl.
  - destruct (condition (this w)); [apply grows_refl|].
    eapply grows_trans; [|apply IH].
    eapply grows_trans; [|apply extends_grows, extends_runSchedule].
    now exists [pollWait interval].
Qed.

Lemma ask_await_grows sched askTs w : grows w (snd (ask_await sched askTs w)).
Proof.
  unfold ask_await, bind.
  pose proof (pWaitFor_grows
                (fun t => isSome (askResponse t) || tsDiffers (lastMessageTs t) askTs)
                100 sched w) as H.
  destruct (pWaitFor _ 100 sched w) as [[[]| |] w']; simpl in *; auto.
  unfold getThis. simpl. destruct (tsDiffers _ _); run; [assumption|].
  eapply grows_trans; [exact H|]. now exists [emit "taskAskResponded"].
Qed.

Lemma ask_begin_atomic_notifies e type text w :
  abort (this w) = false ->
  In (emit_message created
        (ClineMessage.mk (Date_now e) type_ask (Some type) None text None None
           None None None))
     (trace (snd (ask_begin e type text None None w))).
Proof.
  sealed.
  intros Ha. unfold ask_begin. run. rewrite Ha. simpl.
  split_save e; run; rewrite !in_app_iff; simpl; tauto.
Qed.

Lemma say_outcome e ty tx im p cp ps ni cc w :
  fst (say e ty tx im p cp ps ni cc w)
  = if abort (this w) then Throw (abortedError "say" (this w)) else Return tt.
Proof.
  unfold say. run. destruct (abort (this w)); [reflexivity|].
  destruct p as [[|]|]; simpl;
    try destruct (isUpdatingPreviousPartial _ _ _); destruct ni; simpl;
    split_save e; run; reflexivity.
Qed.

(** C7. An iteration is entered, not aborted, with
    [consecutiveMistakeCount >= consecutiveMistakeLimit]. The guard issues
    the [mistake_limit_reached] ask and blocks on it: while the ask is
    pending the guard is pending, and when the ask raises the guard raises.
    When the ask returns, the guard either returns or raises (it raises only
    because the task was aborted meanwhile, so that the [user_feedback] say
    fails); whenever it returns, whether there was a message or not, the
    counter is exactly 0, and the user content is the one it was given,
    followed, for a [messageResponse], by one [tooManyMistakes] text block
    and the image blocks of the response. *)
Theorem mistake_limit_guard_asks_and_resets eAsk eSay sched modelIdIncludesClaude
    userContent w :
  abort (this w) = false ->
  consecutiveMistakeLimit (this w) <= consecutiveMistakeCount (this w) ->
  let asked := ask eAsk sched "mistake_limit_reached"
                 (Some (mistakeLimitText modelIdIncludesClaude)) None None w in
  let r := recursivelyMakeClineRequests_guard eAsk eSay sched modelIdIncludesClaude
             userContent w in
  In (emit_message created
        (ClineMessage.mk (Date_now eAsk) type_ask (Some "mistake_limit_reached"%string) None
           (Some (mistakeLimitText modelIdIncludesClaude)) None None None None None))
     (trace (snd r))
  /\ (fst asked = Pending -> fst r = Pending)
  /\ (forall err, fst asked = Throw err -> fst r = Throw err)
  /\ (forall answer, fst asked = Return answer ->
        match fst r with
        | Return userContent' =>
            consecutiveMistakeCount (this (snd r)) = 0
            /\ userContent'
               = if is_messageResponse (response answer)
                 then userContent
                        ++ [TextBlock (tooManyMistakes (response_text answer))]
                        ++ imageBlocks (response_images answer)
                 else userContent
        | Throw _ =>
            is_messageResponse (response answer) = true
            /\ abort (this (snd asked)) = true
        | Pending => False
        end)
  /\ (forall userContent', fst r = Return userContent' ->
        consecutiveMistakeCount (this (snd r)) = 0).
Proof.
  intros Ha Hc asked r.
  assert (In (emit_message created
                (ClineMessage.mk (Date_now eAsk) type_ask
                   (Some "mistake_limit_reached"%string) None
                   (Some (mistakeLimitText modelIdIncludesClaude)) None None None None None))
             (trace (snd asked))) as Hin.
  { subst asked. unfold ask, bind.
    pose proof (ask_begin_atomic_notifies eAsk "mistake_limit_reached"
                  (Some (mistakeLimitText modelIdIncludesClaude)) w Ha) as H.
    destruct (ask_begin eAsk _ _ None None w) as [[askTs|err|] w1]; simpl in *; auto.
    eapply grows_In; [apply ask_await_grows|exact H]. }
  assert (r = match asked with
              | (Return answer, w1) =>
                  bind
                    (if is_messageResponse (response answer)
                     then
                       bind (say eSay "user_feedback" (response_text answer)
                               (response_images answer) None None None false None)
                         (fun _ => bind (call captureConsecutiveMistakeError)
                            (fun _ => ret (userContent
                               ++ [TextBlock (tooManyMistakes (response_text answer))]
                               ++ imageBlocks (response_images answer))))
                     else ret userContent)
                    (fun userContent' =>
                       bind (assign (set_consecutiveMistakeCount 0))
                         (fun _ => ret userContent')) w1
              | (Throw err, w1) => (Throw err, w1)
              | (Pending, w1) => (Pending, w1)
              end) as Hr.
  { subst r asked. unfold recursivelyMakeClineRequests_guard.
    unfold bind at 1, getThis at 1. rewrite Ha.
    apply Z.geb_le in Hc. rewrite Hc. unfold bind at 1.
    destruct (ask eAsk sched _ _ None None w) as [[answer|err|] w1]; reflexivity. }
  clearbody r asked. destruct asked as [[answer|err|] w1]; simpl in *.
  - destruct (is_messageResponse (response answer)) eqn:Hm.
    + pose proof (say_outcome eSay "user_feedback" (response_text answer)
                    (response_images answer) None None None false None w1) as Ho.
      pose proof (quietM_say eSay "user_feedback" (response_text answer)
                    (response_images answer) None None None false None w1) as Hq.
      unfold bind in Hr.
      destruct (say eSay "user_feedback" _ _ None None None false None w1)
        as [o w2]. simpl in Ho, Hq. subst o.
      destruct (abort (this w1)) eqn:Ha1; subst r; simpl.
      * split; [eapply extends_In; eauto|].
        split; [discriminate|]. split; [discriminate|].
        split; [|discriminate]. intros answer' [= <-]. auto.
      * run. rewrite in_app_iff.
        split; [left; eapply extends_In; eauto|].
        split; [discriminate|]. split; [discriminate|].
        split; [|reflexivity]. intros answer' [= <-]. rewrite Hm. auto.
    + subst r. run.
      split; [assumption|]. split; [discriminate|]. split; [discriminate|].
      split; [|reflexivity]. intros answer' [= <-]. rewrite Hm. auto.
  - subst r. simpl.
    split; [assumption|]. split; [discriminate|]. split; [intros ? [= <-]; reflexivity|].
    split; discriminate.
  - subst r. simpl.
    split; [assumption|]. split; [reflexivity|]. split; [discriminate|].
    split; discriminate.
Qed.

(** ** Task loop: a failure in the middle of the stream *)

Lemma streamLoop_app idx pre rest locals w locals1 w1 :
  streamLoop idx pre locals w = (Return exhausted, locals1, w1) ->
  streamLoop idx (pre ++ rest) locals w = streamLoop idx rest locals1 w1.
Proof.
  revert locals w. induction pre as [|item pre IH]; intros locals w H; simpl in *.
  - now injection H as <- <-.
  - destruct item as [e [c|]|a|error]; try discriminate; auto.
    destruct c as [tx|i o cw cr tc|tx].
    + destruct (say e "reasoning" _ None (Some true) None None false None _)
        as [[[]|err|] w0]; try discriminate.
      destruct (abort (this w0)).
      * destruct (negb (abandoned (this w0))); [|discriminate].
        destruct (abortStream e idx _ user_cancelled None w0) as [[[]|err|] w2];
          discriminate.
      * destruct (didRejectTool (this w0)); [discriminate|].
        destruct (didAlreadyUseTool (this w0)); [discriminate|]. auto.
    + destruct (abort _).
      * destruct (negb _); [|discriminate].
        destruct (abortStream e idx _ user_cancelled None _) as [[[]|err|] w2];
          discriminate.
      * destruct (didRejectTool _); [discriminate|].
        destruct (didAlreadyUseTool _); [discriminate|]. auto.
    + destruct (abort _).
      * destruct (negb _); [|discriminate].
        destruct (abortStream e idx _ user_cancelled None _) as [[[]|err|] w2];
          discriminate.
      * destruct (didRejectTool _); [discriminate|].
        destruct (didAlreadyUseTool _); [discriminate|]. auto.
Qed.

Lemma append_assoc (a b c : string) : ((a ++ b) ++ c)%string = (a ++ b ++ c)%string.
Proof. induction a as [|x a IH]; simpl; [reflexivity|now rewrite IH]. Qed.

Lemma append_empty_r (a : string) : (a ++ "")%string = a.
Proof. induction a as [|x a IH]; simpl; [reflexivity|now rewrite IH]. Qed.

(** While the loop runs on, [assistantMessage] is the text received. *)
Lemma streamLoop_text idx pre locals w locals1 w1 :
  streamLoop idx pre locals w = (Return exhausted, locals1, w1) ->
  assistantMessage locals1 = (assistantMessage locals ++ textOf pre)%string.
Proof.
  revert locals w. induction pre as [|item pre IH]; intros locals w H; simpl in *.
  - injection H as <- <-. now rewrite append_empty_r.
  - destruct item as [e [c|]|a|error]; try discriminate; eauto.
    destruct c as [tx|i o cw cr tc|tx].
    + destruct (say e "reasoning" _ None (Some true) None None false None _)
        as [[[]|err|] w0]; try discriminate.
      destruct (abort (this w0)).
      * destruct (negb (abandoned (this w0))); [|discriminate].
        destruct (abortStream e idx _ user_cancelled None w0) as [[[]|err|] w2];
          discriminate.
      * destruct (didRejectTool (this w0)); [discriminate|].
        destruct (didAlreadyUseTool (this w0)); [discriminate|].
        apply IH in H. exact H.
    + destruct (abort _).
      * destruct (negb _); [|discriminate].
        destruct (abortStream e idx _ user_cancelled None _) as [[[]|err|] w2];
          discriminate.
      * destruct (didRejectTool _); [discriminate|].
        destruct (didAlreadyUseTool _); [discriminate|].
        apply IH in H. exact H.
    + destruct (abort _).
      * destruct (negb _); [|discriminate].
        destruct (abortStream e idx _ user_cancelled None _) as [[[]|err|] w2];
          discriminate.
      * destruct (didRejectTool _); [discriminate|].
        destruct (didAlreadyUseTool _); [discriminate|].
        apply IH in H. simpl in H. now rewrite append_assoc in H.
Qed.

Lemma quietM_updateApiReqMsg idx locals reason msg :
  quietM (updateApiReqMsg idx locals reason msg).
Proof. unfold updateApiReqMsg. quiet_all. Qed.

#[local] Hint Resolve quietM_updateApiReqMsg : quiet.

Lemma quietM_abortStream e idx locals reason msg :
  quietM (abortStream e idx locals reason msg).
Proof. unfold abortStream. quiet_all. Qed.

Lemma abortTask_emits e b w : In (emit "taskAborted") (trace (snd (abortTask e b w))).
Proof.
  assert (forall w0, In (emit "taskAborted") (trace w0) ->
          forall (c : M unit), quietM c -> In (emit "taskAborted") (trace (snd (c w0))))
    as Hkeep by (intros w0 H c Q; eapply extends_In; [apply Q|exact H]).
  unfold abortTask. unfold bind at 1.
  destruct (when b (assign (set_abandoned true)) w) as [[[]| |] w0] eqn:E0;
    try (destruct b; discriminate).
  unfold bind at 1. unfold assign at 1. simpl.
  unfold bind at 1. unfold call at 1. simpl.
  apply Hkeep; [apply in_app_iff; right; now left|]. quiet_all.
Qed.

(** [abortStream] appends the interrupted assistant message whatever else
    happens in it, and touches neither [abort] nor [abandoned]. *)
Lemma abortStream_appends e idx locals reason msg w :
  let r := abortStream e idx locals reason msg w in
  apiConversationHistory (this (snd r))
  = apiConversationHistory (this w)
      ++ [ApiMessage.mk assistant
            (ContentBlocks
               [TextBlock (assistantMessage locals ++ nl ++ nl ++ "["
                             ++ interruptedMarker reason ++ "]")])
            (Some (Date_now e))]
  /\ abort (this (snd r)) = abort (this w)
  /\ abandoned (this (snd r)) = abandoned (this w)
  /\ fst r <> Pending.
Proof.
  unfold abortStream, updateApiReqMsg. run.
  destruct (isEditing e) eqn:He; simpl;
    destruct (at_last (clineMessages (this w))) as [m|]; simpl;
    try destruct (truthy (ClineMessage.partial m)); simpl;
    destruct (apiSaveFault e); simpl;
    destruct (idx <? 0); simpl;
    try match goal with
        | |- context [nth_error ?l ?n] => destruct (nth_error l n)
        end; simpl;
    try (destruct (saveFault e) as [[[| |] err]|]; simpl; destruct (provider e); simpl);
    repeat split; discriminate.
Qed.

(** The handler of the stream loop on a task that is not abandoned. *)
Lemma streamCatch_cancels eAbort eStream historyFound idx locals error w :
  abandoned (this w) = false ->
  let r := streamCatch eAbort eStream historyFound idx locals error w in
  abort (this (snd r)) = true
  /\ abandoned (this (snd r)) = false
  /\ In (emit "taskAborted") (trace (snd r))
  /\ apiConversationHistory (this (snd r))
     = apiConversationHistory (this w)
         ++ [ApiMessage.mk assistant
               (ContentBlocks
                  [TextBlock (assistantMessage locals ++ nl ++ nl
                                ++ "[Response interrupted by API Error]")])
               (Some (Date_now eStream))]
  /\ extends w (snd r)
  /\ fst r <> Pending.
Proof.
  intros Hab. cbv zeta. unfold streamCatch, bind, getThis. simpl. rewrite Hab. simpl.
  destruct (abortTask_frame eAbort false w)
    as (_ & A1 & A2 & _ & _ & _ & _ & _ & A3 & _).
  pose proof (abortTask_emits eAbort false w) as A4.
  pose proof (quietM_abortTask eAbort false w) as A5.
  set (w1 := snd (abortTask eAbort false w)) in *.
  simpl in A2. rewrite Hab in A2.
  destruct (abortStream_appends eStream idx locals streaming_failed
              (Some (errorMessage error)) w1) as (B1 & B2 & B3 & B4).
  pose proof (quietM_abortStream eStream idx locals streaming_failed
                (Some (errorMessage error)) w1) as B5.
  destruct (abortStream eStream idx locals streaming_failed (Some (errorMessage error)) w1)
    as [[[]|err|] w2]; simpl in *; try contradiction.
  - destruct (provider eStream && historyFound); run;
      rewrite B1, B2, B3, A1, A2, A3; repeat split; try discriminate.
    + apply in_app_iff. left. eapply extends_In; eauto.
    + eapply extends_trans; [exact A5|]. eapply extends_trans; [exact B5|].
      now apply extends_record.
    + eapply extends_In; eauto.
    + eapply extends_trans; eauto.
  - rewrite B1, B2, B3, A1, A2, A3. repeat split; try discriminate.
    + eapply extends_In; eauto.
    + eapply extends_trans; eauto.
Qed.

(** The handler of the stream loop on an abandoned task does nothing. *)
Lemma streamCatch_abandoned eAbort eStream historyFound idx locals error w :
  abandoned (this w) = true ->
  streamCatch eAbort eStream historyFound idx locals error w = (Return tt, w).
Proof.
  intros Hab. unfold streamCatch, bind, getThis. simpl. now rewrite Hab.
Qed.

(** C2, as amended. The stream has been read without interruption up to
    some point ([pre], after which the text received is [textOf pre]) and
    then throws. In every case the iteration ends the loop ([true]) without
    running the rest of the iteration, so no further request is made. On a
    task that is not abandoned, [abortTask] has run ([abort] is set and
    [taskAborted] emitted), the model-facing history has gained the
    assistant message made of the text received so far followed by
    "[Response interrupted by API Error]", and from the failure on nothing is
    sent to the backend and nothing is waited for. On an abandoned task the
    handler does nothing: the history and the trace are as they were when
    the stream threw. *)
Theorem mid_stream_failure_cancels_and_keeps_the_partial_output
    eAbort eStream historyFound idx pre error post w locals1 w1 :
  streamLoop idx pre initialLocals (with_this (set_isStreaming true) w)
  = (Return exhausted, locals1, w1) ->
  let r := recursivelyMakeClineRequests_request eAbort eStream historyFound idx
             (pre ++ streamThrows error :: post) w in
  fst r = Return true
  /\ assistantMessage locals1 = textOf pre
  /\ (abandoned (this w1) = false ->
      abort (this (snd r)) = true
      /\ In (emit "taskAborted") (trace (snd r))
      /\ apiConversationHistory (this (snd r))
         = apiConversationHistory (this w1)
             ++ [ApiMessage.mk assistant
                   (ContentBlocks
                      [TextBlock (textOf pre ++ nl ++ nl
                                    ++ "[Response interrupted by API Error]")])
                   (Some (Date_now eStream))]
      /\ extends w1 (snd r))
  /\ (abandoned (this w1) = true ->
      apiConversationHistory (this (snd r)) = apiConversationHistory (this w1)
      /\ trace (snd r) = trace w1).
Proof.
  intros Hloop r.
  pose proof (streamLoop_text idx pre _ _ _ _ Hloop) as Htext. simpl in Htext.
  assert (forall o w2,
             streamCatch eAbort eStream historyFound idx locals1 error w1 = (o, w2) ->
             o <> Pending -> abort (this w2) = true \/ abandoned (this w2) = true ->
             fst r = Return true /\ this (snd r) = set_isStreaming false (this w2)
             /\ trace (snd r) = trace w2) as Hr.
  { intros o w2 Hc Ho Hflag. subst r.
    unfold recursivelyMakeClineRequests_request, consumeStream, tryCatch.
    rewrite (streamLoop_app idx pre (streamThrows error :: post) _ _ _ _ Hloop).
    simpl. rewrite Hc. destruct o as [[]|err|]; simpl; [|auto|contradiction].
    unfold bind, getThis. simpl.
    destruct Hflag as [-> | ->]; simpl; rewrite ?orb_true_r; auto. }
  destruct (abandoned (this w1)) eqn:Hab.
  - rewrite (streamCatch_abandoned eAbort eStream historyFound idx locals1 error w1 Hab)
      in Hr.
    destruct (Hr (Return tt) w1 eq_refl) as (R1 & R2 & R3); [discriminate|now right|].
    split; [exact R1|]. split; [exact Htext|]. split; [discriminate|].
    intros _. now rewrite R2, R3.
  - destruct (streamCatch_cancels eAbort eStream historyFound idx locals1 error w1 Hab)
      as (C1 & C2 & C3 & C4 & C5 & C6).
    rewrite Htext in C4.
    destruct (streamCatch eAbort eStream historyFound idx locals1 error w1) as [o w2].
    simpl in *.
    destruct (Hr o w2 eq_refl C6) as (R1 & R2 & R3); [now left|].
    split; [exact R1|]. split; [exact Htext|]. split; [|discriminate].
    intros _. rewrite R2, R3. simpl.
    repeat split; auto.
    destruct C5 as (evs & E & Q). exists evs. now rewrite R3.
Qed.
(** ** The text of a retry delay *)


Ltac read_digit :=
  cbn [NilEmpty.string_of_uint append matchSeconds];
  match goal with
  | |- context [isDigit ?c] =>
      let v := eval vm_compute in (digitValue c) in
      change (isDigit c) with true; change (digitValue c) with v; cbv iota
  end.

Lemma matchSeconds_acc d acc :
  matchSeconds (NilEmpty.string_of_uint d ++ "s") (Z.pos acc) true
  = Some (Z.pos (Pos.of_uint_acc d acc)).
Proof.
  revert acc. induction d; intros acc; [reflexivity|..]; read_digit;
    cbn [Pos.of_uint_acc];
    match goal with
    | |- matchSeconds _ ?z true = Some (Z.pos (Pos.of_uint_acc _ ?p)) =>
        replace z with (Z.pos p) by lia; apply IHd
    end.
Qed.

Lemma matchSeconds_zero d :
  matchSeconds (NilEmpty.string_of_uint d ++ "s") 0 true = Some (Z.of_N (Pos.of_uint d)).
Proof.
  induction d; [reflexivity|..]; read_digit; cbn [Pos.of_uint Z.of_N];
    [exact IHd|..]; apply matchSeconds_acc.
Qed.

Lemma matchSeconds_first d :
  d <> Decimal.Nil ->
  matchSeconds (NilEmpty.string_of_uint d ++ "s") 0 false = Some (Z.of_N (Pos.of_uint d)).
Proof.
  destruct d; [congruence|..]; intros _; read_digit; cbn [Pos.of_uint Z.of_N];
    [apply matchSeconds_zero|..]; apply matchSeconds_acc.
Qed.

Lemma matchSeconds_digits s acc seen n :
  matchSeconds s acc seen = Some n ->
  exists digits,
    s = (digits ++ "s")%string
    /\ (seen = false -> digits <> ""%string)
    /\ (forall c, In c (list_ascii_of_string digits) -> isDigit c = true).
Proof.
  revert acc seen. induction s as [|c rest IH]; intros acc seen; [discriminate|].
  cbn [matchSeconds]. destruct (isDigit c) eqn:Hd.
  - intros H. destruct (IH _ _ H) as (digits & -> & _ & Hall).
    exists (String c digits). repeat split; [discriminate|].
    intros c' [<-|Hc]; auto.
  - destruct (Ascii.eqb_spec c "s") as [->|_]; [|discriminate].
    destruct seen; [|discriminate]. cbn [andb].
    destruct rest; [|discriminate]. intros _.
    exists ""%string. repeat split; [discriminate|intros c []].
Qed.

Lemma matchSeconds_string_of_Z n :
  0 <= n -> matchSeconds (string_of_Z n ++ "s") 0 false = Some n.
Proof.
  intros Hn. unfold string_of_Z. destruct n as [|p|p]; [reflexivity| |lia].
  cbn [Z.to_int NilZero.string_of_int]. unfold NilZero.string_of_uint.
  pose proof (DecimalPos.Unsigned.of_to p) as Hp.
  destruct (Pos.to_uint p) eqn:E; [discriminate Hp|..];
    rewrite <- E in *; (rewrite matchSeconds_first; [now rewrite Hp|rewrite E; discriminate]).
Qed.

Lemma matchSeconds_nonneg s acc seen n :
  0 <= acc -> matchSeconds s acc seen = Some n -> 0 <= n.
Proof.
  revert acc seen. induction s as [|c rest IH]; intros acc seen Ha; [discriminate|].
  cbn [matchSeconds]. destruct (isDigit c) eqn:Hd.
  - apply IH. unfold isDigit in Hd. apply andb_true_iff in Hd as [H1 _].
    apply Nat.leb_le in H1. unfold digitValue. lia.
  - destruct (Ascii.eqb c "s" && seen); [|discriminate].
    destruct rest; [|discriminate]. now intros [= <-].
Qed.


(** ** Streaming request controller: the wait before a retry *)

Example matchSeconds_examples :
  matchSeconds "30s" 0 false = Some 30
  /\ matchSeconds "007s" 0 false = Some 7
  /\ matchSeconds "s" 0 false = None
  /\ matchSeconds "30" 0 false = None
  /\ matchSeconds "1.5s" 0 false = None
  /\ matchSeconds "30s " 0 false = None.
Proof. repeat split. Qed.

Example string_of_Z_examples :
  string_of_Z 20 = "20"%string /\ string_of_Z 3 = "3"%string.
Proof. split; reflexivity. Qed.

Lemma delayed_app tr1 tr2 : delayed (tr1 ++ tr2) = delayed tr1 + delayed tr2.
Proof.
  induction tr1 as [|ev tr1 IH]; [reflexivity|].
  destruct ev; simpl; rewrite IH; lia.
Qed.

Lemma delayed_quiet evs : Forall quiet evs -> delayed evs = 0.
Proof.
  induction 1 as [|ev evs Q _ IH]; [reflexivity|].
  destruct ev; simpl in *; auto; contradiction.
Qed.

Lemma delayed_extends w w' : extends w w' -> delayed (trace w') = delayed (trace w).
Proof.
  intros (evs & -> & Q). rewrite delayed_app, (delayed_quiet evs Q). lia.
Qed.

Lemma countdown_S (body : Z -> M unit) n w :
  countdown body (S n) w = bind (body (Z.of_nat (S n))) (fun _ => countdown body n) w.
Proof. reflexivity. Qed.

(** A countdown of [n] partial says, one second apart, on a task that is
    not aborted. *)
Lemma countdown_waits (envOf : Z -> Env) (textOf : Z -> option string) n w :
  abort (this w) = false ->
  exists w',
    countdown
      (fun i =>
         say (envOf i) "api_req_retry_delayed" (textOf i) None (Some true)
           None None false None ;;
         call (delay 1000)) n w
    = (Return tt, w')
    /\ abort (this w') = false
    /\ delayed (trace w') = delayed (trace w) + 1000 * Z.of_nat n.
Proof.
  revert w. induction n as [|n IH]; intros w Ha.
  - exists w. simpl. repeat split; [assumption|lia].
  - rewrite countdown_S.
    pose proof (say_outcome (envOf (Z.of_nat (S n))) "api_req_retry_delayed"
                  (textOf (Z.of_nat (S n))) None (Some true) None None false None w) as Ho.
    destruct (say_frame (envOf (Z.of_nat (S n))) "api_req_retry_delayed"
                (textOf (Z.of_nat (S n))) None (Some true) None None false None w)
      as [(F1 & _) _].
    pose proof (quietM_say (envOf (Z.of_nat (S n))) "api_req_retry_delayed"
                  (textOf (Z.of_nat (S n))) None (Some true) None None false None w) as Hq.
    rewrite Ha in Ho. unfold bind.
    destruct (say _ "api_req_retry_delayed" _ None (Some true) None None false None w)
      as [o w1]. simpl in Ho, F1, Hq. subst o. unfold call.
    destruct (IH (record (delay 1000) w1)) as (w' & I1 & I2 & I3); [simpl; congruence|].
    exists w'. repeat split; [exact I1|exact I2|].
    rewrite I3. unfold record. cbn [trace].
    rewrite delayed_app, (delayed_extends _ _ Hq). cbn [delayed].
    rewrite Nat2Z.inj_succ. lia.
Qed.

Lemma beforeFirstChunk_result a retryAttempt w0 rateLimitDelay w :
  beforeFirstChunk a retryAttempt w0 = (Return rateLimitDelay, w) ->
  rateLimitDelay
  = computeRateLimitDelay (lastApiRequestTime (this w0)) (now a) (rateLimitSeconds (state a)).
Proof.
  unfold beforeFirstChunk, bind, getThis. cbv beta iota zeta.
  destruct (when _ _ w0) as [[[]|err|] w1]; try discriminate.
  unfold assign at 1. cbv beta iota.
  destruct (prepareRequest _) as [[[]|err|] w2]; try discriminate.
  unfold call, assign, ret. now intros [= <- _].
Qed.

(** The handler of a first-chunk failure with auto-retry enabled, on a task
    that is not aborted: it waits [finalDelay] seconds and then runs
    [retry (retryAttempt + 1)]. *)
Lemma firstChunkCatch_waits a retryAttempt rateLimitDelay thrown retry w :
  autoApprovalEnabled (state a) = true ->
  alwaysApproveResubmit (state a) = true ->
  abort (this w) = false ->
  exists w',
    firstChunkCatch a retryAttempt rateLimitDelay thrown retry w = retry (S retryAttempt) w'
    /\ abort (this w') = false
    /\ delayed (trace w')
       = delayed (trace w)
         + 1000 * Z.max 0 (computeFinalDelay (requestDelaySeconds (state a)) retryAttempt
                             (snd (getTaskRequestError thrown)) rateLimitDelay).
Proof.
  intros H1 H2 Ha. unfold firstChunkCatch. unfold bind at 1, assign at 1. cbv beta iota.
  destruct (getTaskRequestError thrown) as [errorMsg error]. rewrite H1, H2.
  cbv beta iota zeta. cbn [andb snd].
  set (finalDelay := computeFinalDelay (requestDelaySeconds (state a)) retryAttempt error
                       rateLimitDelay).
  set (w0 := with_this (set_isWaitingForFirstChunk false) w).
  destruct (countdown_waits (retryEnv a)
              (fun i => Some (errorMsg ++ nl ++ nl ++ "Retry attempt "
                                ++ string_of_Z (Z.of_nat retryAttempt + 1) ++ nl
                                ++ "Retrying in " ++ string_of_Z i ++ " seconds...")%string)
              (Z.to_nat finalDelay) w0 Ha) as (w1 & C1 & C2 & C3).
  unfold bind at 1. rewrite C1. cbv beta iota.
  set (finalText := Some (errorMsg ++ nl ++ nl ++ "Retry attempt "
                            ++ string_of_Z (Z.of_nat retryAttempt + 1) ++ nl
                            ++ "Retrying now...")%string).
  pose proof (say_outcome (retryNowEnv a) "api_req_retry_delayed" finalText None
                (Some false) None None false None w1) as Ho.
  destruct (say_frame (retryNowEnv a) "api_req_retry_delayed" finalText None
              (Some false) None None false None w1) as [(F1 & _) _].
  pose proof (quietM_say (retryNowEnv a) "api_req_retry_delayed" finalText None
                (Some false) None None false None w1) as Hq.
  rewrite C2 in Ho. unfold bind.
  destruct (say (retryNowEnv a) "api_req_retry_delayed" finalText None (Some false)
              None None false None w1) as [o w2].
  simpl in Ho, F1, Hq. subst o. unfold call.
  exists (record (setChatType "system") w2). split; [reflexivity|].
  split; [simpl; congruence|].
  unfold record. cbn [trace]. rewrite delayed_app, (delayed_extends _ _ Hq), C3.
  subst w0. cbn [delayed with_this trace]. lia.
Qed.

Lemma toDouble_exact n : 0 <= n <= 2 ^ 53 -> toDouble n = n.
Proof.
  intros Hn. destruct (Z.eq_dec n (2 ^ 53)) as [->|Hne]; [reflexivity|].
  unfold toDouble. destruct (Z.eq_dec n 0) as [->|Hz]; [reflexivity|].
  assert (Z.log2 n < 53) by (apply Z.log2_lt_pow2; lia).
  destruct (Z.leb_spec (Z.log2 n - 52) 0); [reflexivity|lia].
Qed.

(** The value that a hint of [seconds] puts in the place of the exponential
    delay. *)
Lemma computeFinalDelay_hint requestDelaySeconds retryAttempt error rateLimitDelay seconds :
  retryHint error = Some seconds ->
  0 <= seconds < 2 ^ 53 ->
  computeFinalDelay requestDelaySeconds retryAttempt error rateLimitDelay
  = Z.max (seconds + 1) rateLimitDelay.
Proof.
  intros Hh Hs. unfold computeFinalDelay. rewrite Hh.
  now rewrite (toDouble_exact seconds), (toDouble_exact (seconds + 1)) by lia.
Qed.

Lemma computeFinalDelay_no_hint requestDelaySeconds retryAttempt error rateLimitDelay :
  retryHint error = None ->
  computeFinalDelay requestDelaySeconds retryAttempt error rateLimitDelay
  = Z.max (Qceiling (orDefault requestDelaySeconds 5 * inject_Z (2 ^ Z.of_nat retryAttempt)))
      rateLimitDelay.
Proof. intros Hh. unfold computeFinalDelay. now rewrite Hh. Qed.

(** C3. An activation of [attemptApiRequest] has reached the first chunk
    with rate-limit delay [rateLimitDelay], the first chunk fails,
    auto-retry is enabled and the task is not aborted. Then the activation
    waits, one second per countdown step, and continues as
    [attemptApiRequest(retryAttempt + 1)]. Without a retry hint (the status
    of the error is not 429, or its details hold no RetryInfo entry, or the
    first such entry has no [retryDelay] of the form digits-then-s), the wait
    is [max(rateLimitDelay, ceil(baseDelay * 2^retryAttempt))] seconds,
    where [baseDelay] is [requestDelaySeconds] and 5 by default; for
    [baseDelay = 5] and retry attempt 2 that is [max(rateLimitDelay, 20)].
    With status 429 and a first RetryInfo entry whose [retryDelay] writes
    [N] seconds, [N] below 2^53, the hint replaces the exponential value
    whatever [baseDelay] and the attempt are: the wait is
    [max(rateLimitDelay, N + 1)] seconds. *)
Theorem first_chunk_failure_waits_then_retries
    a later retryAttempt thrown w0 rateLimitDelay w :
  beforeFirstChunk a retryAttempt w0 = (Return rateLimitDelay, w) ->
  firstChunk a = firstChunkFails thrown ->
  autoApprovalEnabled (state a) = true ->
  alwaysApproveResubmit (state a) = true ->
  abort (this w) = false ->
  let error := snd (getTaskRequestError thrown) in
  let baseDelay := orDefault (requestDelaySeconds (state a)) 5 in
  let backoff := Qceiling (baseDelay * inject_Z (2 ^ Z.of_nat retryAttempt)) in
  let geminiRetryDetails :=
    match errorDetails error with
    | Some details =>
        List.find (fun detail => String.eqb (at_type detail) RetryInfo) details
    | None => None
    end in
  let waitsThenRetries seconds :=
    exists w',
      attemptApiRequest (a :: later) retryAttempt w0
      = attemptApiRequest later (S retryAttempt) w'
      /\ delayed (trace w')
         = delayed (trace w) + 1000 * Z.max 0 (Z.max rateLimitDelay seconds) in
  rateLimitDelay
  = computeRateLimitDelay (lastApiRequestTime (this w0)) (now a) (rateLimitSeconds (state a))
  /\ (requestDelaySeconds (state a) = None -> baseDelay = 5%Q)
  /\ (status error <> Some 429
      \/ geminiRetryDetails = None
      \/ (exists detail,
            geminiRetryDetails = Some detail
            /\ match retryDelay detail with
               | Some s => matchSeconds s 0 false = None
               | None => True
               end) ->
      waitsThenRetries backoff)
  /\ (status error <> Some 429 -> (baseDelay == 5)%Q -> retryAttempt = 2%nat ->
      waitsThenRetries 20)
  /\ (forall detail s N,
        status error = Some 429 ->
        geminiRetryDetails = Some detail ->
        retryDelay detail = Some s ->
        matchSeconds s 0 false = Some N ->
        N < 2 ^ 53 ->
        waitsThenRetries (N + 1))
  /\ (forall detail N,
        status error = Some 429 ->
        geminiRetryDetails = Some detail ->
        retryDelay detail = Some (string_of_Z N ++ "s")%string ->
        0 <= N < 2 ^ 53 ->
        waitsThenRetries (N + 1)).
Proof.
  intros Hb Hf H1 H2 Ha error baseDelay backoff geminiRetryDetails waitsThenRetries.
  destruct (firstChunkCatch_waits a retryAttempt rateLimitDelay thrown
              (attemptApiRequest later) w H1 H2 Ha) as (w' & E & _ & D).
  fold error in D.
  assert (forall seconds,
            computeFinalDelay (requestDelaySeconds (state a)) retryAttempt error
              rateLimitDelay
            = Z.max seconds rateLimitDelay ->
            waitsThenRetries seconds) as Hw.
  { intros seconds Hc. exists w'. split.
    - cbn [attemptApiRequest]. unfold bind at 1. rewrite Hb, Hf. exact E.
    - rewrite D, Hc. now rewrite (Z.max_comm seconds). }
  assert (status error <> Some 429
          \/ geminiRetryDetails = None
          \/ (exists detail,
                geminiRetryDetails = Some detail
                /\ match retryDelay detail with
                   | Some s => matchSeconds s 0 false = None
                   | None => True
                   end) ->
          retryHint error = None) as Hnone.
  { unfold retryHint. subst geminiRetryDetails.
    intros [Hs|[Hg|(detail & Hg & Hd)]].
    - destruct (status error) as [st|]; [|reflexivity].
      destruct (Z.eqb_spec st 429); [congruence|reflexivity].
    - destruct (status error) as [st|]; [|reflexivity]. destruct (st =? 429); [|reflexivity].
      destruct (errorDetails error); [now rewrite Hg|reflexivity].
    - destruct (status error) as [st|]; [|reflexivity]. destruct (st =? 429); [|reflexivity].
      destruct (errorDetails error); [|discriminate]. rewrite Hg.
      destruct (retryDelay detail); [exact Hd|reflexivity]. }
  assert (forall detail s N,
            status error = Some 429 ->
            geminiRetryDetails = Some detail ->
            retryDelay detail = Some s ->
            matchSeconds s 0 false = Some N ->
            retryHint error = Some N) as Hsome.
  { unfold retryHint. subst geminiRetryDetails. intros detail s N Hs Hg Hd Hm.
    rewrite Hs. cbn [Z.eqb Pos.eqb]. destruct (errorDetails error); [|discriminate].
    now rewrite Hg, Hd. }
  split; [now apply beforeFirstChunk_result with (retryAttempt := retryAttempt) (w := w)|].
  split; [intros E0; subst baseDelay; now rewrite E0|].
  split; [|split; [|split]].
  - intros Hcase. apply Hw. now apply computeFinalDelay_no_hint, Hnone.
  - intros Hs Hq ->. apply Hw.
    rewrite computeFinalDelay_no_hint by (apply Hnone; now left).
    fold baseDelay. f_equal. rewrite Hq. reflexivity.
  - intros detail s N Hs Hg Hd Hm HN. apply Hw.
    apply computeFinalDelay_hint; [now apply (Hsome detail s)|].
    split; [|exact HN]. now apply (matchSeconds_nonneg s 0 false).
  - intros detail N Hs Hg Hd HN. apply Hw.
    apply computeFinalDelay_hint; [|exact HN].
    apply (Hsome detail (string_of_Z N ++ "s")%string); auto.
    apply matchSeconds_string_of_Z. lia.
Qed.

(** ** Changed lines of a diff *)

Lemma occurrences_nonneg c s : 0 <= occurrences c s.
Proof.
  induction s as [|a rest IH]; cbn [occurrences]; [lia|].
  destruct (Ascii.eqb a c); lia.
Qed.

Lemma String_split_length separator s :
  Z.of_nat (length (String_split separator s)) = occurrences separator s + 1.
Proof.
  induction s as [|c rest IH]; [reflexivity|].
  cbn [String_split occurrences]. destruct (Ascii.eqb c separator).
  - cbn [length]. lia.
  - pose proof (occurrences_nonneg separator rest).
    destruct (String_split separator rest) as [|first others]; cbn [length] in *; lia.
Qed.

Lemma String_endsWith_occurs c s : String_endsWith c s = true -> 1 <= occurrences c s.
Proof.
  induction s as [|a rest IH]; [discriminate|].
  cbn [String_endsWith occurrences]. destruct rest as [|b rest'].
  - intros ->. cbn [occurrences]. lia.
  - intros H. specialize (IH H). destruct (Ascii.eqb a c); lia.
Qed.

Lemma actualLineCount_spec v :
  actualLineCount v
  = occurrences newline v + (if String_endsWith newline v then 0 else 1).
Proof.
  unfold actualLineCount. rewrite String_split_length.
  destruct (String_endsWith newline v); lia.
Qed.

Lemma fold_left_changed diff acc :
  fold_left
    (fun changedLineCount part =>
       if truthy (added part) || truthy (removed part) then
         match count part with
         | Some n => changedLineCount + n
         | None => changedLineCount + actualLineCount (value part)
         end
       else changedLineCount)
    diff acc
  = acc + sumZ (List.map changedLines diff).
Proof.
  revert acc. induction diff as [|part diff IH]; intros acc; cbn [fold_left List.map sumZ fold_right].
  - lia.
  - rewrite IH. unfold sumZ, changedLines. rewrite actualLineCount_spec.
    destruct (truthy (added part) || truthy (removed part)); [destruct (count part)|].
    all: lia.
Qed.

(** X1. The changed-line count of two texts is the sum, over the added and the
    removed parts of their diff, of the part's [count], and for a part
    without one of the number of its lines: its newline characters, plus
    one when its text does not end in a newline. Parts that are neither
    added nor removed add nothing, and a changed part without a [count]
    adds at least one line, also when its text is empty. *)
Theorem getDiffLines_sums_the_changed_parts diffLines originalContent newContent :
  getDiffLines diffLines originalContent newContent
  = sumZ (List.map changedLines (diffLines originalContent newContent))
  /\ (forall part,
        truthy (added part) || truthy (removed part) = false -> changedLines part = 0)
  /\ (forall part,
        truthy (added part) || truthy (removed part) = true -> count part = None ->
        1 <= changedLines part).
Proof.
  split; [|split].
  - unfold getDiffLines. cbv zeta. now rewrite fold_left_changed.
  - intros part H. unfold changedLines. now rewrite H.
  - intros part H Hc. unfold changedLines. rewrite H, Hc.
    pose proof (occurrences_nonneg newline (value part)).
    destruct (String_endsWith newline (value part)) eqn:E; [|lia].
    apply String_endsWith_occurs in E. lia.
Qed.

(** ** Resuming a task from its saved logs *)

Lemma findLastIndex_spec {A} (predicate : A -> bool) (array : list A) :
  (findLastIndex predicate array = -1
   /\ forallb (fun x => negb (predicate x)) array = true)
  \/ (exists before x after,
        array = before ++ x :: after
        /\ predicate x = true
        /\ forallb (fun y => negb (predicate y)) after = true
        /\ findLastIndex predicate array = Z.of_nat (length before)).
Proof.
  induction array as [|a rest IH]; [left; split; reflexivity|].
  cbn [findLastIndex forallb].
  destruct IH as [[-> Hall]|(before & x & after & -> & Hx & Hafter & ->)].
  - rewrite Z.eqb_refl. destruct (predicate a) eqn:Ha.
    + right. exists [], a, rest. repeat split; auto.
    + left. split; [reflexivity|]. now rewrite Hall.
  - right. exists (a :: before), x, after.
    destruct (Z.eqb_spec (Z.of_nat (length before)) (-1)) as [E|_]; [lia|].
    repeat split; auto. cbn [length]. lia.
Qed.

Lemma findIndex_spec {A} (predicate : A -> bool) (array : list A) :
  (findIndex predicate array = -1
   /\ forallb (fun x => negb (predicate x)) array = true)
  \/ (exists before x after,
        array = before ++ x :: after
        /\ predicate x = true
        /\ forallb (fun y => negb (predicate y)) before = true
        /\ findIndex predicate array = Z.of_nat (length before)).
Proof.
  induction array as [|a rest IH]; [left; split; reflexivity|].
  cbn [findIndex forallb]. destruct (predicate a) eqn:Ha.
  - right. exists [], a, rest. repeat split; auto.
  - destruct IH as [[-> Hall]|(before & x & after & -> & Hx & Hbefore & ->)].
    + left. split; [reflexivity|]. exact Hall.
    + right. exists (a :: before), x, after.
      destruct (Z.eqb_spec (Z.of_nat (length before)) (-1)) as [E|_]; [lia|].
      repeat split; auto.
      * cbn [forallb app]. now rewrite Ha, Hbefore.
      * cbn [length]. lia.
Qed.

Lemma forallb_negb_negb {A} (p : A -> bool) l :
  forallb (fun y => negb (negb (p y))) l = forallb p l.
Proof.
  induction l as [|a l IH]; [reflexivity|].
  cbn [forallb]. now rewrite IH, negb_involutive.
Qed.

Lemma last_match_unique {A} (p : A -> bool) before x after before' x' after' :
  before ++ x :: after = before' ++ x' :: after' ->
  p x = true -> p x' = true ->
  forallb (fun y => negb (p y)) after = true ->
  forallb (fun y => negb (p y)) after' = true ->
  before = before' /\ x = x' /\ after = after'.
Proof.
  intros E Hx Hx' Hafter Hafter'. revert before' E.
  induction before as [|b before IH]; intros [|b' before'] E; cbn [app] in E.
  - injection E as E1 E2. auto.
  - injection E as E1 E2. subst. exfalso.
    rewrite forallb_app in Hafter. apply andb_true_iff in Hafter as [_ Hafter].
    cbn [forallb] in Hafter. rewrite Hx' in Hafter. discriminate.
  - injection E as E1 E2. subst. exfalso.
    rewrite forallb_app in Hafter'. apply andb_true_iff in Hafter' as [_ Hafter'].
    cbn [forallb] in Hafter'. rewrite Hx in Hafter'. discriminate.
  - injection E as E1 E2. subst. destruct (IH before' E2) as (-> & -> & ->). auto.
Qed.

Lemma firstn_length_app {A} (before after : list A) n :
  n = length before -> firstn n (before ++ after) = before.
Proof.
  intros ->. rewrite firstn_app, Nat.sub_diag, firstn_all. cbn [firstn]. apply app_nil_r.
Qed.

(** X2. The display log that a resumption starts from is the saved log
    without its trailing resume asks: what is cut off consists of resume
    asks only, and what is kept ends with a message that is not one. A
    saved log that holds nothing but resume asks is kept whole. *)
Theorem resume_asks_are_cut_off_the_end_of_the_saved_log saved :
  exists dropped,
    saved = withoutTrailingResumeAsks saved ++ dropped
    /\ forallb isResumeAsk dropped = true
    /\ match at_last (withoutTrailingResumeAsks saved) with
       | Some m => isResumeAsk m = false
                   \/ (forallb isResumeAsk saved = true /\ dropped = [])
       | None => saved = []
       end
    /\ lastClineMessage (withoutTrailingResumeAsks saved) = lastClineMessage saved.
Proof.
  unfold withoutTrailingResumeAsks. cbv zeta.
  destruct (findLastIndex_spec (fun m => negb (isResumeAsk m)) saved)
    as [[E Hall]|(before & x & after & -> & Hx & Hafter & E)]; rewrite E.
  - rewrite Z.eqb_refl. cbn [negb]. exists []. rewrite app_nil_r.
    assert (forallb isResumeAsk saved = true) as Hres.
    { now rewrite <- Hall, forallb_negb_negb. }
    repeat split; auto.
    destruct (at_last saved) eqn:El; [now right|].
    destruct saved as [|m rest]; [reflexivity|].
    exfalso. revert El. clear. revert m. induction rest as [|m' rest IH]; intros m; [discriminate|].
    cbn [at_last]. apply IH.
  - destruct (Z.eqb_spec (Z.of_nat (length before)) (-1)) as [F|_]; [lia|]. cbn [negb].
    replace (Z.to_nat (Z.of_nat (length before) + 1)) with (length (before ++ [x]))
      by (rewrite length_app; cbn [length]; lia).
    replace (before ++ x :: after) with ((before ++ [x]) ++ after)
      by now rewrite <- app_assoc.
    rewrite firstn_length_app by reflexivity.
    exists after. split; [reflexivity|]. split.
    { now rewrite <- Hafter, forallb_negb_negb. }
    split.
    { rewrite at_last_app. left. now apply negb_true_iff. }
    unfold lastClineMessage. rewrite !rev_app_distr. cbn [rev app List.find].
    rewrite Hx.
    assert (forall l rest, forallb (fun y => negb (negb (isResumeAsk y))) l = true ->
              List.find (fun m => negb (isResumeAsk m)) (rev l ++ rest)
              = List.find (fun m => negb (isResumeAsk m)) rest) as Hskip.
    { clear. induction l as [|a l IH]; intros rest H; [reflexivity|].
      cbn [forallb] in H. apply andb_true_iff in H as [Ha Hl].
      cbn [rev]. rewrite <- app_assoc, IH by assumption.
      cbn [app List.find]. rewrite negb_involutive in Ha. now rewrite Ha. }
    rewrite Hskip by assumption. cbn [app List.find]. now rewrite Hx.
Qed.

(** X3. The last request-start message of the log is removed exactly when its
    text records neither a cost nor a cancellation; a missing or empty
    text is read as the empty JSON object. Nothing else is removed, the
    order of the other messages is kept, and a log without a
    request-start message is left as it is. A text that is not JSON makes
    the resumption fail with the exception of [JSON.parse]. *)
Theorem unfinished_request_is_removed_from_the_log JSON_parse messages :
  (forallb (fun m => negb (isApiReqStarted m)) messages = true ->
   withoutUnfinishedApiReq JSON_parse messages = inr messages)
  /\ (forall before m after,
        messages = before ++ m :: after ->
        isApiReqStarted m = true ->
        forallb (fun m' => negb (isApiReqStarted m')) after = true ->
        withoutUnfinishedApiReq JSON_parse messages
        = match JSON_parse (textOrEmptyObject (ClineMessage.text m)) with
          | inl error => inl error
          | inr info =>
              match info_cost info, info_cancelReason info with
              | None, None => inr (before ++ after)
              | _, _ => inr messages
              end
          end)
  /\ textOrEmptyObject None = "{}"%string
  /\ textOrEmptyObject (Some ""%string) = "{}"%string.
Proof.
  split; [|split; [|split; reflexivity]].
  - intros Hall. unfold withoutUnfinishedApiReq. cbv zeta.
    destruct (findLastIndex_spec isApiReqStarted messages)
      as [[E _]|(before & x & after & -> & Hx & _ & _)].
    + now rewrite E.
    + rewrite forallb_app in Hall. apply andb_true_iff in Hall as [_ Hall].
      cbn [forallb] in Hall. rewrite Hx in Hall. discriminate.
  - intros before m after -> Hm Hafter. unfold withoutUnfinishedApiReq. cbv zeta.
    destruct (findLastIndex_spec isApiReqStarted (before ++ m :: after))
      as [[_ Hall]|(before' & x & after' & E & Hx & Hafter' & Ei)].
    + rewrite forallb_app in Hall. apply andb_true_iff in Hall as [_ Hall].
      cbn [forallb] in Hall. rewrite Hm in Hall. discriminate.
    + destruct (last_match_unique isApiReqStarted _ _ _ _ _ _ E Hm Hx Hafter Hafter')
        as (<- & <- & <-).
      rewrite Ei.
      destruct (Z.eqb_spec (Z.of_nat (length before)) (-1)) as [F|_]; [lia|]. cbn [negb].
      rewrite Nat2Z.id, nth_error_app2, Nat.sub_diag by lia. cbn [nth_error].
      destruct (JSON_parse (textOrEmptyObject (ClineMessage.text m))) as [error|info];
        [reflexivity|].
      destruct (info_cost info); [reflexivity|].
      destruct (info_cancelReason info); [reflexivity|].
      rewrite firstn_length_app by reflexivity.
      replace (S (length before)) with (length (before ++ [m]))
        by (rewrite length_app; cbn [length]; lia).
      replace (before ++ m :: after) with ((before ++ [m]) ++ after)
        by now rewrite <- app_assoc.
      rewrite skipn_app, Nat.sub_diag, skipn_all. reflexivity.
Qed.

(** ** The age of the last message, in words *)

Lemma div_pos_iff a b : 0 < b -> (0 <? a / b) = (b <=? a).
Proof.
  intros Hb. destruct (Z.leb_spec b a) as [H|H].
  - apply Z.ltb_lt. apply Z.div_str_pos. lia.
  - apply Z.ltb_ge.
    destruct (Z.le_gt_cases 0 a) as [Ha|Ha].
    + rewrite Z.div_small; lia.
    + pose proof (Z.div_lt_upper_bound a b 0 Hb). lia.
Qed.

(** X4. The age of the last message is worded in the largest of days, hours
    and minutes that it fills, with the number of whole units rounded
    down and a plural s from two on; an age under one minute, and a
    timestamp that lies in the future, read "just now". Without a last
    message the age is taken between the two readings of the clock. *)
Theorem agoText_words_the_largest_whole_unit lastTs now0 now :
  let timestamp := match lastTs with Some ts => ts | None => now0 end in
  let diff := now - timestamp in
  agoText lastTs now0 now
  = if 86400000 <=? diff then ago (diff / 86400000) "day"
    else if 3600000 <=? diff then ago (diff / 3600000) "hour"
    else if 60000 <=? diff then ago (diff / 60000) "minute"
    else "just now"%string.
Proof.
  intros timestamp diff. unfold agoText. fold timestamp. fold diff. cbv zeta.
  rewrite !Z.div_div by lia. change (60000 * 60) with 3600000.
  change (60000 * (60 * 24)) with 86400000.
  rewrite !div_pos_iff by lia. unfold ago.
  destruct (86400000 <=? diff); [reflexivity|].
  destruct (3600000 <=? diff); [reflexivity|].
  destruct (60000 <=? diff); [reflexivity|].
  reflexivity.
Qed.

(** ** The saved history without tool blocks *)

Lemma existsb_false_forall {A} (p : A -> bool) l :
  (forall x, In x l -> p x = false) -> existsb p l = false.
Proof.
  induction l as [|a l IH]; intros H; [reflexivity|].
  cbn [existsb]. rewrite (H a (or_introl eq_refl)), IH; [reflexivity|].
  intros x Hx. apply H. now right.
Qed.

Lemma toolUseIds_nil content :
  (forall block, In block content -> isToolUse block = false) -> toolUseIds content = [].
Proof.
  induction content as [|b content IH]; intros H; [reflexivity|].
  unfold toolUseIds in *. cbn [flat_map].
  rewrite IH by (intros x Hx; apply H; now right).
  pose proof (H b (or_introl eq_refl)) as Hb. destruct b; [reflexivity|discriminate|reflexivity].
Qed.

Lemma converted_blocks findToolName history message block :
  In message (conversationWithoutToolBlocks findToolName history) ->
  In block (contentBlocks (saved_content message)) ->
  isToolUse block = false /\ isToolResult block = false.
Proof.
  unfold conversationWithoutToolBlocks. intros Hm Hb.
  apply in_map_iff in Hm as (original & <- & _).
  destruct (saved_content original) as [s|blocks] eqn:E.
  - rewrite E in Hb. destruct Hb as [<-|[]]. split; reflexivity.
  - cbn [saved_content contentBlocks] in Hb. apply in_map_iff in Hb as (b & <- & _).
    destruct b; split; reflexivity.
Qed.

Lemma at_last_In {A} (l : list A) x : at_last l = Some x -> In x l.
Proof.
  induction l as [|a l IH]; [discriminate|].
  destruct l as [|b l]; cbn [at_last].
  - intros [= ->]. now left.
  - intros H. right. apply IH. exact H.
Qed.

(** X5. Once the tool blocks of a saved history have been rewritten into
    text, no tool-use and no tool-result block is left in it, and the
    number, roles and timestamps of its messages are unchanged. So the
    resumption never adds a result for an interrupted tool call: after a
    last assistant message the old user content is empty and the history
    is kept whole; after a last user message the old user content is that
    message's content and it leaves the history; an empty history makes
    the resumption fail. *)
Theorem resumed_history_carries_no_tool_blocks findToolName history :
  let converted := conversationWithoutToolBlocks findToolName history in
  (forall message block,
      In message converted -> In block (contentBlocks (saved_content message)) ->
      isToolUse block = false /\ isToolResult block = false)
  /\ List.map saved_role converted = List.map saved_role history
  /\ List.map saved_ts converted = List.map saved_ts history
  /\ modifiedHistoryAndContent converted
     = match at_last converted with
       | None => inl (Error "Unexpected: No existing API conversation history")
       | Some lastMessage =>
           match saved_role lastMessage with
           | assistant => inr (converted, [])
           | user => inr (removelast converted, contentBlocks (saved_content lastMessage))
           end
       end
  /\ (converted = [] <-> history = []).
Proof.
  intros converted.
  assert (forall message block,
             In message converted -> In block (contentBlocks (saved_content message)) ->
             isToolUse block = false /\ isToolResult block = false) as Hnone
    by apply converted_blocks.
  split; [exact Hnone|]. split; [|split; [|split]].
  - subst converted. unfold conversationWithoutToolBlocks. rewrite map_map.
    apply map_ext. intros m. now destruct (saved_content m).
  - subst converted. unfold conversationWithoutToolBlocks. rewrite map_map.
    apply map_ext. intros m. now destruct (saved_content m).
  - unfold modifiedHistoryAndContent.
    destruct (at_last converted) as [lastMessage|] eqn:El; [|reflexivity].
    pose proof (at_last_In _ _ El) as Hin.
    destruct (saved_role lastMessage).
    + destruct (length converted) as [|[|n]] eqn:Hlen; [reflexivity|reflexivity|].
      destruct (nth_error converted n) as [previous|] eqn:En; [|reflexivity].
      destruct (saved_role previous); [reflexivity|].
      rewrite toolUseIds_nil; [reflexivity|].
      intros block Hb. apply (Hnone previous block); [|exact Hb].
      eapply nth_error_In. exact En.
    + cbv zeta. rewrite existsb_false_forall; [reflexivity|].
      intros block Hb. now apply (Hnone lastMessage block).
  - subst converted. unfold conversationWithoutToolBlocks.
    split; intros H.
    + now apply map_eq_nil in H.
    + now rewrite H.
Qed.

(** ** The resumption note *)

(** X6. The user content of a resumption is the old user content up to, and
    without, its first resumption note, then the new note, then the images
    of the operator's answer if there are any. The new note is therefore
    the first block of the content that starts with [TASK RESUMPTION]:
    an earlier note and all that came after it are dropped. *)
Theorem resumption_note_replaces_the_earlier_one
    old agoText wasRecent responseText responseImages :
  let note := plain (TextBlock (taskResumptionText agoText wasRecent responseText)) in
  let images :=
    match responseImages with
    | Some (_ :: _) => List.map plain (imageBlocks responseImages)
    | _ => []
    end in
  exists kept,
    newUserContent old agoText wasRecent responseText responseImages = kept ++ note :: images
    /\ forallb (fun x => negb (isTaskResumption x)) kept = true
    /\ (old = kept
        \/ exists earlier dropped,
             old = kept ++ earlier :: dropped /\ isTaskResumption earlier = true)
    /\ isTaskResumption note = true
    /\ findIndex isTaskResumption
         (newUserContent old agoText wasRecent responseText responseImages)
       = Z.of_nat (length kept).
Proof.
  intros note images.
  assert (isTaskResumption note = true) as Hnote by reflexivity.
  assert (forall kept,
             forallb (fun x => negb (isTaskResumption x)) kept = true ->
             findIndex isTaskResumption (kept ++ note :: images) = Z.of_nat (length kept))
    as Hfirst.
  { induction kept as [|b kept IH]; intros H.
    - cbn [app findIndex]. now rewrite Hnote.
    - cbn [forallb] in H. apply andb_true_iff in H as [Hb H].
      apply negb_true_iff in Hb. cbn [app findIndex]. rewrite Hb, IH by assumption.
      destruct (Z.eqb_spec (Z.of_nat (length kept)) (-1)) as [E|_]; [lia|].
      cbn [length]. lia. }
  assert (forall kept,
             (match responseImages with
              | Some (_ :: _) => (kept ++ [note]) ++ List.map plain (imageBlocks responseImages)
              | _ => kept ++ [note]
              end) = kept ++ note :: images) as Hshape.
  { intros kept. subst images. destruct responseImages as [[|i l]|];
      rewrite <- ?app_assoc; reflexivity. }
  unfold newUserContent. cbv zeta. fold note.
  destruct (findIndex_spec isTaskResumption old)
    as [[E Hall]|(before & x & after & -> & Hx & Hbefore & E)]; rewrite E.
  - rewrite Z.eqb_refl. cbn [negb]. exists old. rewrite Hshape.
    repeat split; auto.
  - destruct (Z.eqb_spec (Z.of_nat (length before)) (-1)) as [F|_]; [lia|]. cbn [negb].
    rewrite Nat2Z.id, firstn_length_app by reflexivity.
    exists before. rewrite Hshape. repeat split; auto.
    right. now exists x, after.
Qed.

(** ** Tool usage counters *)

Lemma usageOf_app toolName u key entry :
  usageOf toolName (u ++ [(key, entry)])
  = match usageOf toolName u with
    | Some found => Some found
    | None => if String.eqb key toolName then Some entry else None
    end.
Proof.
  induction u as [|[k v] u IH]; [reflexivity|].
  cbn [app usageOf]. destruct (String.eqb k toolName); [reflexivity|exact IH].
Qed.

Lemma usageOf_updateEntry toolName name f u :
  usageOf toolName (updateEntry name f u)
  = match usageOf toolName u with
    | Some found => Some (if String.eqb toolName name then f found else found)
    | None => None
    end.
Proof.
  induction u as [|[k v] u IH]; [reflexivity|].
  cbn [updateEntry List.map usageOf]. fold (updateEntry name f u).
  destruct (String.eqb_spec k name) as [->|Hk]; cbn [usageOf].
  - destruct (String.eqb_spec name toolName) as [->|Hn].
    + now rewrite String.eqb_refl.
    + exact IH.
  - destruct (String.eqb_spec k toolName) as [->|Hn]; [|exact IH].
    destruct (String.eqb_spec toolName name) as [->|_]; [contradiction|reflexivity].
Qed.

Lemma usageOf_record toolName name f u :
  usageOf toolName (updateEntry name f (ensureEntry name u))
  = if String.eqb toolName name then Some (f (orZeroEntry (usageOf name u)))
    else usageOf toolName u.
Proof.
  rewrite usageOf_updateEntry. unfold ensureEntry.
  destruct (String.eqb_spec toolName name) as [->|Hn].
  - destruct (usageOf name u) as [found|] eqn:E.
    + now rewrite E.
    + rewrite usageOf_app, E, String.eqb_refl. reflexivity.
  - destruct (usageOf name u) as [found|] eqn:E.
    + now destruct (usageOf toolName u).
    + rewrite usageOf_app. destruct (usageOf toolName u); [reflexivity|].
      destruct (String.eqb_spec name toolName) as [->|_]; [contradiction|reflexivity].
Qed.

Lemma usageOf_runToolCall taskId c toolName u :
  usageOf toolName (runToolCall taskId c u)
  = if String.eqb toolName (toolCallName c) then
      let entry := orZeroEntry (usageOf toolName u) in
      Some match c with
           | usageCall _ => {| attempts := attempts entry + 1; failures := failures entry |}
           | errorCall _ _ => {| attempts := attempts entry; failures := failures entry + 1 |}
           end
    else usageOf toolName u.
Proof.
  destruct c as [name|name error];
    unfold runToolCall, recordToolUsage, recordToolError, toolCallName; cbn [fst];
    rewrite usageOf_record;
    destruct (String.eqb_spec toolName name) as [->|_]; reflexivity.
Qed.

Lemma attemptsOf_cons toolName c calls :
  attemptsOf toolName (c :: calls)
  = (match c with
     | usageCall n => if String.eqb toolName n then 1 else 0
     | errorCall _ _ => 0
     end) + attemptsOf toolName calls.
Proof.
  unfold attemptsOf. cbn [List.filter].
  destruct c as [n|n error]; [|lia].
  rewrite (String.eqb_sym n toolName). destruct (String.eqb toolName n); cbn [length]; lia.
Qed.

Lemma failuresOf_cons toolName c calls :
  failuresOf toolName (c :: calls)
  = (match c with
     | errorCall n _ => if String.eqb toolName n then 1 else 0
     | usageCall _ => 0
     end) + failuresOf toolName calls.
Proof.
  unfold failuresOf. cbn [List.filter].
  destruct c as [n|n error]; [lia|].
  rewrite (String.eqb_sym n toolName). destruct (String.eqb toolName n); cbn [length]; lia.
Qed.

Lemma no_call_no_count toolName calls :
  existsb (fun c => String.eqb toolName (toolCallName c)) calls = false ->
  attemptsOf toolName calls = 0 /\ failuresOf toolName calls = 0.
Proof.
  induction calls as [|c calls IH]; intros H; [split; reflexivity|].
  cbn [existsb] in H. apply orb_false_iff in H as [Hc H].
  destruct (IH H) as [IH1 IH2].
  rewrite attemptsOf_cons, failuresOf_cons, IH1, IH2.
  destruct c; unfold toolCallName in Hc; rewrite Hc; split; reflexivity.
Qed.

(** X7. From the empty table on, the entry of a tool holds the number of
    [recordToolUsage] calls made for it as its attempts and the number of
    [recordToolError] calls as its failures; the two are counted apart, so
    an error adds no attempt. A tool has an entry exactly when one of the
    two was called for it, and calls for other tools leave its entry as it
    is. *)
Theorem tool_usage_counts_attempts_and_failures_apart taskId calls toolName :
  usageOf toolName (fold_left (fun u c => runToolCall taskId c u) calls [])
  = if existsb (fun c => String.eqb toolName (toolCallName c)) calls
    then Some {| attempts := attemptsOf toolName calls;
                 failures := failuresOf toolName calls |}
    else None.
Proof.
  assert (forall u,
             usageOf toolName (fold_left (fun u c => runToolCall taskId c u) calls u)
             = if existsb (fun c => String.eqb toolName (toolCallName c)) calls
               then Some {| attempts := attempts (orZeroEntry (usageOf toolName u))
                                        + attemptsOf toolName calls;
                            failures := failures (orZeroEntry (usageOf toolName u))
                                        + failuresOf toolName calls |}
               else usageOf toolName u) as H.
  { induction calls as [|c calls IH]; intros u; [reflexivity|].
    cbn [fold_left existsb]. rewrite IH, usageOf_runToolCall.
    rewrite (attemptsOf_cons toolName c calls), (failuresOf_cons toolName c calls).
    destruct (String.eqb toolName (toolCallName c)) eqn:En; cbn [orb].
    - cbv zeta. cbn [orZeroEntry].
      destruct (existsb _ calls) eqn:Ex.
      + destruct c; unfold toolCallName in En; rewrite En; cbn [attempts failures];
          f_equal; f_equal; lia.
      + destruct (no_call_no_count toolName calls Ex) as [-> ->].
        destruct c; unfold toolCallName in En; rewrite En; cbn [attempts failures];
          f_equal; f_equal; lia.
    - destruct c; unfold toolCallName in En; rewrite En; rewrite !Z.add_0_l; reflexivity. }
  rewrite H. cbn [usageOf orZeroEntry attempts failures].
  now destruct (existsb _ calls).
Qed.
(** ** The retry hint, read back *)

(** X8. A retry delay written as a decimal number of seconds followed by
    [s], as a provider sends it, is read back as that number; and only
    texts that consist of one or more digits followed by a single [s]
    are read as a delay at all. *)
Theorem retry_delay_text_is_read_back n :
  0 <= n <= 9007199254740991 ->
  matchSeconds (string_of_Z n ++ "s") 0 false = Some n
  /\ forall s seconds,
       matchSeconds s 0 false = Some seconds ->
       exists digits,
         s = (digits ++ "s")%string
         /\ digits <> ""%string
         /\ forall c, In c (list_ascii_of_string digits) -> isDigit c = true.
Proof.
  intros Hn. split.
  - apply matchSeconds_string_of_Z. lia.
  - intros s seconds H.
    destruct (matchSeconds_digits _ _ _ _ H) as (digits & -> & Hne & Hall).
    exists digits. auto.
Qed.

(** ** The rate-limit delay *)

Lemma Qceiling_thousandth k : Qceiling (inject_Z k / 1000) = - (- k / 1000).
Proof.
  unfold Qceiling, Qfloor, Qdiv, Qmult, Qinv, Qopp, inject_Z. cbn [Qnum Qden].
  rewrite Z.mul_1_r. reflexivity.
Qed.

Lemma Qmax_inject_Z m : Qmax 0 (inject_Z m) == inject_Z (Z.max 0 m).
Proof.
  destruct (Z.le_gt_cases 0 m) as [H|H].
  - rewrite Z.max_r by assumption. apply Q.max_r.
    change 0%Q with (inject_Z 0). now rewrite <- Zle_Qle.
  - rewrite Z.max_l by lia. apply Q.max_l.
    change 0%Q with (inject_Z 0). rewrite <- Zle_Qle. lia.
Qed.

Lemma orDefault_zero x : orDefault (Some x) 0 == x.
Proof.
  unfold orDefault. destruct (Qeq_bool x 0) eqn:E; [|reflexivity].
  apply Qeq_bool_eq in E. now rewrite E.
Qed.

Lemma computeRateLimitDelay_whole last now rateLimitSeconds r :
  last <> 0 ->
  orDefault rateLimitSeconds 0 == inject_Z r ->
  computeRateLimitDelay (Some last) now rateLimitSeconds
  = Z.max 0 (r - (now - last) / 1000).
Proof.
  intros Hl Hr. unfold computeRateLimitDelay.
  destruct (Z.eqb_spec last 0) as [|_]; [contradiction|]. cbv zeta.
  rewrite (Qceiling_comp _ (inject_Z (Z.max 0 (r * 1000 - (now - last))) / 1000)).
  - rewrite Qceiling_thousandth.
    pose proof (Z.div_mod (now - last) 1000 ltac:(lia)).
    pose proof (Z.mod_pos_bound (now - last) 1000 ltac:(lia)).
    pose proof (Z.div_mod (- Z.max 0 (r * 1000 - (now - last))) 1000 ltac:(lia)).
    pose proof (Z.mod_pos_bound (- Z.max 0 (r * 1000 - (now - last))) 1000 ltac:(lia)).
    lia.
  - rewrite <- Qmax_inject_Z, Hr.
    assert (inject_Z (r * 1000 - (now - last))
            == inject_Z r * 1000 - inject_Z (now - last)) as ->; [|reflexivity].
    unfold Qeq, Qminus, Qplus, Qmult, Qopp, inject_Z. cbn [Qnum Qden]. lia.
Qed.

(** X9. Before the first request there is no rate-limit delay, and a last
    request time of 0 counts as no request. Otherwise, with a rate limit
    of [r] whole seconds (0 when none is configured), the delay is [r]
    less the whole seconds that have passed since the last request, and
    never less than 0. So when the clock has not gone back the delay is
    at most [r], it is 0 from [r] seconds after the last request on, and
    there is none without a configured rate limit. *)
Theorem rate_limit_delay_is_the_rest_of_the_window last now r :
  computeRateLimitDelay None now (Some (inject_Z r)) = 0
  /\ computeRateLimitDelay (Some 0) now (Some (inject_Z r)) = 0
  /\ (last <> 0 ->
      computeRateLimitDelay (Some last) now (Some (inject_Z r))
      = Z.max 0 (r - (now - last) / 1000)
      /\ computeRateLimitDelay (Some last) now None = Z.max 0 (- ((now - last) / 1000))
      /\ (last <= now ->
          computeRateLimitDelay (Some last) now None = 0
          /\ computeRateLimitDelay (Some last) now (Some (inject_Z r)) <= Z.max 0 r)
      /\ (last + 1000 * r <= now ->
          computeRateLimitDelay (Some last) now (Some (inject_Z r)) = 0)).
Proof.
  split; [reflexivity|]. split; [reflexivity|]. intros Hl.
  rewrite (computeRateLimitDelay_whole last now (Some (inject_Z r)) r Hl (orDefault_zero _)).
  rewrite (computeRateLimitDelay_whole last now None 0 Hl) by reflexivity.
  pose proof (Z.div_mod (now - last) 1000 ltac:(lia)).
  pose proof (Z.mod_pos_bound (now - last) 1000 ltac:(lia)).
  split; [reflexivity|]. split; [f_equal; lia|]. split; intros Hle; [split|]; lia.
Qed.

(** ** Streaming request controller: the rate-limit countdown *)

(** X10. The head of [attemptApiRequest] on a task that is not aborted: the
    rate-limit delay is counted down, one second per step, on the first
    attempt only; on a retry nothing is waited for here (the delay enters
    the wait before the retry instead). Then the time of the request is
    stored, and only then is the request prepared and sent. *)
Theorem rate_limit_countdown_runs_on_the_first_attempt_only a retryAttempt w :
  abort (this w) = false ->
  let rateLimitDelay :=
    computeRateLimitDelay (lastApiRequestTime (this w)) (now a) (rateLimitSeconds (state a)) in
  exists w1,
    beforeFirstChunk a retryAttempt w
    = (prepareRequest ;; call createMessage ;; assign (set_isWaitingForFirstChunk true) ;;
       ret rateLimitDelay) w1
    /\ lastApiRequestTime (this w1) = Some (requestTime a)
    /\ abort (this w1) = false
    /\ delayed (trace w1)
       = delayed (trace w)
         + match retryAttempt with
           | O => 1000 * Z.max 0 rateLimitDelay
           | S _ => 0
           end.
Proof.
  intros Ha rateLimitDelay. unfold beforeFirstChunk. unfold bind at 1. unfold getThis at 1.
  cbv beta iota zeta. fold rateLimitDelay.
  destruct (countdown_waits (rateLimitEnv a)
              (fun i => Some ("Rate limiting for " ++ string_of_Z i ++ " seconds...")%string)
              (Z.to_nat rateLimitDelay) w Ha) as (w' & C1 & C2 & C3).
  destruct ((0 <? rateLimitDelay) && Nat.eqb retryAttempt 0) eqn:Hc.
  - apply andb_true_iff in Hc as [Hd Hr]. apply Z.ltb_lt in Hd. apply Nat.eqb_eq in Hr.
    subst retryAttempt. cbn [when]. unfold bind at 1. rewrite C1. cbv beta iota.
    unfold bind at 1. unfold assign at 1. cbv beta iota.
    eexists. split; [reflexivity|]. cbn [with_this this trace lastApiRequestTime abort
                                          set_lastApiRequestTime].
    repeat split; [assumption|]. rewrite C3. lia.
  - cbn [when]. unfold bind at 1. unfold ret at 1. cbv beta iota.
    unfold bind at 1. unfold assign at 1. cbv beta iota.
    eexists. split; [reflexivity|]. cbn [with_this this trace lastApiRequestTime abort
                                          set_lastApiRequestTime].
    repeat split; [assumption|].
    destruct retryAttempt; [|lia].
    rewrite andb_true_r in Hc. apply Z.ltb_ge in Hc. lia.
Qed.

(** ** Streaming request controller: a failure without auto-retry *)




(** ** Condensing the context *)

Lemma say_nonInteractive_keeps_lastMessageTs e ty tx im p cp ps cc w :
  lastMessageTs (this (snd (say e ty tx im p cp ps true cc w))) = lastMessageTs (this w).
Proof.
  unfold say. run. destruct (abort (this w)); [reflexivity|].
  destruct p as [[|]|]; simpl;
    try destruct (isUpdatingPreviousPartial _ _ _); simpl;
    split_save e; run; reflexivity.
Qed.

Lemma say_complete_new e ty tx im cp ps ni cc w :
  abort (this w) = false ->
  updatesInPlace type_say ty (this w) = false ->
  let r := say e ty tx im (Some false) cp ps ni cc w in
  fst r = Return tt
  /\ clineMessages (this (snd r))
     = clineMessages (this w)
         ++ [ClineMessage.mk (Date_now e) type_say None (Some ty) tx im None None None cc].
Proof.
  intros Ha Hu. unfold updatesInPlace in Hu. unfold say. run. rewrite Ha. simpl.
  destruct (isUpdatingPreviousPartial _ _ _); [discriminate|].
  destruct ni; simpl; split_save e; run; split; reflexivity.
Qed.

Lemma overwriteApiConversationHistory_frame e newHistory w :
  let w' := snd (overwriteApiConversationHistory e newHistory w) in
  fst (overwriteApiConversationHistory e newHistory w) = Return tt
  /\ this w' = set_apiConversationHistory newHistory (this w)
  /\ timers w' = timers w /\ nextHandle w' = nextHandle w /\ resolved w' = resolved w.
Proof. destruct e as [n p sf [af|] ed]; run; repeat split. Qed.

Lemma condenseContext_steps
    getSystemPrompt summarizeConversation contextTokensOf eHistory eSay w :
  condenseContext getSystemPrompt summarizeConversation contextTokensOf eHistory eSay w
  = match getSystemPrompt with
    | inl error => (Throw error, w)
    | inr systemPrompt =>
        match summarizeConversation (apiConversationHistory (this w)) systemPrompt with
        | inl error => (Throw error, w)
        | inr response =>
            if String.eqb (sr_summary response) "" then (Return tt, w)
            else
              say eSay "condense_context" None None (Some false) None None true
                (Some {| summary := sr_summary response; cost := sr_cost response;
                         newContextTokens := orZero (sr_newContextTokens response);
                         prevContextTokens :=
                           contextTokensOf (tl (clineMessages (this w))) |})
                (snd (overwriteApiConversationHistory eHistory (sr_messages response) w))
        end
    end.
Proof.
  unfold condenseContext. destruct getSystemPrompt as [error|systemPrompt]; [reflexivity|].
  unfold bind at 1. unfold getThis at 1. cbv beta iota.
  destruct (summarizeConversation (apiConversationHistory (this w)) systemPrompt)
    as [error|response]; [reflexivity|].
  destruct (sr_summary response) as [|c rest] eqn:Esum; [reflexivity|].
  rewrite <- Esum. replace (String.eqb (sr_summary response) "") with false
    by (now rewrite Esum).
  destruct (overwriteApiConversationHistory_frame eHistory (sr_messages response) w)
    as (O1 & O2 & _).
  unfold bind at 1.
  destruct (overwriteApiConversationHistory eHistory (sr_messages response) w) as [o w1].
  cbn [fst snd] in *. subst o. cbv beta iota.
  unfold bind, getThis, getTokenUsage_contextTokens. cbv beta iota zeta. now rewrite O2.
Qed.

(** X12. Condensing the context never touches [lastMessageTs] nor the response
    slot, so an ask that is waiting is neither superseded nor answered by
    it. Without a summary nothing changes at all. With a summary the
    model-facing history is replaced by the summarised one, and on a task
    that is not aborted one [condense_context] message is appended, which
    records the summary, its cost, the new context size (0 when it is not
    given) and the context size derived from the display log as it was.
    On an aborted task the history is replaced all the same, and then the
    message is refused. A failure to build the system prompt or to
    summarise is passed on and changes nothing. *)
Theorem condensing_leaves_a_pending_ask_alone
    getSystemPrompt summarizeConversation contextTokensOf eHistory eSay w :
  let r := condenseContext getSystemPrompt summarizeConversation contextTokensOf
             eHistory eSay w in
  lastMessageTs (this (snd r)) = lastMessageTs (this w)
  /\ sameSlot w (snd r)
  /\ (forall error, getSystemPrompt = inl error -> r = (Throw error, w))
  /\ (forall systemPrompt,
        getSystemPrompt = inr systemPrompt ->
        match summarizeConversation (apiConversationHistory (this w)) systemPrompt with
        | inl error => r = (Throw error, w)
        | inr response =>
            if String.eqb (sr_summary response) "" then r = (Return tt, w)
            else
              apiConversationHistory (this (snd r)) = sr_messages response
              /\ (abort (this w) = true ->
                  fst r = Throw (abortedError "say" (this w))
                  /\ clineMessages (this (snd r)) = clineMessages (this w))
              /\ (abort (this w) = false ->
                  updatesInPlace type_say "condense_context" (this w) = false ->
                  fst r = Return tt
                  /\ clineMessages (this (snd r))
                     = clineMessages (this w)
                         ++ [ClineMessage.mk (Date_now eSay) type_say None
                               (Some "condense_context"%string) None None None None None
                               (Some {| summary := sr_summary response;
                                        cost := sr_cost response;
                                        newContextTokens :=
                                          orZero (sr_newContextTokens response);
                                        prevContextTokens :=
                                          contextTokensOf (tl (clineMessages (this w))) |})])
        end).
Proof.
  intros r. subst r. rewrite condenseContext_steps.
  destruct getSystemPrompt as [error|systemPrompt].
  { split; [reflexivity|]. split; [split; [|split]; reflexivity|].
    split; [intros ? [= <-]; reflexivity|discriminate]. }
  destruct (summarizeConversation (apiConversationHistory (this w)) systemPrompt)
    as [error|response] eqn:Es.
  { split; [reflexivity|]. split; [split; [|split]; reflexivity|].
    split; [discriminate|]. intros ? [= <-]. now rewrite Es. }
  destruct (String.eqb (sr_summary response) "") eqn:Esum.
  { split; [reflexivity|]. split; [split; [|split]; reflexivity|].
    split; [discriminate|]. intros ? [= <-]. now rewrite Es, Esum. }
  destruct (overwriteApiConversationHistory_frame eHistory (sr_messages response) w)
    as (_ & O2 & _).
  set (w1 := snd (overwriteApiConversationHistory eHistory (sr_messages response) w)) in *.
  set (cc := Some {| summary := sr_summary response; cost := sr_cost response;
                     newContextTokens := orZero (sr_newContextTokens response);
                     prevContextTokens := contextTokensOf (tl (clineMessages (this w))) |}).
  pose proof (say_nonInteractive_keeps_lastMessageTs eSay "condense_context" None None
                (Some false) None None cc w1) as Hts.
  destruct (say_frame eSay "condense_context" None None (Some false) None None true cc w1)
    as [(_ & _ & _ & _ & Hh & _) (S1 & S2 & S3)].
  pose proof (say_outcome eSay "condense_context" None None (Some false) None None true
                cc w1) as Ho.
  rewrite O2 in Hts, Hh, S1, S2, S3, Ho.
  cbn [set_apiConversationHistory lastMessageTs askResponse askResponseText
         askResponseImages apiConversationHistory abort] in Hts, Hh, S1, S2, S3, Ho.
  split; [exact Hts|]. split; [split; [|split]; assumption|].
  split; [discriminate|].
  intros ? [= <-]. rewrite Es, Esum.
  split; [exact Hh|]. split.
  - intros Ha. rewrite Ha in Ho. split; [exact Ho|].
    unfold say. run. rewrite O2. cbn [abort set_apiConversationHistory]. rewrite Ha.
    cbn [snd this]. now rewrite O2.
  - intros Ha Hu.
    destruct (say_complete_new eSay "condense_context" None None None None true cc w1)
      as [R1 R2].
    + now rewrite O2.
    + unfold updatesInPlace in *. now rewrite O2.
    + split; [exact R1|]. rewrite R2, O2. reflexivity.
Qed.

(** ** Task loop: what the stream loop accumulates *)

Ltac loop_goes_on H :=
  match type of H with
  | context [abort ?t] =>
      destruct (abort t);
      [ destruct (negb _); [|discriminate H];
        match type of H with
        | context [abortStream ?e ?i ?l ?c ?m ?w] =>
            destruct (abortStream e i l c m w) as [[[]| |] ?]; discriminate H
        end
      | destruct (didRejectTool _); [discriminate H|];
        destruct (didAlreadyUseTool _); [discriminate H|] ]
  end.

(** X13. When the stream has been read to its end, the token counts are the
    sums of the counts of its usage chunks (a missing cache count is 0),
    added to what was counted before, while the cost is the one that the
    last usage chunk reports, also when that chunk reports none: costs are
    not added up. *)
Theorem usage_is_summed_and_the_last_cost_is_kept idx items locals w locals1 w1 :
  streamLoop idx items locals w = (Return exhausted, locals1, w1) ->
  inputTokens locals1 = inputTokens locals + usageSum chunk_inputTokens items
  /\ outputTokens locals1 = outputTokens locals + usageSum chunk_outputTokens items
  /\ cacheWriteTokens locals1
     = cacheWriteTokens locals + usageSum chunk_cacheWriteTokens items
  /\ cacheReadTokens locals1
     = cacheReadTokens locals + usageSum chunk_cacheReadTokens items
  /\ totalCost locals1 = lastCost items (totalCost locals).
Proof.
  revert locals w. induction items as [|item items IH]; intros locals w H;
    cbn [streamLoop usageSum lastCost] in *.
  - injection H as <- <-. repeat split; lia.
  - destruct item as [e [c|]|a|error]; try discriminate; eauto.
    destruct c as [tx|i o cw cr tc|tx].
    + destruct (say e "reasoning" _ None (Some true) None None false None _)
        as [[[]|err|] w0]; try discriminate.
      loop_goes_on H. apply IH in H. cbn [chunk_inputTokens chunk_outputTokens
        chunk_cacheWriteTokens chunk_cacheReadTokens add_reasoningMessage inputTokens
        outputTokens cacheWriteTokens cacheReadTokens totalCost] in *.
      rewrite !Z.add_0_l. exact H.
    + loop_goes_on H. apply IH in H. cbn [chunk_inputTokens chunk_outputTokens
        chunk_cacheWriteTokens chunk_cacheReadTokens add_usage inputTokens
        outputTokens cacheWriteTokens cacheReadTokens totalCost] in *.
      destruct H as (H1 & H2 & H3 & H4 & H5). repeat split; try lia. exact H5.
    + loop_goes_on H. apply IH in H. cbn [chunk_inputTokens chunk_outputTokens
        chunk_cacheWriteTokens chunk_cacheReadTokens add_assistantMessage inputTokens
        outputTokens cacheWriteTokens cacheReadTokens totalCost] in *.
      rewrite !Z.add_0_l. exact H.
Qed.

(** ** Task loop: reasoning chunks *)

Lemma say_reasoning_first e tx w :
  abort (this w) = false ->
  updatesInPlace type_say "reasoning" (this w) = false ->
  exists w',
    say e "reasoning" (Some tx) None (Some true) None None false None w = (Return tt, w')
    /\ this w'
       = set_clineMessages
           (clineMessages (this w)
              ++ [ClineMessage.mk (Date_now e) type_say None (Some "reasoning"%string)
                    (Some tx) None (Some true) None None None])
           (set_lastMessageTs (Some (Date_now e)) (this w)).
Proof.
  intros Ha Hu. unfold updatesInPlace in Hu. unfold say. run. rewrite Ha. simpl.
  destruct (isUpdatingPreviousPartial _ _ _); [discriminate|].
  simpl. split_save e; run; eexists; split; reflexivity.
Qed.

Lemma say_reasoning_next e tx w older m :
  abort (this w) = false ->
  clineMessages (this w) = older ++ [m] ->
  ClineMessage.partial m = Some true ->
  ClineMessage.type m = type_say ->
  ClineMessage.say m = Some "reasoning"%string ->
  exists w',
    say e "reasoning" (Some tx) None (Some true) None None false None w = (Return tt, w')
    /\ this w'
       = set_clineMessages
           (older ++ [ClineMessage.mk (ClineMessage.ts m) (ClineMessage.type m)
                        (ClineMessage.ask m) (ClineMessage.say m) (Some tx) None (Some true)
                        None (ClineMessage.checkpoint m) (ClineMessage.contextCondense m)])
           (this w).
Proof.
  intros Ha Hm Hp Hty Hs.
  pose proof (isUpdatingPreviousPartial_open type_say "reasoning" m Hp Hty Hs) as Hu.
  unfold say. run. rewrite Ha, Hm, at_last_app, Hu. simpl.
  split_save e; run; rewrite Hm, replaceLast_app; eexists; split; reflexivity.
Qed.

Lemma reasoning_loop idx chunks :
  forall locals w older ts0 tx0,
    abort (this w) = false ->
    didRejectTool (this w) = false ->
    didAlreadyUseTool (this w) = false ->
    clineMessages (this w)
    = older ++ [ClineMessage.mk ts0 type_say None (Some "reasoning"%string) (Some tx0) None
                  (Some true) None None None] ->
    exists w',
      streamLoop idx (reasoningStream chunks) locals w
      = (Return exhausted,
         fold_left (fun l c => add_reasoningMessage (snd c) l) chunks locals, w')
      /\ this w'
         = set_clineMessages
             (older ++ [ClineMessage.mk ts0 type_say None (Some "reasoning"%string)
                          (Some match chunks with
                                | [] => tx0
                                | _ => reasoningMessage
                                         (fold_left
                                            (fun l c => add_reasoningMessage (snd c) l)
                                            chunks locals)
                                end)
                          None (Some true) None None None])
             (this w).
Proof.
  induction chunks as [|[e tx] chunks IH]; intros locals w older ts0 tx0 Ha Hr Hu Hm.
  - exists w. split; [reflexivity|]. rewrite <- Hm. now destruct w as [[] ? ? ? ?].
  - cbn [reasoningStream List.map streamLoop fold_left snd].
    fold (reasoningStream chunks).
    set (locals1 := add_reasoningMessage tx locals).
    destruct (say_reasoning_next e (reasoningMessage locals1)
                (record (setChatType "system") w) older _ Ha Hm eq_refl eq_refl eq_refl)
      as (w1 & -> & Hw1).
    cbn [ClineMessage.ts ClineMessage.type ClineMessage.ask ClineMessage.say
           ClineMessage.checkpoint ClineMessage.contextCondense record this] in Hw1.
    rewrite Hw1. cbn [abort abandoned didRejectTool didAlreadyUseTool set_clineMessages].
    rewrite Ha, Hr, Hu.
    destruct (IH locals1 w1 older ts0 (reasoningMessage locals1)) as (w' & -> & Hw');
      try (rewrite Hw1; cbn [abort didRejectTool didAlreadyUseTool set_clineMessages
                               clineMessages]; auto; fail).
    exists w'. split; [reflexivity|]. rewrite Hw', Hw1.
    destruct chunks; reflexivity.
Qed.

Lemma fold_reasoning chunks locals :
  reasoningMessage (fold_left (fun l c => add_reasoningMessage (snd c) l) chunks locals)
  = (reasoningMessage locals ++ reasoningText chunks)%string.
Proof.
  revert locals. induction chunks as [|[e tx] chunks IH]; intros locals.
  - cbn. now rewrite append_empty_r.
  - cbn [fold_left snd]. rewrite IH. cbn [add_reasoningMessage reasoningMessage].
    rewrite append_assoc. f_equal. unfold reasoningText. cbn [List.map snd String.concat].
    destruct (List.map snd chunks) eqn:E; [now rewrite append_empty_r|].
    reflexivity.
Qed.

(** X14. The reasoning chunks of a stream share one display message. When a
    stream of reasoning chunks is read by a task that is not aborted, with
    the tool flags reset and no reasoning message open, the loop reads it
    to its end, and the display log has gained exactly one message: a
    [reasoning] message that carries the timestamp taken at the first chunk
    and the text of all chunks so far, and that is still marked partial. *)
Theorem reasoning_chunks_share_one_message idx e0 tx0 more locals w :
  abort (this w) = false ->
  didRejectTool (this w) = false ->
  didAlreadyUseTool (this w) = false ->
  updatesInPlace type_say "reasoning" (this w) = false ->
  let chunks := (e0, tx0) :: more in
  let r := streamLoop idx (reasoningStream chunks) locals w in
  fst (fst r) = Return exhausted
  /\ reasoningMessage (snd (fst r)) = (reasoningMessage locals ++ reasoningText chunks)%string
  /\ clineMessages (this (snd r))
     = clineMessages (this w)
         ++ [ClineMessage.mk (Date_now e0) type_say None (Some "reasoning"%string)
               (Some (reasoningMessage locals ++ reasoningText chunks)%string)
               None (Some true) None None None].
Proof.
  intros Ha Hr Hu Hnew chunks r. subst r chunks.
  cbn [reasoningStream List.map streamLoop]. fold (reasoningStream more).
  set (locals1 := add_reasoningMessage tx0 locals).
  destruct (say_reasoning_first e0 (reasoningMessage locals1)
              (record (setChatType "system") w) Ha Hnew) as (w1 & -> & Hw1).
  cbn [record this] in Hw1.
  rewrite Hw1. cbn [abort abandoned didRejectTool didAlreadyUseTool set_clineMessages
                      set_lastMessageTs].
  rewrite Ha, Hr, Hu.
  destruct (reasoning_loop idx more locals1 w1 (clineMessages (this w)) (Date_now e0)
              (reasoningMessage locals1)) as (w' & -> & Hw');
    try (rewrite Hw1; cbn [abort didRejectTool didAlreadyUseTool set_clineMessages
                             set_lastMessageTs clineMessages]; auto; fail).
  cbn [fst snd]. split; [reflexivity|].
  assert (reasoningMessage
            (fold_left (fun l c => add_reasoningMessage (snd c) l) more locals1)
          = (reasoningMessage locals ++ reasoningText ((e0, tx0) :: more))%string) as Et.
  { change (fold_left (fun l c => add_reasoningMessage (snd c) l) more locals1)
      with (fold_left (fun l c => add_reasoningMessage (snd c) l) ((e0, tx0) :: more) locals).
    apply fold_reasoning. }
  split; [exact Et|].
  rewrite Hw'. cbn [clineMessages set_clineMessages]. rewrite <- Et.
  now destruct more.
Qed.

(** ** Task loop: a cancellation noticed by the stream loop *)

Lemma replaceLast_length {A} (l : list A) (x y : A) :
  at_last l = Some y -> length (replaceLast x l) = length l.
Proof.
  intros H. rewrite (at_last_split l y H) at 2. unfold replaceLast.
  now rewrite !length_app.
Qed.

Lemma updateApiReqMsg_returns idx locals reason msg w :
  0 <= idx -> (Z.to_nat idx < length (clineMessages (this w)))%nat ->
  exists w',
    updateApiReqMsg idx locals reason msg w = (Return tt, w')
    /\ didFinishAbortingStream (this w') = didFinishAbortingStream (this w)
    /\ trace w' = trace w.
Proof.
  intros H0 Hlt. unfold updateApiReqMsg, bind, getThis. cbv beta iota.
  destruct (Z.ltb_spec idx 0) as [|_]; [lia|].
  destruct (nth_error (clineMessages (this w)) (Z.to_nat idx)) as [m|] eqn:E.
  - eexists. split; [reflexivity|]. split; reflexivity.
  - apply nth_error_None in E. lia.
Qed.

Lemma abortStream_returns e idx locals reason msg w :
  0 <= idx -> (Z.to_nat idx < length (clineMessages (this w)))%nat ->
  exists w',
    abortStream e idx locals reason msg w = (Return tt, w')
    /\ didFinishAbortingStream (this w') = true.
Proof.
  intros H0 Hlt. unfold abortStream.
  set (step1 := when (isEditing e) (call revertChanges)).
  assert (exists w1, step1 w = (Return tt, w1) /\ this w1 = this w) as (w1 & E1 & T1)
    by (subst step1; destruct (isEditing e); eexists; split; reflexivity).
  unfold bind at 1. rewrite E1. cbv beta iota.
  unfold bind at 1. unfold getThis at 1. cbv beta iota.
  set (step2 := match at_last (clineMessages (this w1)) with
                | Some lastMessage => _
                | None => ret tt
                end).
  assert (exists w2, step2 w1 = (Return tt, w2)
                     /\ length (clineMessages (this w2)) = length (clineMessages (this w)))
    as (w2 & E2 & L2).
  { subst step2. rewrite T1. destruct (at_last (clineMessages (this w))) as [m|] eqn:El.
    - destruct (truthy (ClineMessage.partial m)).
      + eexists. split; [reflexivity|]. cbn [when assign with_this this fst snd].
        rewrite T1. cbn [clineMessages set_clineMessages].
        now apply replaceLast_length with (y := m).
      + exists w1. split; [reflexivity|]. now rewrite T1.
    - exists w1. split; [reflexivity|]. now rewrite T1. }
  unfold bind at 1. rewrite E2. cbv beta iota.
  destruct (addToApiConversationHistory_frame e assistant
              (ContentBlocks
                 [TextBlock (assistantMessage locals ++ nl ++ nl ++ "["
                               ++ interruptedMarker reason ++ "]")]) w2)
    as (A1 & A2 & _).
  unfold bind at 1.
  destruct (addToApiConversationHistory e assistant _ w2) as [o3 w3].
  cbn [fst snd] in A1, A2. subst o3. cbv beta iota.
  destruct (updateApiReqMsg_returns idx locals (Some reason) msg w3 H0) as (w4 & E4 & _).
  { rewrite A2. cbn [clineMessages set_apiConversationHistory]. lia. }
  unfold bind at 1. rewrite E4. cbv beta iota.
  destruct (saveClineMessages_frame e w4) as (S1 & S2 & _).
  unfold bind at 1. destruct (saveClineMessages e w4) as [o5 w5].
  cbn [fst snd] in S1, S2. subst o5. cbv beta iota.
  unfold assign. eexists. split; reflexivity.
Qed.

(** X15. A cancellation that the loop notices after a text chunk: the rest of
    the stream is not read. If the task is abandoned the loop just ends.
    Otherwise the text received so far, this chunk included, is appended to
    the model-facing history as an assistant message that ends in
    "[Response interrupted by user]"; and when the request-start message
    is in the log, the loop ends normally with
    [didFinishAbortingStream] set. *)
Theorem user_cancel_keeps_the_text_received e tx rest idx locals w :
  let locals1 := add_assistantMessage tx locals in
  let w1 := present (assistantMessage locals1) (record (setChatType "system") w) in
  abort (this w1) = true ->
  let r := streamLoop idx (yields e (Some (chunk_text tx)) :: rest) locals w in
  r = streamLoop idx [yields e (Some (chunk_text tx))] locals w
  /\ snd (fst r) = locals1
  /\ (abandoned (this w1) = true -> r = (Return broke, locals1, w1))
  /\ (abandoned (this w1) = false ->
      apiConversationHistory (this (snd r))
      = apiConversationHistory (this w1)
          ++ [ApiMessage.mk assistant
                (ContentBlocks
                   [TextBlock ((assistantMessage locals ++ tx) ++ nl ++ nl
                                 ++ "[Response interrupted by user]")])
                (Some (Date_now e))]
      /\ (0 <= idx -> (Z.to_nat idx < length (clineMessages (this w1)))%nat ->
          fst (fst r) = Return broke
          /\ didFinishAbortingStream (this (snd r)) = true)).
Proof.
  intros locals1 w1 Ha r. subst r. cbn [streamLoop]. fold locals1. fold w1. rewrite Ha.
  destruct (abandoned (this w1)) eqn:Hab; cbn [negb].
  - split; [reflexivity|]. split; [reflexivity|]. split; [reflexivity|discriminate].
  - destruct (abortStream_appends e idx locals1 user_cancelled None w1) as (B1 & _).
    pose proof (abortStream_returns e idx locals1 user_cancelled None w1) as B2.
    destruct (abortStream e idx locals1 user_cancelled None w1) as [[[]|err|] w2];
      cbn [fst snd] in *;
      (split; [reflexivity|]; split; [reflexivity|]; split; [discriminate|];
       intros _; split; [exact B1|]; intros H0 Hlt;
       destruct (B2 H0 Hlt) as (w' & E & R2); inversion E; subst;
       (split; [reflexivity|exact R2])).
Qed.

(** X16. A cancellation that the loop notices at a reasoning chunk is recorded
    as a failure of the stream. On a task that is aborted but not
    abandoned, [say] refuses the reasoning message; the handler of the loop
    takes that exception for a stream failure: the iteration ends the
    loop, and the model-facing history gains an assistant message that
    holds the text received before (none at the start of a stream)
    followed by "[Response interrupted by API Error]". *)
Theorem cancel_at_a_reasoning_chunk_is_recorded_as_a_failure
    eAbort eStream historyFound idx e tx rest w :
  abort (this w) = true ->
  abandoned (this w) = false ->
  let r := recursivelyMakeClineRequests_request eAbort eStream historyFound idx
             (yields e (Some (chunk_reasoning tx)) :: rest) w in
  fst r = Return true
  /\ apiConversationHistory (this (snd r))
     = apiConversationHistory (this w)
         ++ [ApiMessage.mk assistant
               (ContentBlocks [TextBlock (nl ++ nl ++ "[Response interrupted by API Error]")])
               (Some (Date_now eStream))].
Proof.
  intros Ha Hab r. subst r.
  unfold recursivelyMakeClineRequests_request, consumeStream, tryCatch.
  cbn [streamLoop].
  set (w0 := record (setChatType "system") (with_this (set_isStreaming true) w)).
  set (locals1 := add_reasoningMessage tx initialLocals).
  pose proof (say_outcome e "reasoning" (Some (reasoningMessage locals1)) None (Some true)
                None None false None w0) as Ho.
  assert (this (snd (say e "reasoning" (Some (reasoningMessage locals1)) None (Some true)
                       None None false None w0)) = this w0) as Hs.
  { unfold say. run. now rewrite Ha. }
  cbn [w0 record with_this this abort set_isStreaming] in Ho. rewrite Ha in Ho.
  destruct (say e "reasoning" (Some (reasoningMessage locals1)) None (Some true) None None
              false None w0) as [o w1].
  cbn [fst snd] in Ho, Hs. subst o.
  assert (abandoned (this w1) = false) as Hab1 by (rewrite Hs; exact Hab).
  destruct (streamCatch_cancels eAbort eStream historyFound idx locals1
              (abortedError "say" (set_isStreaming true (this w))) w1 Hab1)
    as (C1 & C2 & _ & C4 & _ & C6).
  destruct (streamCatch eAbort eStream historyFound idx locals1 _ w1) as [o w2].
  cbn [fst snd] in C1, C2, C4, C6.
  rewrite Hs in C4. cbn [w0 record with_this this apiConversationHistory set_isStreaming]
    in C4.
  destruct o as [[]|err|]; [| |contradiction].
  - unfold bind, getThis. cbn [with_this this abort abandoned set_isStreaming].
    rewrite C1. cbn [orb throw fst snd this apiConversationHistory set_isStreaming].
    split; [reflexivity|]. exact C4.
  - cbn [fst snd ret with_this this apiConversationHistory set_isStreaming].
    split; [reflexivity|]. exact C4.
Qed.

(** ** Task loop: publishing the user turn *)

Lemma findLastIndex_last {A} (predicate : A -> bool) (l : list A) (x : A) :
  predicate x = true -> findLastIndex predicate (l ++ [x]) = Z.of_nat (length l).
Proof.
  intros Hx. induction l as [|a l IH]; cbn [app findLastIndex].
  - now rewrite Hx.
  - rewrite IH. destruct (Z.eqb_spec (Z.of_nat (length l)) (-1)) as [E|_]; [lia|].
    cbn [length]. lia.
Qed.

Lemma setNth_last {A} (l : list A) (x y : A) : setNth (length l) y (l ++ [x]) = l ++ [y].
Proof. induction l as [|a l IH]; cbn [length app setNth]; [reflexivity|now rewrite IH]. Qed.

Lemma say_atomic_this e ty tx im cp cc w :
  abort (this w) = false ->
  exists w',
    say e ty tx im None cp None false cc w = (Return tt, w')
    /\ this w'
       = set_clineMessages
           (clineMessages (this w)
              ++ [ClineMessage.mk (Date_now e) type_say None (Some ty) tx im None None cp cc])
           (set_lastMessageTs (Some (Date_now e)) (this w)).
Proof.
  intros Ha. unfold say. run. rewrite Ha. simpl.
  split_save e; run; eexists; split; reflexivity.
Qed.

Lemma addToApiConversationHistory_this e r c w :
  exists w',
    addToApiConversationHistory e r c w = (Return tt, w')
    /\ this w'
       = set_apiConversationHistory
           (apiConversationHistory (this w) ++ [ApiMessage.mk r c (Some (Date_now e))])
           (this w).
Proof.
  destruct (addToApiConversationHistory_frame e r c w) as (F1 & F2 & _).
  destruct (addToApiConversationHistory e r c w) as [o w']. cbn [fst snd] in *.
  subst o. now exists w'.
Qed.

(** X17. An iteration on a task that is not aborted publishes the user turn
    before the request is made. The display log gains one
    [api_req_started] message, whose text is in the end the request built
    from the final user content (the processed content followed by the
    environment details), and [lastApiReqIndex] is the index of that
    message, the last of the log. The model-facing history gains the user
    message with the final user content, preceded by the language reminder
    when the provider state sets a language. *)
Theorem the_user_turn_is_published_before_the_request
    formatContentBlockToMarkdown JSON_stringify_request languageNameOf
    captureConversationMessage i userContent w :
  abort (this w) = false ->
  harmless (captureConversationMessage user) ->
  let r := recursivelyMakeClineRequests_userTurn formatContentBlockToMarkdown
             JSON_stringify_request languageNameOf captureConversationMessage i
             userContent w in
  let finalUserContent := parsedUserContent i ++ [TextBlock (environmentDetails i)] in
  fst r = Return (Z.of_nat (length (clineMessages (this w))), finalUserContent)
  /\ clineMessages (this (snd r))
     = clineMessages (this w)
         ++ [ClineMessage.mk (Date_now (startedEnv i)) type_say None
               (Some "api_req_started"%string)
               (Some (JSON_stringify_request
                        (requestMarkdown formatContentBlockToMarkdown finalUserContent)))
               None None None None None]
  /\ apiConversationHistory (this (snd r))
     = apiConversationHistory (this w)
         ++ match language i with
            | Some (String _ _ as l) =>
                [ApiMessage.mk user (ContentString (languageReminder (languageNameOf l)))
                   (Some (Date_now (languageEnv i)))]
            | _ => []
            end
         ++ [ApiMessage.mk user (ContentBlocks finalUserContent)
               (Some (Date_now (userEnv i)))]
  /\ lastMessageTs (this (snd r)) = Some (Date_now (startedEnv i)).
Proof.
  intros Ha Hharmless r finalUserContent.
  set (started := ClineMessage.mk (Date_now (startedEnv i)) type_say None
                    (Some "api_req_started"%string)
                    (Some (JSON_stringify_request
                             (requestMarkdown formatContentBlockToMarkdown userContent
                                ++ nl ++ nl ++ "Loading...")%string))
                    None None None None None).
  set (reminder := match language i with
                   | Some (String _ _ as l) =>
                       [ApiMessage.mk user
                          (ContentString (languageReminder (languageNameOf l)))
                          (Some (Date_now (languageEnv i)))]
                   | _ => []
                   end).
  assert (exists w',
             r = (Return (Z.of_nat (length (clineMessages (this w))), finalUserContent), w')
             /\ this w'
                = set_clineMessages
                    (clineMessages (this w)
                       ++ [set_text (Some (JSON_stringify_request
                                             (requestMarkdown formatContentBlockToMarkdown
                                                finalUserContent))) started])
                    (set_apiConversationHistory
                       (apiConversationHistory (this w) ++ reminder
                          ++ [ApiMessage.mk user (ContentBlocks finalUserContent)
                                (Some (Date_now (userEnv i)))])
                       (set_lastMessageTs (Some (Date_now (startedEnv i))) (this w))))
    as (w' & Er & Hw').
  { subst r. unfold recursivelyMakeClineRequests_userTurn.
    destruct (say_atomic_this (startedEnv i) "api_req_started"
                (Some (JSON_stringify_request
                         (requestMarkdown formatContentBlockToMarkdown userContent
                            ++ nl ++ nl ++ "Loading...")%string)) None None None w Ha)
      as (w1 & E1 & T1).
    fold started in T1.
    unfold bind at 1. rewrite E1. cbv beta iota zeta. fold finalUserContent.
    assert (exists w2,
               match language i with
               | Some (String _ _ as l) =>
                   addToApiConversationHistory (languageEnv i) user
                     (ContentString (languageReminder (languageNameOf l)))
               | _ => ret tt
               end w1 = (Return tt, w2)
               /\ this w2
                  = set_apiConversationHistory
                      (apiConversationHistory (this w1) ++ reminder) (this w1))
      as (w2 & E2 & T2).
    { subst reminder. destruct (language i) as [[|c l]|].
      - exists w1. split; [reflexivity|]. rewrite app_nil_r. now destruct (this w1).
      - apply addToApiConversationHistory_this.
      - exists w1. split; [reflexivity|]. rewrite app_nil_r. now destruct (this w1). }
    unfold bind at 1. rewrite E2. cbv beta iota.
    destruct (addToApiConversationHistory_this (userEnv i) user
                (ContentBlocks finalUserContent) w2) as (w3 & E3 & T3).
    unfold bind at 1. rewrite E3. cbv beta iota.
    destruct (Hharmless w3) as [H4 T4].
    unfold bind at 1. destruct (captureConversationMessage user w3) as [o4 w4].
    cbn [fst snd] in H4, T4. subst o4. cbv beta iota.
    unfold bind at 1. unfold getThis at 1. cbv beta iota zeta.
    assert (clineMessages (this w4) = clineMessages (this w) ++ [started]) as L4.
    { rewrite T4, T3, T2, T1. reflexivity. }
    rewrite L4, findLastIndex_last by reflexivity.
    destruct (Z.ltb_spec (Z.of_nat (length (clineMessages (this w)))) 0) as [F|_]; [lia|].
    rewrite Nat2Z.id, nth_error_app2, Nat.sub_diag by lia. cbn [nth_error].
    unfold bind at 1. unfold assign at 1. cbv beta iota.
    destruct (saveClineMessages_frame (turnSaveEnv i)
                (with_this
                   (fun t => set_clineMessages
                               (setNth (length (clineMessages (this w)))
                                  (set_text
                                     (Some (JSON_stringify_request
                                              (requestMarkdown formatContentBlockToMarkdown
                                                 finalUserContent))) started)
                                  (clineMessages t)) t) w4))
      as (S1 & S2 & _).
    unfold bind at 1.
    destruct (saveClineMessages (turnSaveEnv i) _) as [o5 w5].
    cbn [fst snd] in S1, S2. subst o5. cbv beta iota.
    assert (exists w6,
               when (providerAtEntry i) (call postStateToWebview) w5 = (Return tt, w6)
               /\ this w6 = this w5) as (w6 & E6 & T6)
      by (destruct (providerAtEntry i); eexists; split; reflexivity).
    unfold bind at 1. rewrite E6. cbv beta iota.
    exists w6. split; [reflexivity|].
    rewrite T6, S2. cbn [with_this this]. rewrite L4, setNth_last.
    rewrite T4, T3, T2, T1.
    cbn [set_clineMessages set_apiConversationHistory set_lastMessageTs
           apiConversationHistory clineMessages].
    now rewrite <- app_assoc. }
  rewrite Er. cbn [fst snd]. rewrite Hw'.
  split; [reflexivity|]. split; [reflexivity|]. split; reflexivity.
Qed.

(** ** An aborted task stays aborted *)

Lemma envStep_aborted a w :
  abort (this w) = true ->
  abort (this (envStep a w)) = true
  /\ clineMessages (this (envStep a w)) = clineMessages (this w)
  /\ apiConversationHistory (this (envStep a w)) = apiConversationHistory (this w)
  /\ (abandoned (this w) = true -> abandoned (this (envStep a w)) = true).
Proof.
  intros Ha. destruct a as [|r tx im ct|e ty tx p ps|e ty tx im p cp ps ni cc|e b
                            |e1 e2 r| |h]; cbn [envStep].
  - auto.
  - unfold handleWebviewAskResponse. run. auto.
  - unfold ask_begin, bind, getThis. cbv beta iota. rewrite Ha. cbn [throw snd]. auto.
  - rewrite aborted_task_rejects_say by assumption. cbn [snd]. auto.
  - destruct (abortTask_frame e b w) as (_ & F1 & F2 & _ & _ & _ & _ & _ & F3 & F4 & _).
    cbv zeta in F1, F2, F3, F4. rewrite F1, F2, F3, F4.
    repeat split. intros ->. apply orb_true_r.
  - unfold resumePausedTask, say. run. rewrite Ha. simpl.
    destruct (provider e1); simpl; auto.
  - cbn. auto.
  - destruct (existsb (Nat.eqb h) (timers w)); [|auto].
    unfold pauseIntervalCallback. run. destruct (isPaused (this w)); simpl; auto.
Qed.

Lemma runSchedule_aborted sched w :
  abort (this w) = true ->
  abort (this (runSchedule sched w)) = true
  /\ clineMessages (this (runSchedule sched w)) = clineMessages (this w)
  /\ apiConversationHistory (this (runSchedule sched w)) = apiConversationHistory (this w)
  /\ (abandoned (this w) = true -> abandoned (this (runSchedule sched w)) = true).
Proof.
  revert w. induction sched as [|a sched IH]; intros w Ha; [repeat split; auto|].
  change (runSchedule (a :: sched) w) with (runSchedule sched (envStep a w)).
  destruct (envStep_aborted a w Ha) as (E1 & E2 & E3 & E4).
  destruct (IH (envStep a w) E1) as (I1 & I2 & I3 & I4).
  rewrite I2, I3, E2, E3. repeat split; auto.
Qed.

(** X18. Once [abortTask] has run, the task stays aborted whatever the rest of
    the system does next (asks, says, responses, resumptions, further
    aborts, new waits, timer ticks), and an abandoned task stays
    abandoned. None of these changes either log any more: every [say],
    every [ask] and every loop iteration on the aborted task raises the
    aborted error at once and leaves the task as it is. *)
Theorem an_aborted_task_stays_aborted_and_refuses_the_protocol e isAbandoned sched w :
  let w' := runSchedule sched (snd (abortTask e isAbandoned w)) in
  abort (this w') = true
  /\ (isAbandoned = true \/ abandoned (this w) = true -> abandoned (this w') = true)
  /\ clineMessages (this w') = clineMessages (this w)
  /\ apiConversationHistory (this w') = apiConversationHistory (this w)
  /\ (forall e' ty tx im p cp ps ni cc,
        say e' ty tx im p cp ps ni cc w' = (Throw (abortedError "say" (this w')), w'))
  /\ (forall e' sched' ty tx p ps,
        ask e' sched' ty tx p ps w' = (Throw (abortedError "ask" (this w')), w'))
  /\ (forall eAsk eSay sched' modelIdIncludesClaude userContent,
        recursivelyMakeClineRequests_guard eAsk eSay sched' modelIdIncludesClaude
          userContent w'
        = (Throw (abortedError "recursivelyMakeRooRequests" (this w')), w')).
Proof.
  intros w'.
  destruct (abortTask_frame e isAbandoned w)
    as (_ & F1 & F2 & _ & _ & _ & _ & _ & F3 & F4 & _).
  cbv zeta in F1, F2, F3, F4.
  destruct (runSchedule_aborted sched (snd (abortTask e isAbandoned w)) F1)
    as (R1 & R2 & R3 & R4).
  fold w' in R1, R2, R3, R4.
  split; [exact R1|]. split.
  { intros H. apply R4. rewrite F2. destruct H as [-> | ->]; [reflexivity|apply orb_true_r]. }
  split; [now rewrite R2|]. split; [now rewrite R3|]. split; [|split].
  - intros. now apply aborted_task_rejects_say.
  - intros. now apply aborted_task_rejects_ask.
  - intros. unfold recursivelyMakeClineRequests_guard, bind, getThis. cbv beta iota.
    now rewrite R1.
Qed.

(** ** Pause/resume: two waits at once *)

(** X19. Only the latest wait is tracked. When [waitForResume] is entered
    again while a wait is pending, [pauseInterval] holds the timer of the
    second wait and the first timer keeps running beside it: [abortTask]
    stops the second timer only. And once the task is resumed, a tick of
    the first timer resolves the first wait and clears the second timer,
    not its own, so the first timer runs on and the second wait stays
    pending whatever follows. *)
Theorem only_the_latest_wait_is_tracked w :
  (forall h, In h (resolved w) -> (h < nextHandle w)%nat) ->
  let h1 := nextHandle w in
  let h2 := S h1 in
  let w2 := snd (waitForResume_register (snd (waitForResume_register w))) in
  pauseInterval (this w2) = Some h2
  /\ In h1 (timers w2)
  /\ In h2 (timers w2)
  /\ (forall e isAbandoned,
        let w3 := snd (abortTask e isAbandoned w2) in
        pauseInterval (this w3) = None /\ In h1 (timers w3) /\ ~ In h2 (timers w3))
  /\ (forall eSay eApi result,
        let w3 := envStep (timerFires h1) (snd (resumePausedTask eSay eApi result w2)) in
        In h1 (resolved w3)
        /\ In h1 (timers w3)
        /\ pauseInterval (this w3) = None
        /\ forall sched, fst (awaitPromise h2 sched w3) = Pending).
Proof.
  intros Hfresh h1 h2 w2.
  assert (pauseInterval (this w2) = Some h2) as P2 by reflexivity.
  assert (timers w2 = h2 :: h1 :: timers w) as T2 by reflexivity.
  assert (resolved w2 = resolved w) as R2 by reflexivity.
  assert (nextHandle w2 = S h2) as N2 by reflexivity.
  split; [exact P2|]. split; [rewrite T2; right; now left|].
  split; [rewrite T2; now left|]. split.
  - intros e isAbandoned w3.
    destruct (abortTask_frame e isAbandoned w2) as (_ & _ & _ & F0 & F1 & _).
    fold w3 in F0, F1. rewrite P2, T2 in F1. split; [exact F0|].
    rewrite F1. cbn [List.filter]. rewrite Nat.eqb_refl. cbn [negb].
    replace (Nat.eqb h1 h2) with false
      by (symmetry; apply Nat.eqb_neq; subst h2; lia).
    cbn [negb]. split; [now left|].
    intros [E|H]; [subst h2; lia|]. now apply In_filter_ne in H.
  - intros eSay eApi result w3.
    destruct (resumePausedTask_frame eSay eApi result w2)
      as (_ & F1 & F2 & F3 & F4 & F5 & _).
    set (wr := snd (resumePausedTask eSay eApi result w2)) in *.
    rewrite P2 in F2. rewrite T2 in F3. rewrite N2 in F4. rewrite R2 in F5.
    assert (w3 = snd (pauseIntervalCallback h1 wr)) as E3.
    { subst w3. cbn [envStep]. rewrite F3. cbn [existsb].
      rewrite Nat.eqb_refl, orb_true_r. reflexivity. }
    assert (timers w3 = h1 :: List.filter (fun h' => negb (Nat.eqb h' h2)) (timers w)
            /\ resolved w3 = h1 :: resolved w
            /\ pauseInterval (this w3) = None
            /\ nextHandle w3 = S h2) as (T3 & R3 & P3 & N3).
    { rewrite E3. unfold pauseIntervalCallback, bind, getThis. cbv beta iota.
      rewrite F1. cbn [negb]. unfold clearIntervalNow, assign, resolvePromise.
      cbn [fst snd with_this this timers resolved nextHandle pauseInterval
             set_pauseInterval].
      rewrite F2, F3, F4, F5. cbn [List.filter]. rewrite Nat.eqb_refl. cbn [negb].
      replace (Nat.eqb h1 h2) with false
        by (symmetry; apply Nat.eqb_neq; subst h2; lia).
      cbn [negb]. repeat split. }
    split; [rewrite R3; now left|]. split; [rewrite T3; now left|].
    split; [exact P3|].
    intros sched. apply awaitPromise_stopped. unfold stopped. rewrite T3, R3, N3.
    repeat split; [| |lia].
    + intros [E|H]; [subst h2; lia|]. now apply In_filter_ne in H.
    + intros [E|H]; [subst h2; lia|]. apply Hfresh in H. subst h2 h1. lia.
Qed.
(** ** A task whose provider is gone *)

(** X20. When the weak reference to the provider is dead, an [ask] or a [say]
    makes no call on the provider (no state or message is posted to the
    webview, the task history is not updated), raises nothing on that
    account, and leaves the task object exactly as the same call does with
    a live provider: the outcome of the [say], and of the [ask] up to its
    wait, is the outcome of the same call with a live provider, whatever
    the disk does; so a [say] on a task that is not aborted returns, and a
    new atomic [ask] gets to its wait. *)
Theorem a_dead_provider_is_skipped kind type partial c w :
  provider (call_env c) = false ->
  let w' := invoke kind type partial c w in
  let live := withProvider c in
  (exists evs,
      trace w' = trace w ++ evs /\ Forall (fun ev => isProviderCall ev = false) evs)
  /\ this w' = this (invoke kind type partial live w)
  /\ fst (say (call_env c) type (call_text c) (call_images c) partial (call_checkpoint c)
            (call_progressStatus c) (call_isNonInteractive c) (call_contextCondense c) w)
     = fst (say (call_env live) type (call_text c) (call_images c) partial
              (call_checkpoint c) (call_progressStatus c) (call_isNonInteractive c)
              (call_contextCondense c) w)
  /\ fst (ask_begin (call_env c) type (call_text c) partial (call_progressStatus c) w)
     = fst (ask_begin (call_env live) type (call_text c) partial (call_progressStatus c) w)
  /\ (abort (this w) = false ->
      fst (say (call_env c) type (call_text c) (call_images c) partial (call_checkpoint c)
             (call_progressStatus c) (call_isNonInteractive c) (call_contextCondense c) w)
      = Return tt
      /\ fst (ask_begin (call_env c) type (call_text c) None (call_progressStatus c) w)
         = Return (Date_now (call_env c))).
Proof.
  sealed.
  intros Hp w' live. subst w' live.
  destruct c as [e tx im cp ps ni cc]. unfold withProvider.
  cbn [call_env call_text call_images call_checkpoint call_progressStatus
         call_isNonInteractive call_contextCondense] in *.
  split; [|split; [|split; [|split]]].
  - unfold invoke, say, ask_begin.
    cbn [call_env call_text call_images call_checkpoint call_progressStatus
           call_isNonInteractive call_contextCondense].
    destruct e as [now prov sf af ed]. cbn [provider] in Hp. subst prov.
    destruct (abort (this w)) eqn:Ha.
    { destruct kind; run; rewrite Ha; simpl;
        exists []; (split; [now rewrite app_nil_r|constructor]). }
    destruct (isUpdatingPreviousPartial kind type (at_last (clineMessages (this w))))
      as [m0|] eqn:Hu;
      destruct kind; run; rewrite Ha;
      destruct partial as [[|]|]; simpl; rewrite ?Hu; simpl; try destruct ni; simpl;
      destruct sf as [[[| |] err]|]; run; rewrite <- ?app_assoc; simpl;
      (eexists; split; [reflexivity|repeat constructor]).
  - unfold invoke, say, ask_begin.
    cbn [call_env call_text call_images call_checkpoint call_progressStatus
           call_isNonInteractive call_contextCondense Date_now saveFault apiSaveFault
           isEditing].
    destruct e as [now prov sf af ed]. cbn [provider] in Hp. subst prov.
    cbn [Date_now saveFault apiSaveFault isEditing].
    destruct (abort (this w)) eqn:Ha.
    { destruct kind; run; rewrite Ha; reflexivity. }
    destruct (isUpdatingPreviousPartial kind type (at_last (clineMessages (this w))))
      as [m0|] eqn:Hu;
      destruct kind; run; rewrite Ha;
      destruct partial as [[|]|]; simpl; rewrite ?Hu; simpl; try destruct ni; simpl;
      destruct sf as [[[| |] err]|]; run; reflexivity.
  - now rewrite !say_outcome.
  - unfold ask_begin.
    destruct e as [now prov sf af ed]. cbn [provider] in Hp. subst prov.
    cbn [Date_now saveFault apiSaveFault isEditing].
    run. destruct (abort (this w)); [reflexivity|].
    destruct partial as [[|]|]; simpl;
      try destruct (isUpdatingPreviousPartial type_ask type _); simpl;
      destruct sf as [[[| |] err]|]; run; reflexivity.
  - intros Ha. split; [rewrite say_outcome, Ha; reflexivity|].
    now destruct (ask_begin_atomic e type tx w Ha) as (H & _).
Qed.

(** ** The digest of a token, in hexadecimal *)

Lemma concat_empty_cons (x : string) (l : list string) :
  String.concat "" (x :: l) = (x ++ String.concat "" l)%string.
Proof.
  cbn [String.concat]. destruct l; [|reflexivity].
  cbn [String.concat]. now rewrite append_empty_r.
Qed.

Lemma hexDigit_spec n :
  0 <= n < 16 -> hexValue (hexDigit n) = n /\ isHexDigit (hexDigit n) = true.
Proof.
  intros H. rewrite <- (Z2Nat.id n) by lia.
  assert (Z.to_nat n < 16)%nat as Hn by lia.
  revert Hn. generalize (Z.to_nat n) as m. intros m Hm.
  do 16 (destruct m as [|m]; [split; reflexivity|]). lia.
Qed.

(** X21. The text of a digest has two characters for each byte, all of them
    digits or the letters a to f, and the bytes can be read back from it:
    different digests never give the same text. *)
Theorem hashToken_writes_two_hex_digits_per_byte digest token :
  (forall b, In b (digest token) -> 0 <= b < 256) ->
  String.length (hashToken digest token) = (2 * length (digest token))%nat
  /\ (forall c, In c (list_ascii_of_string (hashToken digest token)) -> isHexDigit c = true)
  /\ bytesOfHex (hashToken digest token) = digest token.
Proof.
  unfold hashToken. generalize (digest token) as bytes.
  induction bytes as [|b bytes IH]; intros Hb.
  - repeat split. intros c [].
  - destruct IH as (I1 & I2 & I3); [intros x Hx; apply Hb; now right|].
    pose proof (Hb b (or_introl eq_refl)) as Hr.
    assert (0 <= b / 16 < 16) as Hh
      by (split; [apply Z.div_pos; lia|apply Z.div_lt_upper_bound; lia]).
    assert (0 <= b mod 16 < 16) as Hl by (apply Z.mod_pos_bound; lia).
    destruct (hexDigit_spec _ Hh) as [H1 H2]. destruct (hexDigit_spec _ Hl) as [L1 L2].
    cbn [List.map]. rewrite concat_empty_cons.
    set (rest := String.concat "" (List.map byteToHex bytes)) in *.
    unfold byteToHex. cbn [append].
    change (bytesOfHex (String (hexDigit (b / 16)) (String (hexDigit (b mod 16)) rest)))
      with ((16 * hexValue (hexDigit (b / 16)) + hexValue (hexDigit (b mod 16)))
              :: bytesOfHex rest).
    cbn [String.length list_ascii_of_string].
    split; [rewrite I1; cbn [length]; lia|]. split.
    + intros c [<-|[<-|Hc]]; auto.
    + rewrite I3, H1, L1. f_equal. pose proof (Z.div_mod b 16 ltac:(lia)). lia.
Qed.

End Engine.

(** * Concrete runs *)

(** ** C1: "He", "Hell", then the complete "Hello" *)

Lemma partial_then_complete_yields_one_entry_witness :
  abort (this newWorld) = false
  /\ exists m,
       clineMessages
         (this (invoke type_say "text" (Some false) (plainCall 1002 "Hello")
                  (invokeAll type_say "text" (Some true)
                     [plainCall 1000 "He"; plainCall 1001 "Hell"] newWorld)))
       = [] ++ [m]
       /\ ClineMessage.ts m = 1000
       /\ ClineMessage.partial m = Some false
       /\ ClineMessage.text m = Some "Hello"%string
       /\ ClineMessage.type m = type_say
       /\ tagOf type_say m = Some "text"%string.
Proof.
  split; [reflexivity|].
  exact (proj1 (proj2 (partial_then_complete_yields_one_entry type_say "text"
                         (plainCall 1000 "He") [plainCall 1001 "Hell"]
                         (plainCall 1002 "Hello") newWorld eq_refl))).
Defined.

(** ** C4: an atomic ask answered during its second sleep *)

Lemma atomic_ask_polls_until_answered_or_superseded_witness :
  abort (this newWorld) = false
  /\ fst (ask (calm 1000)
            [[]; [webviewAskResponse messageResponse (Some "main.ts"%string) None None]]
            "followup" (Some "Which file?"%string) None None newWorld)
     = Return {| response := Some messageResponse; response_text := Some "main.ts"%string;
                 response_images := None |}
  /\ pollWaits
       (trace (snd (ask (calm 1000)
                      [[]; [webviewAskResponse messageResponse (Some "main.ts"%string) None
                              None]]
                      "followup" (Some "Which file?"%string) None None newWorld)))
     = [100; 100].
Proof.
  split; [reflexivity|].
  destruct (atomic_ask_polls_until_answered_or_superseded (calm 1000)
              [[]; [webviewAskResponse messageResponse (Some "main.ts"%string) None None]]
              "followup"%string (Some "Which file?"%string) newWorld eq_refl)
    as (_ & _ & _ & _ & _ & _ & H & _).
  exact (H 1%nat messageResponse (Some "main.ts"%string) None None [] eq_refl).
Defined.

Example atomic_ask_answered :
  fst (ask (calm 1000)
         [[webviewAskResponse messageResponse (Some "main.ts"%string) None None]]
         "followup" (Some "Which file?"%string) None None newWorld)
  = Return {| response := Some messageResponse; response_text := Some "main.ts"%string;
              response_images := None |}.
Proof. reflexivity. Qed.

(** A later message supersedes the ask, also when a response arrives
    during the same 100 ms sleep. *)
Example atomic_ask_superseded :
  fst (ask (calm 1000)
         [[otherSay (calm 1001) "text" (Some "next"%string) None None None None false None]]
         "followup" (Some "Which file?"%string) None None newWorld)
  = Throw (Error "Current ask promise was ignored")
  /\ fst (ask (calm 1000)
            [[webviewAskResponse messageResponse (Some "main.ts"%string) None None;
              otherSay (calm 1001) "text" (Some "next"%string) None None None None false
                None]]
            "followup" (Some "Which file?"%string) None None newWorld)
     = Throw (Error "Current ask promise was ignored").
Proof. split; reflexivity. Qed.

(** ** C6: resuming a paused parent with the result "R" *)

Lemma resume_appends_the_child_result_witness :
  abort (this pausedWorld) = false
  /\ isPaused (this pausedWorld) = true
  /\ isPaused (this (snd (resumePausedTask (calm 10) (calm 11) "R" pausedWorld))) = false
  /\ apiConversationHistory
       (this (snd (resumePausedTask (calm 10) (calm 11) "R" pausedWorld)))
     = [] ++ [ApiMessage.mk user (ContentBlocks [TextBlock "[new_task completed] Result: R"])
                (Some 11)].
Proof.
  split; [reflexivity|]. split; [reflexivity|].
  destruct (resume_appends_the_child_result (calm 10) (calm 11) "R"%string pausedWorld
              eq_refl)
    as (_ & H2 & _ & _ & H5 & _).
  exact (conj H2 H5).
Defined.

(** ** C10: abort while the parent waits for its sub-task *)

Lemma abort_during_pause_stops_the_timer_and_the_wait_never_resolves_witness :
  pauseInterval (this pausedWorld) = Some O
  /\ (0 < nextHandle pausedWorld)%nat
  /\ ~ In O (resolved pausedWorld)
  /\ pauseInterval (this (snd (abortTask (calm 5) false pausedWorld))) = None
  /\ fst (awaitPromise O
            [resumeRequest (calm 6) (calm 7) "done"; timerFires O; timerFires O]
            (snd (abortTask (calm 5) false pausedWorld)))
     = Pending.
Proof.
  split; [reflexivity|]. split; [exact (le_n 1)|]. split; [exact (fun H => H)|].
  destruct (abort_during_pause_stops_the_timer_and_the_wait_never_resolves
              O (calm 5) false pausedWorld eq_refl (le_n 1) (fun H => H))
    as (H1 & _ & _ & _ & H5 & _).
  exact (conj H1
           (proj2 (H5 [resumeRequest (calm 6) (calm 7) "done"; timerFires O; timerFires O]))).
Defined.

(** Without the abort the same schedule resumes the parent. *)
Example resume_without_abort :
  fst (awaitPromise O [resumeRequest (calm 6) (calm 7) "done"; timerFires O] pausedWorld)
  = Return tt.
Proof. reflexivity. Qed.

(** ** C8: a new message is saved and its metrics derived *)

Lemma every_mutation_notifies_and_all_but_partial_updates_persist_witness :
  abort (this newWorld) = false
  /\ exists evs,
       trace (invoke type_say "text" None (plainCall 1000 "Hello") newWorld)
       = trace newWorld ++ evs
       /\ (exists action m,
             at_last (clineMessages
                        (this (invoke type_say "text" None (plainCall 1000 "Hello")
                                 newWorld)))
             = Some m
             /\ In (emit_message action m) evs)
       /\ In (saveTaskMessages
                (clineMessages
                   (this (invoke type_say "text" None (plainCall 1000 "Hello") newWorld))))
             evs
          /\ (faultAt (call_env (plainCall 1000 "Hello")) at_saveTaskMessages = None ->
              In (taskMetadata
                    (clineMessages
                       (this (invoke type_say "text" None (plainCall 1000 "Hello")
                                newWorld))))
                 evs).
Proof.
  split; [reflexivity|].
  exact (every_mutation_notifies_and_all_but_partial_updates_persist type_say "text" None
           (plainCall 1000 "Hello") newWorld eq_refl).
Defined.

(** ** C5: a disk that refuses every write *)

Lemma persistence_failure_is_logged_and_swallowed_witness :
  apiSaveFault (brokenDisk 1) = Some (Error "ENOSPC")
  /\ fst (addToApiConversationHistory (brokenDisk 1) user (ContentString "hi") newWorld)
     = Return tt
  /\ apiConversationHistory
       (this (snd (addToApiConversationHistory (brokenDisk 1) user (ContentString "hi")
                     newWorld)))
     = apiConversationHistory (this newWorld)
         ++ [ApiMessage.mk user (ContentString "hi") (Some (Date_now (brokenDisk 1)))]
  /\ trace (snd (saveApiConversationHistory (brokenDisk 1) newWorld))
     = trace newWorld
         ++ [saveApiMessages (apiConversationHistory (this newWorld));
             console_error "Failed to save API conversation history:" (Error "ENOSPC")].
Proof.
  split; [reflexivity|].
  destruct persistence_failure_is_logged_and_swallowed as (H1 & _ & H3 & _).
  destruct (H3 (brokenDisk 1) user (ContentString "hi") newWorld) as (A & B & _).
  destruct (H1 (brokenDisk 1) newWorld) as (_ & _ & C).
  exact (conj A (conj B (C (Error "ENOSPC") eq_refl))).
Defined.

(** ** C9: a response left in the slot does not answer the next ask *)

Lemma a_stored_response_answers_at_most_one_ask_witness :
  forallb (forallb (fun a => negb (isWebviewAskResponse a))) [[idle]; [idle]] = true
  /\ askResponse
       (this (snd (handleWebviewAskResponse yesButtonClicked None None None newWorld)))
     = Some yesButtonClicked
  /\ forall answer,
       fst (ask (calm 1000) [[idle]; [idle]] "command" None None None
              (snd (handleWebviewAskResponse yesButtonClicked None None None newWorld)))
       <> Return answer.
Proof.
  split; [reflexivity|]. split; [reflexivity|].
  destruct a_stored_response_answers_at_most_one_ask as (_ & _ & _ & H4).
  exact (H4 (calm 1000) [[idle]; [idle]] "command"%string None None None
           (snd (handleWebviewAskResponse yesButtonClicked None None None newWorld))
           eq_refl).
Defined.

(** ** C7: the operator answers the mistake-limit ask with guidance *)

Lemma mistake_limit_guard_asks_and_resets_witness :
  abort (this mistakenWorld) = false
  /\ consecutiveMistakeLimit (this mistakenWorld)
     <= consecutiveMistakeCount (this mistakenWorld)
  /\ fst (recursivelyMakeClineRequests_guard sampleTooManyMistakes sampleImageBlocks
            (calm 1000) (calm 1001)
            [[webviewAskResponse messageResponse (Some "smaller steps"%string) None None]]
            true [TextBlock "task"] mistakenWorld)
     = Return [TextBlock "task";
               TextBlock "You seem to be having trouble proceeding. smaller steps"]
  /\ consecutiveMistakeCount
       (this (snd (recursivelyMakeClineRequests_guard sampleTooManyMistakes
                     sampleImageBlocks (calm 1000) (calm 1001)
                     [[webviewAskResponse messageResponse (Some "smaller steps"%string)
                         None None]]
                     true [TextBlock "task"] mistakenWorld)))
     = 0.
Proof.
  split; [reflexivity|]. split; [discriminate|]. split; [reflexivity|].
  destruct (mistake_limit_guard_asks_and_resets sampleTooManyMistakes sampleImageBlocks
              (calm 1000) (calm 1001)
              [[webviewAskResponse messageResponse (Some "smaller steps"%string) None None]]
              true [TextBlock "task"] mistakenWorld eq_refl (Z.le_refl 3))
    as (_ & _ & _ & _ & H5).
  exact (H5 _ eq_refl).
Defined.

(** ** C2: the connection breaks after "Hello" *)

Lemma mid_stream_failure_cancels_and_keeps_the_partial_output_witness :
  streamLoop presentNothing sampleApiReqInfo 0 [yields (calm 1) (Some (chunk_text "Hello"))]
    initialLocals (with_this (set_isStreaming true) requestWorld)
  = (Return exhausted, add_assistantMessage "Hello" initialLocals,
     record (setChatType "system") (with_this (set_isStreaming true) requestWorld))
  /\ fst (recursivelyMakeClineRequests_request presentNothing sampleApiReqInfo
            endAfterStream (calm 2) (calm 3) false 0 helloThenError requestWorld)
     = Return true
  /\ apiConversationHistory
       (this (snd (recursivelyMakeClineRequests_request presentNothing sampleApiReqInfo
                     endAfterStream (calm 2) (calm 3) false 0 helloThenError requestWorld)))
     = [] ++ [ApiMessage.mk assistant
                (ContentBlocks
                   [TextBlock ("Hello" ++ nl ++ nl ++ "[Response interrupted by API Error]")])
                (Some 3)].
Proof.
  split; [reflexivity|].
  destruct (mid_stream_failure_cancels_and_keeps_the_partial_output presentNothing
              sampleApiReqInfo endAfterStream (calm 2) (calm 3) false 0
              [yields (calm 1) (Some (chunk_text "Hello"))] (Error "socket hang up") []
              requestWorld (add_assistantMessage "Hello" initialLocals)
              (record (setChatType "system") (with_this (set_isStreaming true) requestWorld))
              eq_refl)
    as (H1 & _ & H3 & _).
  destruct (H3 eq_refl) as (_ & _ & H6 & _).
  exact (conj H1 H6).
Defined.

(** C2, counterexample. "Hello" has been received; the host abandons the
    task; then the stream throws. The handler does nothing: the iteration
    ends the loop, but the model-facing history gains no assistant message,
    so the text received is dropped without a marker. *)
Lemma abandoned_task_drops_the_partial_output :
  let r := recursivelyMakeClineRequests_request presentNothing sampleApiReqInfo
             endAfterStream (calm 3) (calm 4) false 0 helloAbandonedThenError requestWorld in
  textOf helloAbandonedThenError = "Hello"%string
  /\ fst r = Return true
  /\ abandoned (this (snd r)) = true
  /\ apiConversationHistory (this (snd r)) = []
  /\ didFinishAbortingStream (this (snd r)) = false.
Proof. vm_compute. repeat split. Qed.

(** ** C3: the third failure in a row, and a provider hint *)

Lemma first_chunk_failure_waits_then_retries_witness :
  (beforeFirstChunk prepareNothing (failingAttempt rateLimited) 0 newWorld
   = (Return 0, snd (beforeFirstChunk prepareNothing (failingAttempt rateLimited) 0 newWorld))
   /\ firstChunk (failingAttempt rateLimited) = firstChunkFails rateLimited
   /\ autoApprovalEnabled (state (failingAttempt rateLimited)) = true
   /\ alwaysApproveResubmit (state (failingAttempt rateLimited)) = true
   /\ abort (this (snd (beforeFirstChunk prepareNothing (failingAttempt rateLimited) 0
                          newWorld)))
      = false
   /\ exists w',
        attemptApiRequest prepareNothing plainRequestError [failingAttempt rateLimited] 0
          newWorld
        = attemptApiRequest prepareNothing plainRequestError [] 1 w'
        /\ delayed (trace w')
           = delayed (trace (snd (beforeFirstChunk prepareNothing
                                    (failingAttempt rateLimited) 0 newWorld)))
             + 1000 * Z.max 0 (Z.max 0 (30 + 1)))
  /\ (beforeFirstChunk prepareNothing (failingAttempt overloaded) 2 newWorld
      = (Return 0, snd (beforeFirstChunk prepareNothing (failingAttempt overloaded) 2
                          newWorld))
      /\ exists w',
           attemptApiRequest prepareNothing plainRequestError [failingAttempt overloaded] 2
             newWorld
           = attemptApiRequest prepareNothing plainRequestError [] 3 w'
           /\ delayed (trace w')
              = delayed (trace (snd (beforeFirstChunk prepareNothing
                                       (failingAttempt overloaded) 2 newWorld)))
                + 1000 * Z.max 0 (Z.max 0 20)).
Proof.
  split.
  - split; [reflexivity|]. split; [reflexivity|]. split; [reflexivity|].
    split; [reflexivity|]. split; [reflexivity|].
    destruct (first_chunk_failure_waits_then_retries prepareNothing plainRequestError
                (failingAttempt rateLimited) [] 0 rateLimited newWorld 0
                (snd (beforeFirstChunk prepareNothing (failingAttempt rateLimited) 0
                        newWorld))
                eq_refl eq_refl eq_refl eq_refl eq_refl)
      as (_ & _ & _ & _ & _ & H).
    apply (H {| at_type := RetryInfo; retryDelay := Some "30s"%string |} 30);
      [reflexivity|reflexivity|reflexivity|lia].
  - split; [reflexivity|].
    destruct (first_chunk_failure_waits_then_retries prepareNothing plainRequestError
                (failingAttempt overloaded) [] 2 overloaded newWorld 0
                (snd (beforeFirstChunk prepareNothing (failingAttempt overloaded) 2
                        newWorld))
                eq_refl eq_refl eq_refl eq_refl eq_refl)
      as (_ & _ & _ & H & _).
    apply H; [discriminate|reflexivity|reflexivity].
Defined.

Example third_failure_waits_20_seconds :
  computeFinalDelay None 2 overloaded 0 = 20
  /\ computeFinalDelay (Some 5%Q) 2 overloaded 0 = 20
  /\ computeFinalDelay None 2 overloaded 45 = 45.
Proof. repeat split. Qed.

Example retry_hint_of_30_seconds_waits_31 :
  retryHint rateLimited = Some 30
  /\ computeFinalDelay None 0 rateLimited 0 = 31
  /\ computeFinalDelay None 5 rateLimited 0 = 31.
Proof. repeat split. Qed.

(** * Further properties: instances *)

Lemma retry_delay_text_is_read_back_witness :
  0 <= 30 <= 9007199254740991
  /\ matchSeconds (string_of_Z 30 ++ "s") 0 false = Some 30.
Proof.
  assert (0 <= 30 <= 9007199254740991) as H by lia.
  split; [exact H|]. exact (proj1 (retry_delay_text_is_read_back 30 H)).
Defined.

Lemma usage_is_summed_and_the_last_cost_is_kept_witness :
  let r := streamLoop presentNothing sampleApiReqInfo 0 twoUsageChunks initialLocals
             newWorld in
  r = (Return exhausted, snd (fst r), snd r)
  /\ inputTokens (snd (fst r)) = 0 + usageSum chunk_inputTokens twoUsageChunks
  /\ totalCost (snd (fst r)) = lastCost twoUsageChunks None.
Proof.
  cbv zeta. split; [reflexivity|].
  destruct (usage_is_summed_and_the_last_cost_is_kept presentNothing sampleApiReqInfo 0
              twoUsageChunks initialLocals newWorld _ _ eq_refl) as (H1 & _ & _ & _ & H5).
  exact (conj H1 H5).
Defined.

Example usage_of_two_chunks :
  let locals := snd (fst (streamLoop presentNothing sampleApiReqInfo 0 twoUsageChunks
                            initialLocals newWorld)) in
  inputTokens locals = 13 /\ outputTokens locals = 9 /\ cacheWriteTokens locals = 2
  /\ cacheReadTokens locals = 7 /\ totalCost locals = None.
Proof. repeat split. Qed.

Lemma reasoning_chunks_share_one_message_witness :
  abort (this newWorld) = false
  /\ updatesInPlace type_say "reasoning" (this newWorld) = false
  /\ clineMessages
       (this (snd (streamLoop presentNothing sampleApiReqInfo 0
                     (reasoningStream [(calm 1, "Let me "%string); (calm 2, "think"%string)])
                     initialLocals newWorld)))
     = clineMessages (this newWorld)
         ++ [ClineMessage.mk (Date_now (calm 1)) type_say None (Some "reasoning"%string)
               (Some (reasoningMessage initialLocals
                        ++ reasoningText [(calm 1, "Let me "%string);
                                          (calm 2, "think"%string)])%string)
               None (Some true) None None None].
Proof.
  split; [reflexivity|]. split; [reflexivity|].
  exact (proj2 (proj2 (reasoning_chunks_share_one_message presentNothing sampleApiReqInfo 0
                         (calm 1) "Let me "%string [(calm 2, "think"%string)] initialLocals
                         newWorld eq_refl eq_refl eq_refl eq_refl))).
Defined.

Lemma user_cancel_keeps_the_text_received_witness :
  abort (this abortedRequestWorld) = true
  /\ apiConversationHistory
       (this (snd (streamLoop presentNothing sampleApiReqInfo 0
                     [yields (calm 5) (Some (chunk_text "Hel"));
                      yields (calm 6) (Some (chunk_text "lo"))]
                     initialLocals abortedRequestWorld)))
     = [ApiMessage.mk assistant
          (ContentBlocks [TextBlock ("Hel" ++ nl ++ nl ++ "[Response interrupted by user]")])
          (Some 5)].
Proof.
  split; [reflexivity|].
  destruct (user_cancel_keeps_the_text_received presentNothing sampleApiReqInfo (calm 5)
              "Hel"%string [yields (calm 6) (Some (chunk_text "lo"))] 0 initialLocals
              abortedRequestWorld eq_refl) as (_ & _ & _ & H4).
  exact (proj1 (H4 eq_refl)).
Defined.

Lemma cancel_at_a_reasoning_chunk_is_recorded_as_a_failure_witness :
  abort (this abortedRequestWorld) = true
  /\ abandoned (this abortedRequestWorld) = false
  /\ apiConversationHistory
       (this (snd (recursivelyMakeClineRequests_request presentNothing sampleApiReqInfo
                     endAfterStream (calm 6) (calm 7) false 0
                     [yields (calm 5) (Some (chunk_reasoning "Hm"))] abortedRequestWorld)))
     = apiConversationHistory (this abortedRequestWorld)
         ++ [ApiMessage.mk assistant
               (ContentBlocks
                  [TextBlock (nl ++ nl ++ "[Response interrupted by API Error]")])
               (Some (Date_now (calm 7)))].
Proof.
  split; [reflexivity|]. split; [reflexivity|].
  exact (proj2 (cancel_at_a_reasoning_chunk_is_recorded_as_a_failure presentNothing
                  sampleApiReqInfo endAfterStream (calm 6) (calm 7) false 0 (calm 5)
                  "Hm"%string [] abortedRequestWorld eq_refl eq_refl)).
Defined.


Lemma hashToken_writes_two_hex_digits_per_byte_witness :
  (forall b, In b [0; 15; 16; 255] -> 0 <= b < 256) 
  /\ hashToken (fun _ => [0; 15; 16; 255]) "token" = "000f10ff"%string
  /\ bytesOfHex (hashToken (fun _ => [0; 15; 16; 255]) "token") = [0; 15; 16; 255].
Proof.
  assert (forall b, In b [0; 15; 16; 255] -> 0 <= b < 256) as H
    by (intros b [<-|[<-|[<-|[<-|[]]]]]; lia).
  split; [exact H|]. split; [reflexivity|].
  exact (proj2 (proj2 (hashToken_writes_two_hex_digits_per_byte
                         (fun _ => [0; 15; 16; 255]) "token"%string H))).
Defined.

Lemma a_dead_provider_is_skipped_witness :
  let c := {| call_env := orphaned 1000; call_text := Some "hello"%string;
              call_images := None; call_checkpoint := None; call_progressStatus := None;
              call_isNonInteractive := false; call_contextCondense := None |} in
  provider (call_env c) = false
  /\ this (invoke type_say "text" None c newWorld)
     = this (invoke type_say "text" None (withProvider c) newWorld)
  /\ fst (say (orphaned 1000) "text" (Some "hello"%string) None None None None false None
            newWorld)
     = Return tt.
Proof.
  cbv zeta. split; [reflexivity|].
  destruct (a_dead_provider_is_skipped type_say "text"%string None
              {| call_env := orphaned 1000; call_text := Some "hello"%string;
                 call_images := None; call_checkpoint := None;
                 call_progressStatus := None; call_isNonInteractive := false;
                 call_contextCondense := None |} newWorld eq_refl)
    as (_ & H2 & _ & _ & H5).
  exact (conj H2 (proj1 (H5 eq_refl))).
Defined.

Example a_dead_provider_gets_no_call :
  trace (invoke type_say "text" None
           {| call_env := orphaned 1000; call_text := Some "hello"%string;
              call_images := None; call_checkpoint := None; call_progressStatus := None;
              call_isNonInteractive := false; call_contextCondense := None |} newWorld)
  = [emit_message created
       (ClineMessage.mk 1000 type_say None (Some "text"%string) (Some "hello"%string) None
          None None None None);
     saveTaskMessages
       [ClineMessage.mk 1000 type_say None (Some "text"%string) (Some "hello"%string) None
          None None None None];
     taskMetadata
       [ClineMessage.mk 1000 type_say None (Some "text"%string) (Some "hello"%string) None
          None None None None];
     emit "taskTokenUsageUpdated"].
Proof. reflexivity. Qed.

Lemma rate_limit_countdown_runs_on_the_first_attempt_only_witness :
  let w := with_this (set_lastApiRequestTime (Some 1000)) newWorld in
  abort (this w) = false
  /\ computeRateLimitDelay (lastApiRequestTime (this w)) (now rateLimitedAttempt)
       (rateLimitSeconds (state rateLimitedAttempt)) = 2
  /\ exists w1,
       beforeFirstChunk prepareNothing rateLimitedAttempt 0 w
       = bind prepareNothing
           (fun _ => bind (call createMessage)
              (fun _ => bind (assign (set_isWaitingForFirstChunk true))
                 (fun _ => ret 2))) w1
       /\ lastApiRequestTime (this w1) = Some (requestTime rateLimitedAttempt)
       /\ abort (this w1) = false
       /\ delayed (trace w1) = delayed (trace w) + 1000 * Z.max 0 2.
Proof.
  cbv zeta. split; [reflexivity|]. split; [reflexivity|].
  exact (rate_limit_countdown_runs_on_the_first_attempt_only prepareNothing
           rateLimitedAttempt 0 (with_this (set_lastApiRequestTime (Some 1000)) newWorld)
           eq_refl).
Defined.

Lemma only_the_latest_wait_is_tracked_witness :
  (forall h, In h (resolved newWorld) -> (h < nextHandle newWorld)%nat)
  /\ pauseInterval
       (this (snd (waitForResume_register (snd (waitForResume_register newWorld)))))
     = Some 1%nat.
Proof.
  assert (forall h, In h (resolved newWorld) -> (h < nextHandle newWorld)%nat) as H
    by (intros h []).
  split; [exact H|]. exact (proj1 (only_the_latest_wait_is_tracked newWorld H)).
Defined.

(** ** Further properties: sample runs *)

Example changed_lines_of_a_diff :
  getDiffLines
    (fun _ _ =>
       [ {| value := "a" ++ nl; added := None; removed := None; count := Some 1 |};
         {| value := "b" ++ nl ++ "c"; added := None; removed := Some true; count := None |};
         {| value := ""; added := Some true; removed := None; count := None |};
         {| value := "d" ++ nl; added := Some true; removed := None; count := Some 1 |} ])
    "old" "new"
  = 4.
Proof. reflexivity. Qed.

Example ages_in_words :
  agoText (Some 0) 0 59999 = "just now"%string
  /\ agoText (Some 0) 0 60000 = "1 minute ago"%string
  /\ agoText (Some 0) 0 7200000 = "2 hours ago"%string
  /\ agoText (Some 0) 0 86400000 = "1 day ago"%string
  /\ agoText (Some 1000) 0 0 = "just now"%string.
Proof. repeat split. Qed.

Example tool_usage_after_three_calls :
  fold_left (fun u c => runToolCall "task" c u)
    [usageCall "read_file"; errorCall "apply_diff" (Some "no match"%string);
     usageCall "read_file"] []
  = [("read_file"%string, {| attempts := 2; failures := 0 |});
     ("apply_diff"%string, {| attempts := 0; failures := 1 |})].
Proof. reflexivity. Qed.

Lemma the_user_turn_is_published_before_the_request_witness :
  abort (this newWorld) = false
  /\ harmless (fun w : World => (Return tt, w))
  /\ fst (recursivelyMakeClineRequests_userTurn sampleMarkdown sampleRequestJson
            (fun l => l) (fun _ w => (Return tt, w)) sampleTurn
            [TextBlock "<task>fix the bug</task>"] newWorld)
     = Return (Z.of_nat (length (clineMessages (this newWorld))),
               parsedUserContent sampleTurn ++ [TextBlock (environmentDetails sampleTurn)]).
Proof.
  assert (harmless (fun w : World => (Return tt, w))) as H
    by (intros w; split; reflexivity).
  split; [reflexivity|]. split; [exact H|].
  exact (proj1 (the_user_turn_is_published_before_the_request sampleMarkdown
                  sampleRequestJson (fun l => l) (fun _ w => (Return tt, w)) sampleTurn
                  [TextBlock "<task>fix the bug</task>"] newWorld eq_refl H)).
Defined.

Example the_request_start_message_of_a_turn :
  clineMessages
    (this (snd (recursivelyMakeClineRequests_userTurn sampleMarkdown sampleRequestJson
                  (fun l => l) (fun _ w => (Return tt, w)) sampleTurn
                  [TextBlock "<task>fix the bug</task>"] newWorld)))
  = [ClineMessage.mk 100 type_say None (Some "api_req_started"%string)
       (Some ("{request:<task>fix the bug</task>" ++ nl ++ nl
                ++ "<environment_details></environment_details>}")%string)
       None None None None None].
Proof. reflexivity. Qed.
